(** * TravelAssistant: the Wikivoyage crawler and its global graph

  A shallow embedding of the crawler core of the data-ingestion service
  ([fetchers/wikivoyage_fetcher.py]) and of the global-graph merge
  ([utils/file_manager.py]), followed by the properties established
  about them.

  Conventions of the embedding.
  - A Python [str] is a Rocq [string], character for character, for text
    in the 8-bit range (Basic Latin and Latin-1 Supplement); on that range
    [str.lower], [str.isalnum], [str.isspace] and [str.strip] are the
    tables of module [PyStr].
  - A Python [dict] with string keys is a [gmap string _]; [d.get(k)] is
    the lookup [d !! k].
  - [None] is [None]; truthiness ([if x:]) is written out per type. *)

From Stdlib Require Import String Ascii ZArith QArith_base.
From stdpp Require Import gmap strings list.

Local Open Scope string_scope.
Local Open Scope list_scope.
Set Warnings "-register-all".

(** * Part I: the program *)

(** ** Python strings *)
Module PyStr.

(** Code point of a character. *)
Definition ord (c : ascii) : N := N_of_ascii c.

(** [c.lower()] on one character: A-Z and the Latin-1 capitals
    U+00C0..U+00DE (the multiplication sign U+00D7 apart) move up by 32. *)
Definition lower_char (c : ascii) : ascii :=
  let n := ord c in
  if ((65 <=? n) && (n <=? 90)
      || (192 <=? n) && (n <=? 222) && negb (n =? 215))%N
  then ascii_of_N (n + 32) else c.

(** [c.isalnum()]: digits, letters, and the Latin-1 letters and numeric
    characters (feminine/masculine ordinal, micro sign, superscripts,
    vulgar fractions, U+00C0..U+00FF without the two operators). *)
Definition isalnum (c : ascii) : bool :=
  let n := ord c in
  ((48 <=? n) && (n <=? 57)
   || (65 <=? n) && (n <=? 90)
   || (97 <=? n) && (n <=? 122)
   || (n =? 170) || (n =? 178) || (n =? 179) || (n =? 181)
   || (n =? 185) || (n =? 186)
   || (188 <=? n) && (n <=? 190)
   || (192 <=? n) && (n <=? 255) && negb (n =? 215) && negb (n =? 247))%N.

(** [c.isspace()], which is also what [str.strip()] removes. *)
Definition isspace (c : ascii) : bool :=
  let n := ord c in
  ((9 <=? n) && (n <=? 13) || (28 <=? n) && (n <=? 32)
   || (n =? 133) || (n =? 160))%N.

(** [int(c)] of a one-character string succeeds on a decimal digit. *)
Definition digit (c : ascii) : option Z :=
  let n := ord c in
  if ((48 <=? n) && (n <=? 57))%N then Some (Z.of_N n - 48)%Z else None.

Fixpoint map_chars (f : ascii -> ascii) (s : string) : string :=
  match s with
  | EmptyString => EmptyString
  | String c s' => String (f c) (map_chars f s')
  end.

Fixpoint filter_chars (p : ascii -> bool) (s : string) : string :=
  match s with
  | EmptyString => EmptyString
  | String c s' =>
      if p c then String c (filter_chars p s') else filter_chars p s'
  end.

(** [s.lower()] *)
Definition lower (s : string) : string := map_chars lower_char s.

(** [s.replace(old, new)] for one-character [old] and [new]. *)
Definition replace (old new : ascii) (s : string) : string :=
  map_chars (fun c => if Ascii.eqb c old then new else c) s.

Fixpoint lstrip (s : string) : string :=
  match s with
  | EmptyString => EmptyString
  | String c s' => if isspace c then lstrip s' else s
  end.

(** [s.strip()] *)
Definition strip (s : string) : string :=
  String.rev (lstrip (String.rev (lstrip s))).

(** [s.startswith(p)] *)
Definition startswith (s p : string) : bool := String.prefix p s.

(** [s.endswith(p)]: [p] is one of the suffixes of [s]. *)
Fixpoint endswith (s p : string) : bool :=
  String.eqb s p
  || match s with
     | EmptyString => false
     | String _ s' => endswith s' p
     end.

(** [sub in s]: [sub] occurs in [s] as a contiguous substring. *)
Fixpoint contains (sub s : string) : bool :=
  String.prefix sub s
  || match s with
     | EmptyString => false
     | String _ s' => contains sub s'
     end.

(** [sep.join(parts)] *)
Definition join (sep : string) (parts : list string) : string :=
  String.concat sep parts.

(** [all(p(c) for c in s)] *)
Fixpoint all_chars (p : ascii -> bool) (s : string) : bool :=
  match s with
  | EmptyString => true
  | String c s' => p c && all_chars p s'
  end.

(** Truthiness of a string: non-empty. *)
Definition nonempty (s : string) : bool := negb (String.eqb s "").

(** Truthiness of [d.get(k)] for a string-valued entry: present and
    non-empty. *)
Definition truthy (o : option string) : bool :=
  match o with
  | Some s => nonempty s
  | None => false
  end.

(** [s[n:]] *)
Fixpoint drop (n : nat) (s : string) : string :=
  match n, s with
  | O, _ => s
  | S n', String _ s' => drop n' s'
  | S _, EmptyString => EmptyString
  end.

(** [s.split(sep)] for a non-empty [sep], read from the left: [skip]
    counts the characters of a separator just met that are still to be
    passed over. *)
Fixpoint split_from (sep : string) (skip : nat) (s : string) : list string :=
  match s with
  | EmptyString => [EmptyString]
  | String c s' =>
      match skip with
      | S k => split_from sep k s'
      | O =>
          if String.prefix sep s
          then EmptyString :: split_from sep (String.length sep - 1) s'
          else
            match split_from sep 0 s' with
            | piece :: pieces => String c piece :: pieces
            | [] => [String c EmptyString]
            end
      end
  end.

Definition split (sep s : string) : list string := split_from sep 0 s.

(** [s.split(sep)[0]] and [s.split(sep)[-1]] *)
Definition split_first (sep s : string) : string :=
  List.hd EmptyString (split sep s).
Definition split_last (sep s : string) : string :=
  List.last (split sep s) EmptyString.

(** The maximal runs of characters that are not whitespace
    ([re.findall(r"\S+", s)]); [run] is the run being read. *)
Fixpoint tokens_from (run : string) (s : string) : list string :=
  match s with
  | EmptyString => if nonempty run then [String.rev run] else []
  | String c s' =>
      if isspace c
      then (if nonempty run then [String.rev run] else [])
           ++ tokens_from EmptyString s'
      else tokens_from (String c run) s'
  end.

Definition tokens (s : string) : list string := tokens_from EmptyString s.

(** The code points of the 8-bit range that satisfy [p]. *)
Definition codes (p : ascii -> bool) : list N :=
  List.filter (fun n => p (ascii_of_N n)) (map N.of_nat (seq 0 256)).

End PyStr.

(** ** Node and relationship classifiers ([WikivoyageFetcher]) *)
Module Classifier.

(** The part of [parsed_data["metadata"]] the classifier reads. A missing
    key reads as the empty value: [metadata.get("sections", {})] for the
    sections, and [metadata.get("regions")] is falsy for a missing key as
    for an empty list. *)
Record metadata := Metadata {
  sections : gmap string string;
  regions : list string;
  cities : list string
}.

(** [parsed_data]: a missing ["metadata"] key reads as the empty metadata
    ([parsed_data.get("metadata", {})]); [coordinates] is [None] or the
    pair of ["lat"] and ["lon"]. *)
Record parsed_data := ParsedData {
  pd_metadata : metadata;
  coordinates : option (Q * Q)
}.

Definition list_truthy {A} (l : list A) : bool :=
  match l with [] => false | _ => true end.

Definition _detect_node_type (query : string) (pd : parsed_data) : string :=
  let metadata := pd_metadata pd in
  let sections := sections metadata in
  let get k := PyStr.truthy (sections !! k) in
  if get "regions" || get "cities"
     || list_truthy (regions metadata) || list_truthy (cities metadata)
  then "country"
  else if get "get_in" || get "get_around" then
    if get "see" || get "do" || get "eat" then "city" else "destination"
  else if bool_decide (is_Some (coordinates pd)) && negb (get "get_in")
  then "attraction"
  else if (get "see" || get "do")
          && negb (get "regions" || get "cities"
                   || list_truthy (regions metadata)
                   || list_truthy (cities metadata))
  then "region"
  else "destination".

(** The tests nested under a section group are written with the test of
    the group: when they fail, the function falls through to the next
    group. *)
Definition _detect_relationship_type
    (parent_type child_type section : string) : string :=
  let section_lower := PyStr.lower section in
  let same x y := String.eqb x y in
  if bool_decide (section_lower ∈ ["cities"; "cities and towns"; "municipalities"])
     && (same parent_type "country" && same child_type "city")
  then "contains"
  else if bool_decide (section_lower ∈ ["cities"; "cities and towns"; "municipalities"])
          && (same parent_type "region" && same child_type "city")
  then "contains"
  else if bool_decide (section_lower ∈ ["regions"; "subregions"])
          && (same parent_type "country" && same child_type "region")
  then "contains"
  else if bool_decide (section_lower ∈ ["regions"; "subregions"])
          && (same parent_type "region" && same child_type "region")
  then "part_of"
  else if same section_lower "other destinations" then "contains"
  else if same parent_type "country"
          && bool_decide (child_type ∈ ["city"; "region"; "destination"])
  then "contains"
  else if same child_type "city" && same parent_type "country" then "located_in"
  else "related_to".

(** The origin section, lowercased, falls in one of the three section groups
    of [_detect_relationship_type]. *)
Definition known_section (section_lower : string) : Prop :=
  section_lower ∈ ["cities"; "cities and towns"; "municipalities"]
  ∨ section_lower ∈ ["regions"; "subregions"]
  ∨ section_lower = "other destinations".

End Classifier.

(** ** Parsed HTML and the section extractor ([WikivoyageFetcher]) *)
Module Html.

(** A node of the tree BeautifulSoup builds: a string, or a tag with its
    name, its attributes and its contents. *)
Inductive element :=
  | NavigableString (text : string)
  | Tag (name : string) (attrs : gmap string string)
        (contents : list element).

(** [e.name], [None] for a string. *)
Definition name (e : element) : option string :=
  match e with
  | NavigableString _ => None
  | Tag n _ _ => Some n
  end.

(** [e.name == n] *)
Definition named (e : element) (n : string) : bool :=
  match e with
  | NavigableString _ => false
  | Tag m _ _ => String.eqb m n
  end.

(** [e.get(key)] *)
Definition get (e : element) (key : string) : option string :=
  match e with
  | NavigableString _ => None
  | Tag _ attrs _ => attrs !! key
  end.

(** [e.get(key, "")] *)
Definition attr (e : element) (key : string) : string :=
  default "" (get e key).

(** Truthiness of a node: a tag is always true, a string when non-empty. *)
Definition truthy (e : element) : bool :=
  match e with
  | NavigableString text => PyStr.nonempty text
  | Tag _ _ _ => true
  end.

(** [e.get_text()] *)
Fixpoint get_text (e : element) : string :=
  match e with
  | NavigableString text => text
  | Tag _ _ contents =>
      (fix texts (l : list element) : string :=
         match l with
         | [] => ""
         | c :: rest => get_text c +:+ texts rest
         end) contents
  end.

(** The nodes below [e], in document order. *)
Fixpoint descendants (e : element) : list element :=
  match e with
  | NavigableString _ => []
  | Tag _ _ contents =>
      (fix walk (l : list element) : list element :=
         match l with
         | [] => []
         | c :: rest => c :: descendants c ++ walk rest
         end) contents
  end.

(** [e.find_all(names)] *)
Definition find_all (e : element) (names : list string) : list element :=
  List.filter (fun d => existsb (named d) names) (descendants e).

(** [e.find_all(n, recursive=False)], each child with the siblings that
    follow it. *)
Fixpoint children_named (n : string) (contents : list element)
    : list (element * list element) :=
  match contents with
  | [] => []
  | c :: rest =>
      (if named c n then [(c, rest)] else []) ++ children_named n rest
  end.

Definition contents_of (e : element) : list element :=
  match e with
  | NavigableString _ => []
  | Tag _ _ contents => contents
  end.

(** A heading found in the page, with what the code reaches from it:
    [next_siblings] follows [heading.next_sibling], and [parent_section]
    is [heading.find_parent('section')]. *)
Record located := Located {
  heading : element;
  next_siblings : list element;
  parent_section : option element
}.

Definition is_heading (e : element) : bool :=
  existsb (named e) ["h2"; "h3"; "h4"].

(** The headings below [e], in document order; [enclosing] is the nearest
    section around [e]. *)
Fixpoint headings_below (enclosing : option element) (e : element)
    : list located :=
  match e with
  | NavigableString _ => []
  | Tag n _ contents =>
      let enclosing := if String.eqb n "section" then Some e else enclosing in
      (fix walk (l : list element) : list located :=
         match l with
         | [] => []
         | c :: rest =>
             (if is_heading c then [Located c rest enclosing] else [])
             ++ headings_below enclosing c ++ walk rest
         end) contents
  end.

(** [main_content.find_all(['h2', 'h3', 'h4'])]; the page around
    [main_content] holds no section. *)
Definition find_all_headings (main_content : element) : list located :=
  headings_below None main_content.

Inductive exn := ValueError | IndexError.

Inductive result (A : Type) :=
  | Ok (a : A)
  | Raise (e : exn).
Arguments Ok {A} a.
Arguments Raise {A} e.

(** [int(tag.name[1])] *)
Definition level_of (tag_name : string) : result Z :=
  match String.get 1 tag_name with
  | None => Raise IndexError
  | Some c =>
      match PyStr.digit c with
      | Some d => Ok d
      | None => Raise ValueError
      end
  end.

(** The text of a paragraph, when not blank. *)
Definition paragraph (e : element) : list string :=
  let text := PyStr.strip (get_text e) in
  if PyStr.nonempty text then [text] else [].

(** The items of a list: its [li] children with a non-blank text, each
    behind a bullet (U+2022, which lies outside the 8-bit range and is
    kept here as the bytes of the literal). *)
Definition list_items (e : element) : list string :=
  flat_map
    (fun li =>
       let text := PyStr.strip (get_text (fst li)) in
       if PyStr.nonempty text then ["• " +:+ text] else [])
    (children_named "li" (contents_of e)).

(** The pairs of a definition list: each [dt] child with the next [dd]
    among the siblings that follow it. *)
Definition definitions (e : element) : list string :=
  flat_map
    (fun dt =>
       let term := PyStr.strip (get_text (fst dt)) in
       match List.find (fun sib => named sib "dd") (snd dt) with
       | Some dd =>
           let definition := PyStr.strip (get_text dd) in
           [term +:+ ": " +:+ definition]
       | None => []
       end)
    (children_named "dt" (contents_of e)).

(** The loop over [section_tag.find_all(['p', 'ul', 'ol', 'dl'])]. *)
Definition section_parts (section_tag : element) : list string :=
  flat_map
    (fun elem =>
       if named elem "p" then paragraph elem
       else if named elem "ul" || named elem "ol" then list_items elem
       else if named elem "dl" then definitions elem
       else [])
    (find_all section_tag ["p"; "ul"; "ol"; "dl"]).

(** The loop [while current:] over the siblings after the heading. *)
Fixpoint sibling_parts (heading_level : Z) (siblings : list element)
    (content_parts : list string) : result (list string) :=
  match siblings with
  | [] => Ok content_parts
  | current :: rest =>
      if negb (truthy current) then Ok content_parts
      else
        let collect :=
          if named current "p" then paragraph current
          else if named current "ul" then list_items current
          else if named current "dl" then definitions current
          else [] in
        match name current with
        | Some n =>
            if PyStr.nonempty n && PyStr.startswith n "h" then
              match level_of n with
              | Raise e => Raise e
              | Ok current_level =>
                  if (current_level <=? heading_level)%Z
                  then Ok content_parts
                  else sibling_parts heading_level rest
                         (content_parts ++ collect)
              end
            else sibling_parts heading_level rest (content_parts ++ collect)
        | None => sibling_parts heading_level rest (content_parts ++ collect)
        end
  end.

(** The heading lookup of [_extract_section_content]: by id, exactly, and
    otherwise the first heading whose text contains the title, case
    apart. *)
Definition find_heading_for_content
    (main_content : element) (section_title : string) : option located :=
  let section_id := PyStr.replace " " "_" (PyStr.lower section_title) in
  let headings := find_all_headings main_content in
  match List.find
          (fun h => bool_decide (get (heading h) "id" = Some section_id))
          headings with
  | Some h => Some h
  | None =>
      List.find
        (fun h =>
           let heading_text := PyStr.strip (get_text (heading h)) in
           PyStr.contains (PyStr.lower section_title)
             (PyStr.lower heading_text))
        headings
  end.

Definition _extract_section_content
    (main_content : element) (section_title : string) : result string :=
  match find_heading_for_content main_content section_title with
  | None => Ok ""
  | Some h =>
      match parent_section h with
      | Some section_tag => Ok (PyStr.join (String "010" "") (section_parts section_tag))
      | None =>
          let heading_name := default "" (name (heading h)) in
          match
            (if PyStr.startswith heading_name "h" then level_of heading_name
             else Ok 2%Z)
          with
          | Raise e => Raise e
          | Ok heading_level =>
              match sibling_parts heading_level (next_siblings h) [] with
              | Raise e => Raise e
              | Ok content_parts =>
                  Ok (PyStr.join (String "010" "") content_parts)
              end
          end
      end
  end.

(** The heading lookup of [_extract_links_from_section]: by id, case
    apart, and otherwise the first heading whose text is the title, or
    starts with it and goes on with a space, a colon, a line feed or a
    tab, case apart. *)
Definition find_heading_for_links
    (main_content : element) (section_title : string) : option located :=
  let section_id := PyStr.replace " " "_" (PyStr.lower section_title) in
  let headings := find_all_headings main_content in
  match List.find
          (fun h => String.eqb (PyStr.lower (attr (heading h) "id")) section_id)
          headings with
  | Some h => Some h
  | None =>
      List.find
        (fun h =>
           let heading_text := PyStr.strip (get_text (heading h)) in
           let heading_lower := PyStr.lower heading_text in
           let section_lower := PyStr.lower section_title in
           String.eqb heading_lower section_lower
           || PyStr.startswith heading_lower section_lower
              && ((String.length heading_lower =? String.length section_lower)%nat
                  || match String.get (String.length section_lower)
                             heading_lower with
                     | Some c =>
                         bool_decide
                           (c ∈ [" "; ":"; "010"; "009"]%char)
                     | None => false
                     end))
        headings
  end.

(** What one sibling adds to [content_parts] in the loop of
    [_extract_section_content]. *)
Definition sibling_collect (current : element) : list string :=
  if named current "p" then paragraph current
  else if named current "ul" then list_items current
  else if named current "dl" then definitions current
  else [].

(** The tag names that make the loop read a level:
    [current.name and current.name.startswith('h')]. *)
Definition reads_level (e : element) : bool :=
  match name e with
  | Some n => PyStr.nonempty n && PyStr.startswith n "h"
  | None => false
  end.

(** The catalogue of [_extract_all_sections]. *)
Definition section_names : list string :=
  [ "Beginning"; "Regions"; "Cities"; "Other destinations";
    "Understand"; "Talk"; "Get in"; "Get around";
    "See"; "Do"; "Buy"; "Eat"; "Drink"; "Sleep";
    "Learn"; "Work"; "Stay safe"; "Stay healthy";
    "Respect"; "Connect" ].

(** [section_name.lower().replace(" ", "_")] *)
Definition section_key (section_name : string) : string :=
  PyStr.replace " " "_" (PyStr.lower section_name).

(** The loop of [_extract_all_sections] over the names left. *)
Fixpoint extract_sections (main_content : element) (names : list string)
    (sections : gmap string string) : result (gmap string string) :=
  match names with
  | [] => Ok sections
  | section_name :: rest =>
      match _extract_section_content main_content section_name with
      | Raise e => Raise e
      | Ok content =>
          extract_sections main_content rest
            (if PyStr.nonempty content
             then <[section_key section_name := content]> sections
             else sections)
      end
  end.

Definition _extract_all_sections (main_content : element)
    : result (gmap string string) :=
  extract_sections main_content section_names ∅.

(** [e.find_all('a', href=True)] *)
Definition find_all_links (e : element) : list element :=
  List.filter (fun d => named d "a" && bool_decide (is_Some (get d "href")))
    (descendants e).

Definition excluded_prefixes : list string :=
  [ "Category:"; "File:"; "Template:"; "Special:"; "Help:"; "User:" ].

(** The body of the loop over the links of [_extract_links_from_section]:
    the page name a link adds to [links], if any. The parser gives the
    [rel] attribute of a link as the list of its tokens. *)
Definition link_page (link : element) : list string :=
  let href := attr link "href" in
  if PyStr.startswith href "./" || PyStr.contains "/wiki/" href then
    let page_name :=
      if PyStr.startswith href "./" then PyStr.drop 2 href
      else PyStr.split_last "/wiki/" href in
    if PyStr.nonempty page_name then
      let page_name := PyStr.split_first "?" (PyStr.split_first "#" page_name) in
      if negb (existsb (PyStr.startswith page_name) excluded_prefixes) then
        let link_text := PyStr.strip (get_text link) in
        if PyStr.nonempty link_text
           && negb (String.eqb (PyStr.lower link_text) "[edit]")
        then
          match get link "rel" with
          | None => [page_name]
          | Some rel =>
              let link_rel := PyStr.tokens rel in
              if bool_decide ("mw:WikiLink" ∈ link_rel) then [page_name]
              else if bool_decide (link_rel = []) then [page_name]
              else []
          end
        else []
      else []
    else []
  else [].

(** The loop [while current:] of [_extract_links_from_section] over the
    siblings after the heading. *)
Fixpoint sibling_links (heading_level : Z) (siblings : list element)
    (links : list string) : result (list string) :=
  match siblings with
  | [] => Ok links
  | current :: rest =>
      if negb (truthy current) then Ok links
      else
        let found :=
          if existsb (named current) ["ul"; "ol"; "table"; "div"; "p"]
          then flat_map link_page (find_all_links current)
          else [] in
        if reads_level current then
          match level_of (default "" (name current)) with
          | Raise e => Raise e
          | Ok current_level =>
              if (current_level <=? heading_level)%Z then Ok links
              else sibling_links heading_level rest (links ++ found)
          end
        else sibling_links heading_level rest (links ++ found)
  end.

(** The closing loop: duplicates removed, order kept. *)
Fixpoint unique_links (seen : gset string) (links : list string)
    : list string :=
  match links with
  | [] => []
  | link :: rest =>
      if bool_decide (link ∈ seen) then unique_links seen rest
      else link :: unique_links ({[link]} ∪ seen) rest
  end.

Definition _extract_links_from_section
    (main_content : element) (section_title : string)
    : result (list string) :=
  match find_heading_for_links main_content section_title with
  | None => Ok []
  | Some h =>
      match parent_section h with
      | Some section_tag =>
          Ok (unique_links ∅ (flat_map link_page (find_all_links section_tag)))
      | None =>
          let heading_name := default "" (name (heading h)) in
          match
            (if PyStr.startswith heading_name "h" then level_of heading_name
             else Ok 2%Z)
          with
          | Raise e => Raise e
          | Ok heading_level =>
              match sibling_links heading_level (next_siblings h) [] with
              | Raise e => Raise e
              | Ok links => Ok (unique_links ∅ links)
              end
          end
      end
  end.

(** A page name as the loop over the links stores it: without anchor,
    without query string, outside the excluded namespaces. *)
Definition clean_page_name (n : string) : Prop :=
  PyStr.contains "#" n = false
  ∧ PyStr.contains "?" n = false
  ∧ existsb (PyStr.startswith n) excluded_prefixes = false.

(** [int(heading.name[1]) if heading.name.startswith('h') else 2] *)
Definition heading_level (h : located) : result Z :=
  let heading_name := default "" (name (heading h)) in
  if PyStr.startswith heading_name "h" then level_of heading_name
  else Ok 2%Z.

(** A sibling the loops pass over: it is true, and it is no heading, or a
    heading of a deeper level. *)
Definition passed_over (heading_level : Z) (e : element) : Prop :=
  truthy e = true
  ∧ (reads_level e = false
     ∨ ∃ k, level_of (default "" (name e)) = Ok k ∧ (heading_level < k)%Z).

(** A sibling the loops stop at: an empty string, or a heading of the same
    or a higher level. *)
Definition stops_at (heading_level : Z) (e : element) : Prop :=
  truthy e = false
  ∨ reads_level e = true
    ∧ ∃ k, level_of (default "" (name e)) = Ok k ∧ (k <= heading_level)%Z.

(** A sibling the loops fail at: a tag whose name starts with [h] without
    a digit behind it, such as [hr]. *)
Definition fails_at (e : element) (err : exn) : Prop :=
  truthy e = true ∧ reads_level e = true
  ∧ level_of (default "" (name e)) = Raise err.

End Html.

(** ** Breadcrumb resolver ([WikivoyageFetcher]) *)
Module Breadcrumbs.

(** A breadcrumb item: a dict with the keys ["name"], ["url"] and
    ["page_name"], each holding a string or [None]. *)
Abbreviation crumb := (gmap string (option string)).

(** [crumb.get(key)]: a missing key reads as [None]. *)
Definition get (c : crumb) (key : string) : option string :=
  match c !! key with
  | Some v => v
  | None => None
  end.

(** [crumb.get(key, d)] *)
Definition get_default (c : crumb) (key d : string) : option string :=
  match c !! key with
  | Some v => v
  | None => Some d
  end.

(** Truthiness of a string-or-[None] value. *)
Definition name_truthy (o : option string) : bool :=
  match o with
  | Some s => PyStr.nonempty s
  | None => false
  end.

(** The character test of the comprehension
    [c.isalnum() or c in ['_', '-']]. *)
Definition keep_char (c : ascii) : bool :=
  PyStr.isalnum c || Ascii.eqb c "_" || Ascii.eqb c "-".

(** One turn of the loop of [_normalize_breadcrumb_path] over the crumbs. *)
Definition path_step (path_parts : list string) (c : crumb) : list string :=
  match get_default c "name" "" with
  | Some name =>
      if PyStr.nonempty name then
        let normalized := PyStr.replace " " "_" (PyStr.lower name) in
        let normalized := PyStr.filter_chars keep_char normalized in
        if PyStr.nonempty normalized then path_parts ++ [normalized]
        else path_parts
      else path_parts
  | None => path_parts
  end.

Definition _normalize_breadcrumb_path (breadcrumbs : list crumb) : string :=
  match breadcrumbs with
  | [] => ""
  | _ =>
      let path_parts := fold_left path_step breadcrumbs [] in
      match path_parts with
      | [] => ""
      | _ => PyStr.join "/" path_parts
      end
  end.

(** What one crumb contributes to the path: its normalized name, when the
    name and its normalization are both non-empty. *)
Definition crumb_part (c : crumb) : option string :=
  match get_default c "name" "" with
  | Some name =>
      let normalized :=
        PyStr.filter_chars keep_char
          (PyStr.replace " " "_" (PyStr.lower name)) in
      if PyStr.nonempty name && PyStr.nonempty normalized
      then Some normalized else None
  | None => None
  end.

(** The normalization as the specification words it: each segment is
    lowercased, its whitespace replaced by underscores, the characters
    that are not alphanumeric, underscore or hyphen stripped, and the
    segments joined with ["/"]. *)
Definition normalizeBreadcrumbPath_spec (segments : list string) : string :=
  PyStr.join "/"
    (map (fun name =>
            PyStr.filter_chars keep_char
              (PyStr.map_chars
                 (fun c => if PyStr.isspace c then "_"%char else c)
                 (PyStr.lower name)))
         segments).

(** A path segment: non-empty and made of kept characters only. *)
Definition segment (n : string) : Prop :=
  n ≠ "" ∧ PyStr.all_chars keep_char n = true.

(** A relative path without empty segment: it neither starts nor ends with
    the separator, holds no doubled separator, and is made of
    alphanumeric characters, underscores, hyphens and separators. *)
Definition well_formed_path (p : string) : Prop :=
  PyStr.startswith p "/" = false
  ∧ PyStr.endswith p "/" = false
  ∧ PyStr.contains "//" p = false
  ∧ PyStr.all_chars (fun c => keep_char c || Ascii.eqb c "/") p = true.

Definition region_keywords : list string :=
  [ "europe"; "asia"; "america"; "africa"; "oceania";
    "central europe"; "western europe"; "eastern europe"; "southern europe";
    "northern europe";
    "southeast asia"; "east asia"; "south asia"; "central asia"; "middle east";
    "north america"; "south america"; "central america"; "caribbean";
    "east africa"; "west africa"; "southern africa"; "north africa" ].

(** [any(keyword in s for keyword in keywords)] *)
Definition any_in (keywords : list string) (s : string) : bool :=
  existsb (fun keyword => PyStr.contains keyword s) keywords.

Definition is_administrative_region (name : string) : bool :=
  let name_lower := PyStr.lower name in
  let admin_keywords :=
    [ "voivodeship"; "voivodship"; "oblast"; "state"; "province"; "region";
      "county"; "prefecture"; "governorate"; "autonomous region" ] in
  if any_in admin_keywords name_lower then true
  else
    let polish_suffixes := [ "skie"; "ckie"; "zkie" ] in
    if existsb (fun suffix => PyStr.endswith name_lower suffix) polish_suffixes
    then true
    else if any_in [ "lower"; "upper"; "greater"; "lesser";
                     "north"; "south"; "east"; "west" ] name_lower
            && negb (any_in region_keywords name_lower)
    then true
    else false.

(** The loop [for i in range(len(breadcrumb_names) - 1, -1, -1)], run over
    the names from the last one to the first one. *)
Fixpoint scan_backwards (names_from_last : list string) : option string :=
  match names_from_last with
  | [] => None
  | n :: rest =>
      let name := PyStr.lower n in
      if any_in region_keywords name then scan_backwards rest
      else if is_administrative_region n then scan_backwards rest
      else Some n
  end.

Definition _detect_country_from_breadcrumbs
    (breadcrumbs : list crumb) (current_query : string) : option string :=
  if bool_decide (breadcrumbs = []) || (length breadcrumbs <? 2)%nat
  then None
  else
    (* breadcrumbs[:-1], keeping the truthy names *)
    let breadcrumb_names :=
      omap (fun c => if name_truthy (get c "name")
                     then get_default c "name" "" else None)
           (removelast breadcrumbs) in
    match breadcrumb_names with
    | [] => None
    | _ => scan_backwards (rev breadcrumb_names)
    end.

(** The names the scan of [_detect_country_from_breadcrumbs] runs over:
    the truthy names of [breadcrumbs[:-1]]. *)
Definition ancestor_names (breadcrumbs : list crumb) : list string :=
  omap (fun c => if name_truthy (get c "name")
                 then get_default c "name" "" else None)
       (removelast breadcrumbs).

(** A name the scan skips: it holds a region keyword, or it looks like an
    administrative region. *)
Definition skipped (n : string) : bool :=
  any_in region_keywords (PyStr.lower n) || is_administrative_region n.

(** [{"name": n}] *)
Definition name_only (n : string) : crumb := {[ "name" := Some n ]}.

(** The table of [fetch_country_info] for pages without breadcrumbs. *)
Definition known_hierarchies : gmap string string :=
  list_to_map
    [ ("poland", "europe/central_europe/poland");
      ("france", "europe/western_europe/france");
      ("germany", "europe/central_europe/germany");
      ("spain", "europe/southern_europe/spain");
      ("italy", "europe/southern_europe/italy") ].

(** The folder path [fetch_country_info] gives the root page: the
    normalized breadcrumbs, or, when these are empty or blank, the entry
    of the table for the lowercased name, or [None]. *)
Definition root_breadcrumb_path
    (breadcrumbs : list crumb) (country_name : string) : option string :=
  let breadcrumb_path := _normalize_breadcrumb_path breadcrumbs in
  if negb (PyStr.nonempty breadcrumb_path)
     || negb (PyStr.nonempty (PyStr.strip breadcrumb_path))
  then known_hierarchies !! PyStr.lower country_name
  else Some breadcrumb_path.

End Breadcrumbs.

(** ** Recursive fetch ([WikivoyageFetcher._fetch_linked_pages_recursive]) *)
Module Crawler.

(** The two requests the loop sends for a page: the content API, and the
    full wiki page when the content carries no breadcrumbs; and the
    request for the summary of the root page, which [fetch_country_info]
    sends first. *)
Inductive request :=
  | PageHtml (page_name_normalized : string)
  | WikiPage (page_name_normalized : string)
  | PageSummary (page_name : string).

(** [content_url], [full_page_url] and [summary_url] *)
Definition url (language : string) (r : request) : string :=
  match r with
  | PageHtml page =>
      "https://" +:+ language +:+ ".wikivoyage.org/api/rest_v1"
      +:+ "/page/html/" +:+ page
  | WikiPage page =>
      "https://" +:+ language +:+ ".wikivoyage.org/wiki/" +:+ page
  | PageSummary page =>
      "https://" +:+ language +:+ ".wikivoyage.org/api/rest_v1"
      +:+ "/page/summary/" +:+ page
  end.

(** What happens to the root page in [fetch_country_info] between its
    content fetch and the recursive call: an exception before the request
    for the full wiki page (while parsing), an exception after it, or the
    links of the level-1 sections ([all_links], empty when the page has no
    main content). Nothing catches these exceptions: they end the run. *)
Inductive root_outcome :=
  | RootRaisedBeforeWiki
  | RootRaisedAfterWiki
  | RootLinks (all_links : list string).

(** What happens to a fetched page between the fetch and the recursive
    call: an exception before [nodes.append(child_node)], an exception
    after it, or the links of the level-2 sections of the page
    ([child_all_links], empty when the page has no main content). The
    handler of the loop catches the exception and goes on to the next
    page. *)
Inductive outcome :=
  | RaisedBeforeNode
  | RaisedAfterNode
  | Links (child_all_links : list string).

(** The run-scoped state: the [visited] set, and the requests sent so
    far, in order. *)
Record state := State {
  visited : gset string;
  requests : list request
}.

Definition initial : state := State ∅ [].

(** The page names fetched from the content API, in order. *)
Definition fetched (st : state) : list string :=
  omap (fun r =>
          match r with
          | PageHtml p => Some p
          | WikiPage _ | PageSummary _ => None
          end)
       (requests st).

(** The page names fetched again as full wiki pages, in order. *)
Definition refetched (st : state) : list string :=
  omap (fun r =>
          match r with
          | WikiPage p => Some p
          | PageHtml _ | PageSummary _ => None
          end)
       (requests st).

(** The page names whose summary was requested, in order. *)
Definition summaries (st : state) : list string :=
  omap (fun r =>
          match r with
          | PageSummary p => Some p
          | PageHtml _ | WikiPage _ => None
          end)
       (requests st).

Definition send (r : request) (st : state) : state :=
  State (visited st) (requests st ++ [r]).

(** The state [st] reached after the requests of [log] had been sent. *)
Definition after_log (log : list request) (st : state) : state :=
  State (visited st) (log ++ requests st).

(** The normalization of page names as the specification words it:
    insensitive to case and to spaces. *)
Definition normalized_name_spec (page_name : string) : string :=
  PyStr.lower (PyStr.replace " " "_" page_name).

Section crawl.

(** The site and the disk, as the crawler meets them: [_make_request]
    gives the response to a URL, [None] when the request fails;
    [has_breadcrumbs] tells whether [_extract_breadcrumbs] finds a chain
    in a response; [outcome_of] is the processing of a fetched page. *)
Context {response : Type}
  (language : string)
  (_make_request : string → option response)
  (has_breadcrumbs : response → bool)
  (outcome_of : string → response → outcome).

(** The loop [for page_name in page_names]; [recurse] is the recursive
    call on the links of a child, one level deeper. The result is the
    state and the ["query"] names of the nodes created. *)
Fixpoint fetch_pages (recurse : list string → state → state * list string)
    (max_depth current_depth : Z) (page_names : list string)
    (st : state) (nodes : list string) : state * list string :=
  match page_names with
  | [] => (st, nodes)
  | page_name :: rest =>
      let continue := fetch_pages recurse max_depth current_depth rest in
      let page_name_normalized := PyStr.replace " " "_" page_name in
      if bool_decide (page_name_normalized ∈ visited st) then continue st nodes
      else
        let st := State ({[page_name_normalized]} ∪ visited st) (requests st) in
        let st := send (PageHtml page_name_normalized) st in
        match _make_request (url language (PageHtml page_name_normalized)) with
        | None => continue st nodes
        | Some response =>
            let st :=
              if has_breadcrumbs response then st
              else send (WikiPage page_name_normalized) st in
            match outcome_of page_name_normalized response with
            | RaisedBeforeNode => continue st nodes
            | RaisedAfterNode => continue st (nodes ++ [page_name_normalized])
            | Links child_all_links =>
                let nodes := nodes ++ [page_name_normalized] in
                if (current_depth <? max_depth - 1)%Z
                   && Classifier.list_truthy child_all_links
                then
                  let '(st, grandchild_nodes) := recurse child_all_links st in
                  continue st (nodes ++ grandchild_nodes)
                else continue st nodes
            end
        end
  end.

(** The recursion on the depth. [fuel] counts the levels left,
    [max_depth - current_depth]: it is zero exactly when the test
    [current_depth >= max_depth] returns at once, and the recursive call
    one level deeper has one level less left. *)
Fixpoint fetch (fuel : nat) (page_names : list string)
    (max_depth current_depth : Z) (st : state) : state * list string :=
  match fuel with
  | O => (st, [])
  | S fuel' =>
      if (current_depth >=? max_depth)%Z then (st, [])
      else
        fetch_pages
          (fun links st => fetch fuel' links max_depth (current_depth + 1) st)
          max_depth current_depth page_names st []
  end.

Definition _fetch_linked_pages_recursive (page_names : list string)
    (max_depth current_depth : Z) (st : state) : state * list string :=
  fetch (Z.to_nat (max_depth - current_depth))
    page_names max_depth current_depth st.

(** [fetch_country_info], the run for one root page, as far as its
    requests to the site go. [country_mapping] is the table of the Polish
    page names; it is a variable of the model because one of its values,
    for Italy, lies outside the 8-bit strings used here. [summary_raises]
    tells whether reading the summary response raises, [root_outcome_of]
    is the processing of the root page, and [output_dir] tells whether an
    output directory is set. The requests for the drone laws go to other
    sites and are not in the log. The recursive call is given a new, empty
    [visited] set, [visited=set()]. The result is the state at the end of
    the run and the ["query"] names of the child nodes. *)
Context (country_mapping : gmap string string)
  (summary_raises : response → bool)
  (root_outcome_of : string → response → root_outcome)
  (output_dir : bool).

Definition root_page_name (country_name : string) : string :=
  if String.eqb language "pl"
  then default country_name (country_mapping !! country_name)
  else PyStr.replace " " "_" country_name.

Definition fetch_country_info (country_name : string) (max_depth : Z)
    : state * list string :=
  let page_name := root_page_name country_name in
  let st := send (PageSummary page_name) initial in
  let raised :=
    match _make_request (url language (PageSummary page_name)) with
    | Some response => summary_raises response
    | None => false
    end in
  if raised then (st, [])
  else
    let st := send (PageHtml page_name) st in
    match _make_request (url language (PageHtml page_name)) with
    | None => (st, [])
    | Some response =>
        match root_outcome_of country_name response with
        | RootRaisedBeforeWiki => (st, [])
        | RootRaisedAfterWiki =>
            (send (WikiPage (PyStr.replace " " "_" country_name)) st, [])
        | RootLinks all_links =>
            let st :=
              send (WikiPage (PyStr.replace " " "_" country_name)) st in
            if Classifier.list_truthy all_links && output_dir
            then
              _fetch_linked_pages_recursive all_links max_depth 0
                (State ∅ (requests st))
            else (st, [])
        end
    end.

End crawl.

(** What the [visited] set guarantees of a state: no page name fetched
    twice, the names fetched being exactly the names visited, and a full
    wiki page fetched at most once, for a name fetched before. *)
Definition fetch_once (st : state) : Prop :=
  NoDup (fetched st)
  ∧ (∀ p, p ∈ fetched st ↔ p ∈ visited st)
  ∧ NoDup (refetched st)
  ∧ (∀ p, p ∈ refetched st → p ∈ fetched st)
  ∧ (∀ p, p ∈ fetched st → PyStr.replace " " "_" p = p).

(** How a call takes the state [st] and the node list [nodes] to its
    result [r]: it sends content requests for the names [new], none of
    them twice and none visited before, marks exactly these visited, and
    adds nodes for some of them, in the order of the requests. *)
Definition extends (st : state) (nodes : list string)
    (r : state * list string) : Prop :=
  ∃ new added,
    fetched r.1 = fetched st ++ new
    ∧ r.2 = nodes ++ added
    ∧ added `sublist_of` new
    ∧ NoDup new
    ∧ (∀ p, p ∈ new → p ∉ visited st)
    ∧ visited r.1 = visited st ∪ list_to_set new.

End Crawler.

(** ** The global graph ([utils/file_manager.py]) *)
Module FileManager.

(** The values the merge reads in a node or an edge: a string or [None],
    as the crawler writes its ids, sources, targets and types. Writing the
    graph with [json.dump] and reading it back with [json.load] returns
    such dicts unchanged. *)
Inductive value :=
  | VNone
  | VStr (s : string).

#[global] Instance value_eq_dec : EqDecision value.
Proof. solve_decision. Defined.

#[global] Program Instance value_countable : Countable value :=
  inj_countable'
    (fun v => match v with VNone => None | VStr s => Some s end)
    (fun o => match o with None => VNone | Some s => VStr s end) _.
Next Obligation. by intros []. Qed.

(** A graph node or edge: a dict with string keys. *)
Abbreviation node := (gmap string value).
Abbreviation edge := (gmap string value).

(** [d.get(key)]: a missing key reads as [None]. *)
Definition get (d : gmap string value) (key : string) : value :=
  default VNone (d !! key).

(** Truthiness of a value: a non-empty string. *)
Definition truthy (v : value) : bool :=
  match v with
  | VNone => false
  | VStr s => PyStr.nonempty s
  end.

Record graph_metadata := GraphMetadata {
  md_source : string;
  node_count : nat;
  edge_count : nat
}.

(** The content of [source/graph.json], as this function writes it: the
    keys ["nodes"], ["edges"] and ["metadata"] are present. *)
Record graph_data := GraphData {
  nodes : list node;
  edges : list edge;
  metadata : graph_metadata
}.

(** [(edge.get("source"), edge.get("target"), edge.get("type"))] *)
Definition edge_key (e : edge) : value * value * value :=
  (get e "source", get e "target", get e "type").

(** [{node.get("id"): node for node in nodes}]: a later node replaces an
    earlier one under the same id. *)
Definition index_nodes (ns : list node) : gmap value node :=
  fold_left (fun m n => <[get n "id" := n]> m) ns ∅.

(** [{(source, target, type): edge for edge in edges}] *)
Definition index_edges (es : list edge) : gmap (value * value * value) edge :=
  fold_left (fun m e => <[edge_key e := e]> m) es ∅.

(** One turn of the loop over the new nodes: the state is
    [graph_data["nodes"]] and [existing_nodes]. *)
Definition add_node (st : list node * gmap value node) (n : node)
    : list node * gmap value node :=
  let '(graph_nodes, existing_nodes) := st in
  let node_id := get n "id" in
  if truthy node_id && bool_decide (existing_nodes !! node_id = None)
  then (graph_nodes ++ [n], <[node_id := n]> existing_nodes)
  else st.

(** One turn of the loop over the new edges. *)
Definition add_edge
    (st : list edge * gmap (value * value * value) edge) (e : edge)
    : list edge * gmap (value * value * value) edge :=
  let '(graph_edges, existing_edges) := st in
  let key := edge_key e in
  if bool_decide (existing_edges !! key = None)
  then (graph_edges ++ [e], <[key := e]> existing_edges)
  else st.

(** [update_global_graph]: [file] is the content of the graph file of the
    source folder, [None] when the file does not exist; the result is the
    content written back to that file. *)
Definition update_global_graph (file : option graph_data) (source : string)
    (new_nodes : list node) (new_edges : list edge) : graph_data :=
  let '(graph, existing_nodes, existing_edges) :=
    match file with
    | Some graph =>
        (graph, index_nodes (nodes graph), index_edges (edges graph))
    | None =>
        (GraphData [] [] (GraphMetadata source 0 0), ∅, ∅)
    end in
  let graph_nodes :=
    fst (fold_left add_node new_nodes (nodes graph, existing_nodes)) in
  let graph_edges :=
    fst (fold_left add_edge new_edges (edges graph, existing_edges)) in
  GraphData graph_nodes graph_edges
    (GraphMetadata (md_source (metadata graph))
       (length graph_nodes) (length graph_edges)).

(** [node.get("id")] and its truthiness. *)
Definition node_id (n : node) : value := get n "id".
Definition has_id (n : node) : bool := truthy (node_id n).

(** The nodes and edges of the file, none when there is no file. *)
Definition file_nodes (file : option graph_data) : list node :=
  match file with Some graph => nodes graph | None => [] end.

Definition file_edges (file : option graph_data) : list edge :=
  match file with Some graph => edges graph | None => [] end.

(** One call of [update_global_graph], with its arguments. *)
Record batch := Batch {
  b_source : string;
  b_nodes : list node;
  b_edges : list edge
}.

(** Successive runs against one graph file. *)
Definition run_merges (file : option graph_data) (batches : list batch)
    : option graph_data :=
  fold_left
    (fun file b =>
       Some (update_global_graph file (b_source b) (b_nodes b) (b_edges b)))
    batches file.

(** A node without usable id: the key is missing, or holds [None] or the
    empty string. *)
Definition id_less (n : node) : Prop :=
  n !! "id" = None ∨ n !! "id" = Some VNone ∨ n !! "id" = Some (VStr "").

(** The common shape of the two loops: an item is appended, and indexed
    under its key, when it is accepted and its key is not yet indexed. *)
Definition append_new {K A} `{Countable K}
    (key : A -> K) (accept : A -> bool)
    (st : list A * gmap K A) (x : A) : list A * gmap K A :=
  if accept x && bool_decide (snd st !! key x = None)
  then (fst st ++ [x], <[key x := x]> (snd st))
  else st.

(** The index built by a dict comprehension over a list. *)
Definition index_by {K A} `{Countable K} (key : A -> K) (l : list A)
    : gmap K A :=
  fold_left (fun m x => <[key x := x]> m) l ∅.

(** The index [m] holds exactly the keys of the list [l]. *)
Definition indexes {K A} `{Countable K} (key : A -> K)
    (m : gmap K A) (l : list A) : Prop :=
  ∀ k, is_Some (m !! k) ↔ k ∈ map key l.

(** What holds of a graph file built by [update_global_graph] alone: no
    two nodes under one id, every node with a usable id, no two edges
    under one (source, target, type) triple. *)
Definition unique_graph (file : option graph_data) : Prop :=
  NoDup (map node_id (file_nodes file))
  ∧ Forall (fun n => has_id n = true) (file_nodes file)
  ∧ NoDup (map edge_key (file_edges file)).

(** *** Folders and files *)

(** The folder of a source: [source_mapping.get(source_normalized,
    source_normalized)]. *)
Definition source_mapping : gmap string string :=
  list_to_map
    [ ("wikivoyage_en", "wikivoyage"); ("wikivoyage_pl", "wikivoyage");
      ("wikivoyage", "wikivoyage"); ("wikidata", "wikidata");
      ("wikipedia", "wikipedia"); ("tripadvisor", "tripadvisor");
      ("lonely_planet", "lonely_planet");
      ("world_travel_guide", "world_travel_guide");
      ("travel_independent", "travel_independent") ].

Definition folder_name (source : string) : string :=
  let source_normalized := PyStr.lower source in
  default source_normalized (source_mapping !! source_normalized).

(** A POSIX path as [pathlib] holds it: the root (empty for a relative
    path, ["/"], or ["//"] for exactly two leading slashes) and the
    parts behind it. *)
Record path := Path {
  root : string;
  parts : list string
}.

#[global] Instance path_eq_dec : EqDecision path.
Proof. solve_decision. Defined.

#[global] Program Instance path_countable : Countable path :=
  inj_countable' (fun p => (root p, parts p)) (fun rp => Path rp.1 rp.2) _.
Next Obligation. by intros []. Qed.

Definition root_of (s : string) : string :=
  match s with
  | String "/" (String "/" (String "/" _)) => "/"
  | String "/" (String "/" _) => "//"
  | String "/" _ => "/"
  | _ => ""
  end.

(** The parts of a string: its pieces between slashes, the empty pieces
    and the pieces ["."] left out. *)
Definition parts_of (s : string) : list string :=
  List.filter (fun x => PyStr.nonempty x && negb (String.eqb x "."))
    (PyStr.split "/" s).

(** [p / s] *)
Definition joinpath (p : path) (s : string) : path :=
  if PyStr.nonempty (root_of s) then Path (root_of s) (parts_of s)
  else Path (root p) (parts p ++ parts_of s).

(** [get_source_folder], without the creation of the folder. *)
Definition get_source_folder (output_dir : path) (source : string) : path :=
  joinpath output_dir (folder_name source).

(** [get_query_folder], without the creation of the folder; [output_dir]
    and [breadcrumb_path] are [None] or given. *)
Definition get_query_folder (output_dir : option path) (source query : string)
    (breadcrumb_path : option string) : Html.result path :=
  match output_dir with
  | None => Html.Raise Html.ValueError
  | Some output_dir =>
      let source_folder := get_source_folder output_dir source in
      match breadcrumb_path with
      | Some bp =>
          if PyStr.nonempty bp && PyStr.nonempty (PyStr.strip bp)
          then Html.Ok (joinpath source_folder bp)
          else
            let query_safe := PyStr.replace " " "_" (PyStr.lower query) in
            Html.Ok (joinpath source_folder query_safe)
      | None =>
          let query_safe := PyStr.replace " " "_" (PyStr.lower query) in
          Html.Ok (joinpath source_folder query_safe)
      end
  end.

(** The path of the global graph of a source. *)
Definition global_graph_file (output_dir : path) (source : string) : path :=
  joinpath (get_source_folder output_dir source) "graph.json".

(** [update_global_graph] on the graph files of an output directory: the
    files after the call, and the path returned. *)
Definition update_global_graph_at (output_dir : path)
    (files : gmap path graph_data) (source : string)
    (new_nodes : list node) (new_edges : list edge)
    : gmap path graph_data * path :=
  let global_graph_file := global_graph_file output_dir source in
  (<[global_graph_file :=
       update_global_graph (files !! global_graph_file) source
         new_nodes new_edges]> files,
   global_graph_file).

(** *** Data files *)

(** [item.get('source_url')] *)
Definition source_url (item : gmap string value) : value :=
  get item "source_url".

(** [save_data_to_source_file]: [file] is the content of the output file,
    [None] when it does not exist; the result is the content written. *)
Definition save_data_to_source_file (file : option (list (gmap string value)))
    (data : list (gmap string value)) (append : bool)
    : list (gmap string value) :=
  match append, file with
  | true, Some existing_data =>
      let existing_ids : gset value :=
        list_to_set
          (List.filter truthy (map source_url existing_data)) in
      fold_left
        (fun existing_data item =>
           if bool_decide (source_url item ∉ existing_ids)
           then existing_data ++ [item] else existing_data)
        data existing_data
  | _, _ => data
  end.

(** The truthy urls of a data file: [existing_ids]. *)
Definition url_ids (items : list (gmap string value)) : gset value :=
  list_to_set (List.filter truthy (map source_url items)).

(** [item.get('source', 'unknown')] *)
Definition source_of (item : gmap string value) : value :=
  default (VStr "unknown") (item !! "source").

(** [grouped[source].append(item_dict)], after [grouped[source] = []] for
    a new source; the dict keeps its keys in the order of insertion. *)
Fixpoint add_to_group (grouped : list (value * list (gmap string value)))
    (source : value) (item : gmap string value)
    : list (value * list (gmap string value)) :=
  match grouped with
  | [] => [(source, [item])]
  | (k, group) :: rest =>
      if bool_decide (k = source) then (k, group ++ [item]) :: rest
      else (k, group) :: add_to_group rest source item
  end.

(** [grouped.get(source)] *)
Fixpoint grouped_get (grouped : list (value * list (gmap string value)))
    (source : value) : option (list (gmap string value)) :=
  match grouped with
  | [] => None
  | (k, group) :: rest =>
      if bool_decide (k = source) then Some group else grouped_get rest source
  end.

(** [group_by_source] on items that are dicts. *)
Definition group_by_source (items : list (gmap string value))
    : list (value * list (gmap string value)) :=
  fold_left (fun grouped item => add_to_group grouped (source_of item) item)
    items [].

End FileManager.

(** ** Concrete inputs used by the examples below *)
Module Samples.
Import Classifier.

(** A parsed page without any recognised section and without coordinates,
    whose ["Regions"] list was nevertheless filled by
    [_extract_list_items]. *)
Definition page_regions_only : parsed_data :=
  ParsedData (Metadata ∅ ["Mazovia"] []) None.

(** What [_basic_parse] returns: no ["metadata"], no ["coordinates"]. *)
Definition page_basic : parsed_data :=
  ParsedData (Metadata ∅ [] []) None.

(** [{"name": n}] *)
Definition named (n : string) : Breadcrumbs.crumb := {[ "name" := Some n ]}.

(** The chain of the docstring of [_detect_country_from_breadcrumbs]. *)
Definition chain_poland : list Breadcrumbs.crumb :=
  [named "Europe"; named "Central Europe"; named "Poland"].

(** The same chain as [_extract_breadcrumbs] builds it for the page of
    Krakow: the current page closes the chain. *)
Definition chain_krakow : list Breadcrumbs.crumb :=
  chain_poland ++ [named "Krakow"].

(** A name written over two lines of HTML source: the words are separated
    by a line feed (U+000A). *)
Definition name_two_lines : string :=
  "Central" +:+ String "010" "Europe".

(** [{"id": i, "name": n}] *)
Definition mk_node (i n : string) : FileManager.node :=
  {[ "id" := FileManager.VStr i; "name" := FileManager.VStr n ]}.

(** [{"source": s, "target": t, "type": ty}] *)
Definition mk_edge (s t ty : string) : FileManager.edge :=
  {[ "source" := FileManager.VStr s; "target" := FileManager.VStr t;
     "type" := FileManager.VStr ty ]}.

(** Three nodes without usable id: no key, [None], the empty string. *)
Definition node_no_key : FileManager.node :=
  {[ "name" := FileManager.VStr "orphan" ]}.
Definition node_id_none : FileManager.node :=
  {[ "id" := FileManager.VNone; "name" := FileManager.VStr "orphan" ]}.
Definition node_id_empty : FileManager.node := mk_node "" "orphan".

(** A first run over Poland and a second one over Warsaw, which meets
    the node of Poland again under another name. *)
Definition batch_poland : FileManager.batch :=
  FileManager.Batch "wikivoyage_en"
    [mk_node "wikivoyage_en_p" "poland"; node_no_key;
     mk_node "wikivoyage_en_w" "warsaw"; node_id_none]
    [mk_edge "wikivoyage_en_p" "wikivoyage_en_w" "contains"].

Definition batch_warsaw : FileManager.batch :=
  FileManager.Batch "wikivoyage_en"
    [mk_node "wikivoyage_en_w" "warszawa"; node_id_empty;
     mk_node "wikivoyage_en_l" "lazienki"]
    [mk_edge "wikivoyage_en_p" "wikivoyage_en_w" "contains";
     mk_edge "wikivoyage_en_w" "wikivoyage_en_l" "contains"].

(** [<div class="mw-parser-output"><h2 id="Seeing">Seeing</h2><p>A</p></div>] *)
Definition page_seeing : Html.element :=
  Html.Tag "div" {[ "class" := "mw-parser-output" ]}
    [ Html.Tag "h2" {[ "id" := "Seeing" ]} [Html.NavigableString "Seeing"];
      Html.Tag "p" ∅ [Html.NavigableString "A"] ].

(** [<div><h2 id="See">See</h2><p>A</p><h2 id="Do">Do</h2><p>B</p></div>] *)
Definition page_see_do : Html.element :=
  Html.Tag "div" ∅
    [ Html.Tag "h2" {[ "id" := "See" ]} [Html.NavigableString "See"];
      Html.Tag "p" ∅ [Html.NavigableString "A"];
      Html.Tag "h2" {[ "id" := "Do" ]} [Html.NavigableString "Do"];
      Html.Tag "p" ∅ [Html.NavigableString "B"] ].

(** A site where every request succeeds, every page carries breadcrumbs
    and no page holds links. *)
Definition run_flat (page_names : list string) (max_depth : Z)
    : Crawler.state * list string :=
  Crawler._fetch_linked_pages_recursive (response := unit) "en"
    (fun _ => Some tt) (fun _ => true) (fun _ _ => Crawler.Links [])
    page_names max_depth 0 Crawler.initial.

(** A site where every page links to Warsaw and to Krakow, and carries no
    breadcrumbs. *)
Definition run_cyclic (page_names : list string) (max_depth : Z)
    : Crawler.state * list string :=
  Crawler._fetch_linked_pages_recursive (response := unit) "en"
    (fun _ => Some tt) (fun _ => false)
    (fun _ _ => Crawler.Links ["Warsaw"; "Krakow"])
    page_names max_depth 0 Crawler.initial.

(** The run for the root page Poland on a site where every request
    answers, no page carries breadcrumbs, the level-1 sections of the root
    link to [all_links] and the level-2 sections of the page [p] link to
    [child_links p]. *)
Definition run_country (all_links : list string)
    (child_links : string → list string) (max_depth : Z)
    : Crawler.state * list string :=
  Crawler.fetch_country_info (response := unit) "en"
    (fun _ => Some tt) (fun _ => false)
    (fun page _ => Crawler.Links (child_links page))
    ∅ (fun _ => false) (fun _ _ => Crawler.RootLinks all_links) true
    "Poland" max_depth.

(** [<div><h2>See</h2><p>A</p><h3>Old town</h3><p>B</p><hr><p>C</p></div>] *)
Definition page_rule : Html.element :=
  Html.Tag "div" ∅
    [ Html.Tag "h2" ∅ [Html.NavigableString "See"];
      Html.Tag "p" ∅ [Html.NavigableString "A"];
      Html.Tag "h3" ∅ [Html.NavigableString "Old town"];
      Html.Tag "p" ∅ [Html.NavigableString "B"];
      Html.Tag "hr" ∅ [];
      Html.Tag "p" ∅ [Html.NavigableString "C"] ].

(** [<a href=h rel=r>t</a>] *)
Definition wiki_link (href rel text : string) : Html.element :=
  Html.Tag "a" {[ "href" := href; "rel" := rel ]} [Html.NavigableString text].

(** A Cities section in its [<section>] wrapper: two cities, one of them
    twice and with an anchor, a category, an external link and an edit
    link. *)
Definition page_cities : Html.element :=
  Html.Tag "div" ∅
    [ Html.Tag "section" ∅
        [ Html.Tag "h2" {[ "id" := "Cities" ]} [Html.NavigableString "Cities"];
          Html.Tag "ul" ∅
            [ Html.Tag "li" ∅ [wiki_link "./Warsaw" "mw:WikiLink" "Warsaw"];
              Html.Tag "li" ∅ [wiki_link "./Krakow#See" "mw:WikiLink" "Krakow"];
              Html.Tag "li" ∅ [wiki_link "./Warsaw?action=edit" "mw:WikiLink" "[edit]"];
              Html.Tag "li" ∅ [wiki_link "/wiki/Warsaw#Do" "mw:WikiLink" "Warsaw again"];
              Html.Tag "li" ∅ [wiki_link "./Category:Poland" "mw:WikiLink" "Poland"];
              Html.Tag "li" ∅ [wiki_link "./Gdansk" "mw:ExtLink nofollow" "Gdansk"] ] ] ].

End Samples.

(** * Part II: properties *)

(** ** Facts on strings *)
Module PyStrFacts.
Import PyStr.

Lemma all_chars_app p s t :
  all_chars p (s +:+ t) = all_chars p s && all_chars p t.
Proof.
  induction s as [|c s IH]; simpl; [reflexivity|].
  rewrite IH. apply andb_assoc.
Qed.

Lemma all_chars_filter p s : all_chars p (filter_chars p s) = true.
Proof.
  induction s as [|c s IH]; simpl; [reflexivity|].
  destruct (p c) eqn:Hc; simpl; [rewrite Hc|]; exact IH.
Qed.

Lemma all_chars_weaken (p q : ascii → bool) s :
  (∀ c, p c = true → q c = true) →
  all_chars p s = true → all_chars q s = true.
Proof.
  intros Hpq. induction s as [|c s IH]; simpl; [reflexivity|].
  intros [Hc Hs]%andb_true_iff. rewrite (Hpq _ Hc). exact (IH Hs).
Qed.

Lemma nonempty_true s : nonempty s = true ↔ s ≠ "".
Proof.
  unfold nonempty. rewrite negb_true_iff. apply String.eqb_neq.
Qed.

Lemma prefix_cons_ne a b s t :
  a ≠ b → String.prefix (String a s) (String b t) = false.
Proof. intros Hab. simpl. destruct (ascii_dec a b); congruence. Qed.

Lemma eqb_app_cons_false s c rest :
  String.eqb (s +:+ String c rest) s = false.
Proof.
  induction s as [|a s IH]; [reflexivity|].
  change (String a s +:+ String c rest) with (String a (s +:+ String c rest)).
  cbn [String.eqb]. rewrite IH. by destruct (Ascii.eqb a a).
Qed.

Lemma length_app_cons_ne s c rest :
  (String.length (s +:+ String c rest) =? String.length s)%nat = false.
Proof.
  induction s as [|a s IH]; [reflexivity|]. exact IH.
Qed.

Lemma get_app_cons s c rest :
  String.get (String.length s) (s +:+ String c rest) = Some c.
Proof.
  induction s as [|a s IH]; [reflexivity|]. exact IH.
Qed.

Lemma find_none_forall {A} (f : A → bool) (l : list A) :
  Forall (fun x => f x = false) l → List.find f l = None.
Proof.
  induction 1 as [|x l Hx _ IH]; [reflexivity|]. simpl. by rewrite Hx.
Qed.

Lemma prefix_empty s : String.prefix "" s = true.
Proof. by destruct s. Qed.

Lemma split_first_single (p : ascii → bool) (c : ascii) (s : string) :
  ∃ piece pieces,
    split_from (String c "") 0 s = piece :: pieces
    ∧ all_chars (fun a => negb (Ascii.eqb a c)) piece = true
    ∧ (all_chars p s = true → all_chars p piece = true).
Proof.
  induction s as [|a s (piece & pieces & E & Hfree & Hkeep)].
  - exists "", []. by repeat split.
  - cbn [split_from]. simpl String.prefix. rewrite prefix_empty.
    destruct (ascii_dec c a) as [->|Hne].
    + exists "", (split_from (String a "") (String.length (String a "") - 1) s).
      by repeat split.
    + rewrite E. exists (String a piece), pieces. split; [done|]. split.
      * simpl. rewrite Hfree, andb_true_r. apply negb_true_iff.
        apply Ascii.eqb_neq. congruence.
      * simpl. intros [Ha Hs]%andb_true_iff. by rewrite Ha, Hkeep.
Qed.

Lemma split_first_free (c : ascii) (s : string) :
  all_chars (fun a => negb (Ascii.eqb a c)) (split_first (String c "") s)
  = true.
Proof.
  unfold split_first, split.
  by destruct (split_first_single (fun _ => true) c s)
    as (piece & pieces & -> & Hfree & _).
Qed.

Lemma split_first_keeps (p : ascii → bool) (c : ascii) (s : string) :
  all_chars p s = true → all_chars p (split_first (String c "") s) = true.
Proof.
  unfold split_first, split.
  destruct (split_first_single p c s) as (piece & pieces & -> & _ & Hkeep).
  exact Hkeep.
Qed.

Lemma contains_single_free (c : ascii) (s : string) :
  all_chars (fun a => negb (Ascii.eqb a c)) s = true →
  contains (String c "") s = false.
Proof.
  induction s as [|a s IH]; [reflexivity|].
  simpl all_chars. intros [Ha Hs]%andb_true_iff.
  cbn [contains]. rewrite (IH Hs), orb_false_r.
  apply prefix_cons_ne. apply negb_true_iff, Ascii.eqb_neq in Ha. congruence.
Qed.

Lemma lower_char_idem (c : ascii) : lower_char (lower_char c) = lower_char c.
Proof. destruct c as [[] [] [] [] [] [] [] []]; reflexivity. Qed.

Lemma all_chars_rev_app p s t :
  all_chars p (String.rev_app s t) = all_chars p s && all_chars p t.
Proof.
  revert t. induction s as [|c s IH]; intros t; simpl; [reflexivity|].
  rewrite IH. simpl. rewrite !andb_assoc. f_equal. apply andb_comm.
Qed.

Lemma rev_app_nonempty s t : s ≠ "" → String.rev_app s t ≠ "".
Proof.
  revert t. induction s as [|c s IH]; intros t Hs; [done|]. simpl.
  destruct s as [|c' s']; [done|]. by apply IH.
Qed.

Lemma lstrip_nospace s :
  all_chars (fun c => negb (isspace c)) s = true → lstrip s = s.
Proof.
  destruct s as [|c s]; [reflexivity|]. simpl.
  intros [Hc _]%andb_true_iff. by apply negb_true_iff in Hc as ->.
Qed.

(** Text without whitespace is not blank. *)
Lemma strip_nospace_nonempty s :
  s ≠ "" → all_chars (fun c => negb (isspace c)) s = true →
  nonempty (strip s) = true.
Proof.
  intros Hs Hall. apply nonempty_true. unfold strip.
  rewrite (lstrip_nospace s Hall).
  rewrite lstrip_nospace
    by (unfold String.rev; by rewrite all_chars_rev_app, Hall).
  unfold String.rev. by apply rev_app_nonempty, rev_app_nonempty.
Qed.

Lemma lower_idem (s : string) : lower (lower s) = lower s.
Proof.
  unfold lower. induction s as [|c s IH]; [reflexivity|].
  simpl. by rewrite lower_char_idem, IH.
Qed.

Example isspace_table :
  codes isspace = [9; 10; 11; 12; 13; 28; 29; 30; 31; 32; 133; 160]%N.
Proof. vm_compute. reflexivity. Qed.

Example isalnum_table_latin1 :
  List.filter (fun n => 128 <=? n)%N (codes isalnum)
  = ([170; 178; 179; 181; 185; 186; 188; 189; 190]
     ++ map N.of_nat (seq 192 23) ++ map N.of_nat (seq 216 31)
     ++ map N.of_nat (seq 248 8))%N.
Proof. vm_compute. reflexivity. Qed.

Example isalnum_table_ascii :
  List.filter (fun n => n <? 128)%N (codes isalnum)
  = map N.of_nat (seq 48 10 ++ seq 65 26 ++ seq 97 26).
Proof. vm_compute. reflexivity. Qed.

Example lower_table :
  codes (fun c => negb (Ascii.eqb (lower_char c) c))
  = map N.of_nat (seq 65 26 ++ seq 192 23 ++ seq 216 7)
  ∧ Forall (fun n => ord (lower_char (ascii_of_N n)) = (n + 32)%N)
      (codes (fun c => negb (Ascii.eqb (lower_char c) c))).
Proof.
  split; [vm_compute; reflexivity|].
  assert (H : forallb (fun n => ord (lower_char (ascii_of_N n)) =? n + 32)%N
                (codes (fun c => negb (Ascii.eqb (lower_char c) c))) = true)
    by (vm_compute; reflexivity).
  apply Forall_forall. intros n Hn. apply list_elem_of_In in Hn.
  eapply forallb_forall in H; [|exact Hn]. by apply N.eqb_eq.
Qed.

End PyStrFacts.

(** ** Classifiers *)
Module ClassifierProps.
Import Classifier Samples.

Example relationship_country_city_Cities :
  _detect_relationship_type "country" "city" "Cities" = "contains".
Proof. reflexivity. Qed.

Example relationship_country_region_Regions :
  _detect_relationship_type "country" "region" "Regions" = "contains".
Proof. reflexivity. Qed.

Example relationship_region_city_unknown :
  _detect_relationship_type "region" "city" "Unknown Section" = "related_to".
Proof. reflexivity. Qed.

(** C5, as stated, fails: for the origin section "Unknown Section", which
    belongs to no known group, a country parent and a city child are
    classified [contains]; the [located_in] rule comes after the
    [contains] rule for the same pair and is never reached. *)
Lemma relationship_unknown_section_not_located_in :
  ¬ known_section (PyStr.lower "Unknown Section")
  ∧ _detect_relationship_type "country" "city" "Unknown Section" = "contains"
  ∧ _detect_relationship_type "country" "city" "Unknown Section" ≠ "located_in".
Proof.
  split; [|split; [reflexivity | discriminate]].
  unfold known_section. vm_compute PyStr.lower.
  rewrite !elem_of_cons, !elem_of_nil. intros H.
  repeat (destruct H as [H|H]); try discriminate H; try contradiction.
Qed.

(** C5 (amended): for every origin section name outside the known groups,
    a country parent and a city child give [contains]. *)
Theorem relationship_default_country_city (section : string) :
  ¬ known_section (PyStr.lower section) →
  _detect_relationship_type "country" "city" section = "contains".
Proof.
  intros _. unfold _detect_relationship_type. cbv zeta.
  set (b1 := bool_decide (_ ∈ ["cities"; _; _])).
  set (b2 := bool_decide (_ ∈ ["regions"; _])).
  set (b3 := String.eqb _ "other destinations").
  destruct b1, b2, b3; reflexivity.
Qed.

Lemma relationship_default_country_city_witness :
  ¬ known_section (PyStr.lower "Unknown Section")
  ∧ _detect_relationship_type "country" "city" "Unknown Section" = "contains".
Proof.
  assert (H : ¬ known_section (PyStr.lower "Unknown Section")).
  { unfold known_section. vm_compute PyStr.lower.
    rewrite !elem_of_cons, !elem_of_nil. intros H.
    repeat (destruct H as [H|H]); try discriminate H; try contradiction. }
  split; [exact H | exact (relationship_default_country_city _ H)].
Defined.

(** C8, as stated, fails: the first rule of [_detect_node_type] also reads
    the ["regions"] and ["cities"] lists of the metadata, so a page with an
    empty sections mapping and no coordinates is a [country] when one of
    these lists is filled. *)
Lemma node_type_empty_sections_country :
  sections (pd_metadata page_regions_only) = ∅
  ∧ coordinates page_regions_only = None
  ∧ _detect_node_type "Mazovia" page_regions_only = "country"
  ∧ _detect_node_type "Mazovia" page_regions_only ≠ "destination".
Proof. repeat split; discriminate. Qed.

(** C8 (amended): a parsed page whose sections mapping is empty, whose
    ["regions"] and ["cities"] lists are empty and which has no coordinates
    is a [destination]. *)
Theorem node_type_default (query : string) (pd : parsed_data) :
  sections (pd_metadata pd) = ∅ →
  regions (pd_metadata pd) = [] →
  cities (pd_metadata pd) = [] →
  coordinates pd = None →
  _detect_node_type query pd = "destination".
Proof.
  intros Hs Hr Hc Hco. unfold _detect_node_type.
  rewrite Hs, Hr, Hc, Hco, !lookup_empty. reflexivity.
Qed.

Lemma node_type_default_witness :
  _detect_node_type "Nowhere" page_basic = "destination".
Proof.
  apply (node_type_default "Nowhere" page_basic); reflexivity.
Defined.

(** X1: whatever the types and the section, the relationship is one of
    [contains], [part_of] and [related_to]; [located_in], which the
    docstring lists, is never returned. *)
Theorem relationship_never_located_in (parent_type child_type section : string) :
  _detect_relationship_type parent_type child_type section
    ∈ ["contains"; "part_of"; "related_to"]
  ∧ _detect_relationship_type parent_type child_type section ≠ "located_in".
Proof.
  assert (H : _detect_relationship_type parent_type child_type section
              ∈ ["contains"; "part_of"; "related_to"]).
  { unfold _detect_relationship_type. cbv zeta.
    set (b1 := bool_decide (_ ∈ ["cities"; _; _])).
    set (b2 := bool_decide (_ ∈ ["regions"; _])).
    set (b3 := String.eqb _ "other destinations").
    destruct (String.eqb_spec parent_type "country") as [->|Hp];
      destruct (String.eqb_spec child_type "city") as [->|Hc];
      destruct b1, b2, b3; simpl;
      repeat match goal with
        | |- context [String.eqb ?a ?b] => destruct (String.eqb a b); simpl
        | |- context [bool_decide ?P] => destruct (bool_decide P); simpl
        end;
      set_solver. }
  split; [exact H|]. intros E. rewrite E in H.
  rewrite !elem_of_cons, elem_of_nil in H.
  destruct H as [H|[H|[H|H]]]; try discriminate H; exact H.
Qed.

(** X2: [part_of] is returned exactly for a region under a region, found
    in a section of the regions group. *)
Theorem relationship_part_of_iff (parent_type child_type section : string) :
  _detect_relationship_type parent_type child_type section = "part_of"
  ↔ PyStr.lower section ∈ ["regions"; "subregions"]
    ∧ parent_type = "region" ∧ child_type = "region".
Proof.
  unfold _detect_relationship_type. cbv zeta.
  set (b1 := bool_decide (_ ∈ ["cities"; _; _])).
  set (b3 := String.eqb _ "other destinations").
  split.
  - destruct (String.eqb_spec parent_type "region") as [->|Hp];
      destruct (String.eqb_spec child_type "region") as [->|Hc];
      case_bool_decide as Hr; try (intros _; done);
      destruct b1, b3; simpl;
      repeat match goal with
        | |- context [String.eqb ?a ?b] => destruct (String.eqb a b); simpl
        | |- context [bool_decide ?P] => destruct (bool_decide P); simpl
        end; discriminate.
  - intros (Hr & -> & ->).
    rewrite (bool_decide_eq_true_2 _ Hr). by destruct b1.
Qed.

(** X3: the decision table of [_detect_node_type]. With [country] for a
    non-empty Regions or Cities section or list, [transport] for a
    non-empty Get in or Get around section and [sights] for a non-empty
    See or Do section, the type is [country] exactly when [country]
    holds; otherwise [city] or [destination] when [transport] holds,
    according to See, Do or Eat being there; otherwise [attraction]
    exactly when the page has coordinates; otherwise [region] exactly
    when [sights] holds; and [destination] in the remaining case. *)
Theorem node_type_decision_table (query : string) (pd : parsed_data) :
  let has k := PyStr.truthy (sections (pd_metadata pd) !! k) in
  let country :=
    has "regions" || has "cities" || list_truthy (regions (pd_metadata pd))
    || list_truthy (cities (pd_metadata pd)) in
  let transport := has "get_in" || has "get_around" in
  let sights := has "see" || has "do" in
  let type := _detect_node_type query pd in
  (type = "country" ↔ country = true)
  ∧ (type = "city"
     ↔ country = false ∧ transport = true ∧ sights || has "eat" = true)
  ∧ (type = "attraction"
     ↔ country = false ∧ transport = false ∧ is_Some (coordinates pd))
  ∧ (type = "region"
     ↔ country = false ∧ transport = false ∧ coordinates pd = None
       ∧ sights = true)
  ∧ (type = "destination"
     ↔ country = false
       ∧ (transport = true ∧ sights || has "eat" = false
          ∨ transport = false ∧ coordinates pd = None ∧ sights = false)).
Proof.
  unfold _detect_node_type. cbv zeta.
  set (r := PyStr.truthy (_ !! "regions")).
  set (c := PyStr.truthy (_ !! "cities")).
  set (gi := PyStr.truthy (_ !! "get_in")).
  set (ga := PyStr.truthy (_ !! "get_around")).
  set (se := PyStr.truthy (_ !! "see")).
  set (d := PyStr.truthy (_ !! "do")).
  set (e := PyStr.truthy (_ !! "eat")).
  set (lr := list_truthy (regions _)). set (lc := list_truthy (cities _)).
  assert (Hsome : ∀ xy : Q * Q, is_Some (Some xy)) by (intros; by eexists).
  assert (Hnone : ¬ is_Some (@None (Q * Q))) by (by intros [? ?]).
  destruct (r || c || lr || lc) eqn:Hcountry; simpl.
  { repeat split; try done; intros; try discriminate;
      repeat match goal with
        | H : _ ∧ _ |- _ => destruct H
        end; discriminate. }
  destruct (gi || ga) eqn:Htransport; simpl.
  { destruct (se || d || e) eqn:Heat;
      [destruct (se || d) | destruct se, d; try discriminate Heat];
      simpl; repeat split; try done; intros; try discriminate;
      repeat match goal with
        | H : _ ∧ _ |- _ => destruct H
        | H : _ ∨ _ |- _ => destruct H
        end; try discriminate; try done; auto. }
  apply orb_false_iff in Htransport as [-> _].
  destruct (coordinates pd) as [xy|]; simpl.
  { repeat split; try done; intros; try discriminate; auto;
      repeat match goal with
        | H : _ ∧ _ |- _ => destruct H
        | H : _ ∨ _ |- _ => destruct H
        end; try discriminate; try done. }
  destruct (se || d); simpl;
    repeat split; try done; intros; try discriminate; auto;
    repeat match goal with
      | H : _ ∧ _ |- _ => destruct H
      | H : _ ∨ _ |- _ => destruct H
      end; try discriminate; try done; try (exfalso; auto; fail).
Qed.

End ClassifierProps.

Module BreadcrumbProps.
Import PyStr PyStrFacts Breadcrumbs Samples.

Lemma segment_head n :
  segment n → ∃ c n', n = String c n' ∧ c ≠ "/"%char.
Proof.
  intros [Hne Hall]. destruct n as [|c n']; [congruence|].
  exists c, n'. split; [reflexivity|].
  simpl in Hall. apply andb_true_iff in Hall as [Hc _].
  intros ->. vm_compute in Hc. discriminate.
Qed.

Lemma path_step_part parts c :
  path_step parts c = parts ++ option_list (crumb_part c).
Proof.
  unfold path_step, crumb_part.
  destruct (get_default c "name" "") as [name|]; simpl;
    [|symmetry; apply app_nil_r].
  destruct (nonempty name); simpl; [|symmetry; apply app_nil_r].
  destruct (nonempty _); simpl; [reflexivity | symmetry; apply app_nil_r].
Qed.

Lemma path_parts_omap breadcrumbs acc :
  fold_left path_step breadcrumbs acc = acc ++ omap crumb_part breadcrumbs.
Proof.
  revert acc. induction breadcrumbs as [|c cs IH]; intros acc; simpl.
  - symmetry. apply app_nil_r.
  - rewrite IH, path_step_part, <- app_assoc. f_equal.
    destruct (crumb_part c); reflexivity.
Qed.

Lemma normalize_join breadcrumbs :
  _normalize_breadcrumb_path breadcrumbs
  = join "/" (omap crumb_part breadcrumbs).
Proof.
  unfold _normalize_breadcrumb_path.
  destruct breadcrumbs as [|c cs]; [reflexivity|].
  rewrite path_parts_omap, app_nil_l.
  generalize (omap crumb_part (c :: cs)). intros [|]; reflexivity.
Qed.

Lemma crumb_part_segment c n : crumb_part c = Some n → segment n.
Proof.
  unfold crumb_part. destruct (get_default c "name" "") as [name|]; [|discriminate].
  cbv zeta. destruct (nonempty name); simpl; [|discriminate].
  destruct (nonempty _) eqn:Hn; [|discriminate].
  intros [= <-]. split; [apply nonempty_true, Hn | apply all_chars_filter].
Qed.

Lemma parts_segments breadcrumbs :
  Forall segment (omap crumb_part breadcrumbs).
Proof.
  induction breadcrumbs as [|c cs IH]; simpl; [constructor|].
  destruct (crumb_part c) eqn:Hc; [|exact IH].
  constructor; [eapply crumb_part_segment, Hc | exact IH].
Qed.

(** The join of segments, by cases on the list. *)
Lemma join_cons sep x y ys :
  join sep (x :: y :: ys) = x +:+ sep +:+ join sep (y :: ys).
Proof. reflexivity. Qed.

Lemma join_segments_start parts :
  Forall segment parts → startswith (join "/" parts) "/" = false.
Proof.
  intros Hp. destruct Hp as [|x xs Hx Hxs]; [reflexivity|].
  destruct (segment_head _ Hx) as (c & x' & -> & Hc).
  unfold startswith.
  destruct xs; [|rewrite join_cons]; apply prefix_cons_ne; congruence.
Qed.

Lemma endswith_sep_app x t :
  t ≠ "" → endswith t "/" = false → endswith (x +:+ "/" +:+ t) "/" = false.
Proof.
  intros Ht Hend. induction x as [|c x IH].
  - change ("" +:+ "/" +:+ t) with (String "/" t). cbn [endswith].
    rewrite Hend, orb_false_r.
    destruct t; [congruence|]. reflexivity.
  - change (String c x +:+ "/" +:+ t) with (String c (x +:+ "/" +:+ t)).
    cbn [endswith]. rewrite IH, orb_false_r.
    destruct (x +:+ "/" +:+ t) eqn:E.
    + destruct x; discriminate E.
    + cbn. destruct (Ascii.eqb c "/"); reflexivity.
Qed.

Lemma endswith_noslash x :
  all_chars keep_char x = true → endswith x "/" = false.
Proof.
  induction x as [|c x IH]; simpl; [reflexivity|].
  intros [Hc Hx]%andb_true_iff. rewrite (IH Hx), orb_false_r.
  destruct (Ascii.eqb_spec c "/") as [->|?]; [vm_compute in Hc; discriminate|].
  reflexivity.
Qed.

Lemma join_segments_nonempty x xs :
  segment x → join "/" (x :: xs) ≠ "".
Proof.
  intros (c & x' & -> & _)%segment_head. destruct xs; discriminate.
Qed.

Lemma join_segments_end parts :
  Forall segment parts → endswith (join "/" parts) "/" = false.
Proof.
  induction 1 as [|x xs Hx Hxs IH]; [reflexivity|].
  destruct xs as [|y ys].
  - apply endswith_noslash, Hx.
  - rewrite join_cons. apply endswith_sep_app; [|exact IH].
    inversion Hxs; subst. by apply join_segments_nonempty.
Qed.

Lemma contains_noslash x t :
  all_chars keep_char x = true →
  String.prefix "/" t = false → contains "//" t = false →
  contains "//" (x +:+ "/" +:+ t) = false.
Proof.
  intros Hx Hpre Ht. induction x as [|c x IH].
  - change ("" +:+ "/" +:+ t) with (String "/" t).
    cbn [contains]. rewrite Ht, orb_false_r.
    change (String.prefix "//" (String "/" t))
      with (if ascii_dec "/" "/" then String.prefix "/" t else false).
    rewrite Hpre. destruct (ascii_dec _ _); reflexivity.
  - simpl in Hx. apply andb_true_iff in Hx as [Hc Hx].
    change (String c x +:+ "/" +:+ t) with (String c (x +:+ "/" +:+ t)).
    cbn [contains]. rewrite (IH Hx), orb_false_r.
    apply prefix_cons_ne. intros <-. vm_compute in Hc. discriminate.
Qed.

Lemma contains_noslash_alone x :
  all_chars keep_char x = true → contains "//" x = false.
Proof.
  induction x as [|c x IH]; [reflexivity|].
  simpl all_chars. intros [Hc Hx]%andb_true_iff.
  cbn [contains]. rewrite (IH Hx), orb_false_r.
  apply prefix_cons_ne. intros <-. vm_compute in Hc. discriminate.
Qed.

Lemma join_segments_no_double parts :
  Forall segment parts → contains "//" (join "/" parts) = false.
Proof.
  induction 1 as [|x xs Hx Hxs IH]; [reflexivity|].
  destruct xs as [|y ys].
  - apply contains_noslash_alone, Hx.
  - rewrite join_cons. apply contains_noslash; [apply Hx| |exact IH].
    apply (join_segments_start _ Hxs).
Qed.

Lemma join_segments_chars parts :
  Forall segment parts →
  all_chars (fun c => keep_char c || Ascii.eqb c "/") (join "/" parts) = true.
Proof.
  induction 1 as [|x xs Hx Hxs IH]; [reflexivity|].
  assert (Hgood : all_chars (fun c => keep_char c || Ascii.eqb c "/") x = true).
  { eapply all_chars_weaken; [|apply Hx]. intros c ->. reflexivity. }
  destruct xs as [|y ys]; [exact Hgood|].
  rewrite join_cons, !all_chars_app, Hgood, IH. reflexivity.
Qed.

Lemma normalize_path_well_formed_aux (breadcrumbs : list crumb) :
  well_formed_path (_normalize_breadcrumb_path breadcrumbs).
Proof.
  rewrite normalize_join.
  pose proof (parts_segments breadcrumbs) as Hseg.
  repeat split.
  - by apply join_segments_start.
  - by apply join_segments_end.
  - by apply join_segments_no_double.
  - by apply join_segments_chars.
Qed.

(** C10: for every breadcrumb chain the normalized path is the join of the
    contributions of its crumbs, the crumbs without contribution (no name,
    or a name that normalizes to the empty string) being skipped, and it is
    a well-formed relative path: no leading, trailing or doubled ["/"], and
    only alphanumeric characters, underscores, hyphens and separators. *)
Theorem normalize_path_well_formed (breadcrumbs : list crumb) :
  _normalize_breadcrumb_path breadcrumbs
  = join "/" (omap crumb_part breadcrumbs)
  ∧ well_formed_path (_normalize_breadcrumb_path breadcrumbs).
Proof.
  split; [apply normalize_join|].
  rewrite normalize_join.
  pose proof (parts_segments breadcrumbs) as Hseg.
  repeat split.
  - by apply join_segments_start.
  - by apply join_segments_end.
  - by apply join_segments_no_double.
  - by apply join_segments_chars.
Qed.

(** C7, as stated, fails: only the space character U+0020 becomes an
    underscore. Any other whitespace, here the line feed inside a name, is
    not alphanumeric and is stripped, where the specification's wording
    gives an underscore. *)
Lemma normalize_line_feed_stripped :
  _normalize_breadcrumb_path [named name_two_lines] = "centraleurope"
  ∧ normalizeBreadcrumbPath_spec [name_two_lines] = "central_europe"
  ∧ _normalize_breadcrumb_path [named name_two_lines]
    ≠ normalizeBreadcrumbPath_spec [name_two_lines].
Proof. vm_compute. repeat split. discriminate. Qed.

(** C7 (amended): [_normalize_breadcrumb_path] lowercases each name,
    replaces each space by an underscore, strips the characters that are
    not alphanumeric, underscore or hyphen, skips the crumbs left without
    a name, and joins the rest with ["/"]; the empty chain yields the empty
    string and the chain Europe, Central Europe, Poland yields
    ["europe/central_europe/poland"]. *)
Theorem normalize_breadcrumb_path_correct :
  (∀ breadcrumbs : list crumb,
     _normalize_breadcrumb_path breadcrumbs
     = join "/" (omap crumb_part breadcrumbs))
  ∧ (∀ c : crumb,
       crumb_part c
       = match get_default c "name" "" with
         | Some name =>
             let normalized :=
               filter_chars keep_char (replace " " "_" (lower name)) in
             if nonempty name && nonempty normalized
             then Some normalized else None
         | None => None
         end)
  ∧ _normalize_breadcrumb_path [] = ""
  ∧ _normalize_breadcrumb_path chain_poland = "europe/central_europe/poland".
Proof.
  split; [exact normalize_join|].
  split; [reflexivity|]. split; [reflexivity|]. vm_compute. reflexivity.
Qed.

(** C4: on the chain of the docstring, Europe, Central Europe, Poland, with
    the current query Krakow, the code returns [None]: the last item is
    dropped as the current page before the scan, and the two items left
    are continent and subcontinent names. *)
Theorem detect_country_docstring_chain :
  _detect_country_from_breadcrumbs chain_poland "Krakow" = None.
Proof. vm_compute. reflexivity. Qed.

(** With the current page closing the chain, as [_extract_breadcrumbs]
    builds it, the scan does reach Poland. *)
Example detect_country_krakow_chain :
  _detect_country_from_breadcrumbs chain_krakow "Krakow" = Some "Poland".
Proof. vm_compute. reflexivity. Qed.

(** *** The scan for the country *)

Lemma scan_backwards_spec (l : list string) :
  match scan_backwards l with
  | Some n =>
      ∃ pre post,
        l = pre ++ n :: post ∧ skipped n = false
        ∧ Forall (fun m => skipped m = true) pre
  | None => Forall (fun m => skipped m = true) l
  end.
Proof.
  induction l as [|n l IH]; [constructor|].
  cbn [scan_backwards]. cbv zeta.
  assert (Hskip : skipped n
                  = any_in region_keywords (lower n)
                    || is_administrative_region n) by reflexivity.
  destruct (any_in region_keywords (lower n)) eqn:Hr; cbv iota.
  - destruct (scan_backwards l) as [m|].
    + destruct IH as (pre & post & -> & Hm & Hpre).
      exists (n :: pre), post. split; [done|]. split; [done|].
      by constructor.
    + by constructor.
  - destruct (is_administrative_region n) eqn:Ha; cbv iota.
    + destruct (scan_backwards l) as [m|].
      * destruct IH as (pre & post & -> & Hm & Hpre).
        exists (n :: pre), post. split; [done|]. split; [done|].
        by constructor.
      * by constructor.
    + exists [], l. split; [done|]. split; [done | constructor].
Qed.

(** X10: the country detected is the last of the ancestor names (the
    truthy names of the chain without its last item) that is neither a
    region keyword match nor an administrative region, every ancestor
    name behind it being one; when nothing is detected, every ancestor
    name is one. The current query plays no part. *)
Theorem detect_country_characterized
    (breadcrumbs : list crumb) (current_query : string) :
  match _detect_country_from_breadcrumbs breadcrumbs current_query with
  | Some country =>
      ∃ before behind,
        ancestor_names breadcrumbs = before ++ country :: behind
        ∧ skipped country = false
        ∧ Forall (fun m => skipped m = true) behind
  | None => Forall (fun m => skipped m = true) (ancestor_names breadcrumbs)
  end.
Proof.
  unfold _detect_country_from_breadcrumbs. cbv zeta.
  fold (ancestor_names breadcrumbs).
  destruct (bool_decide (breadcrumbs = []) || (length breadcrumbs <? 2)%nat)
    eqn:Hshort.
  - assert (E : ancestor_names breadcrumbs = []).
    { unfold ancestor_names.
      destruct breadcrumbs as [|c [|c' rest]]; [done | done | discriminate]. }
    rewrite E. constructor.
  - destruct (ancestor_names breadcrumbs) as [|n names] eqn:E; [constructor|].
    pose proof (scan_backwards_spec (rev (n :: names))) as Hscan.
    destruct (scan_backwards (rev (n :: names))) as [country|].
    + destruct Hscan as (pre & post & Hrev & Hc & Hpre).
      exists (rev post), (rev pre). split; [|split; [done|]].
      * rewrite <- (rev_involutive (n :: names)), Hrev, rev_app_distr.
        simpl. by rewrite <- app_assoc.
      * apply Forall_forall. intros m Hm. rewrite Forall_forall in Hpre.
        apply Hpre. apply list_elem_of_In. apply list_elem_of_In in Hm.
        by apply in_rev.
    + apply Forall_forall. intros m Hm. rewrite Forall_forall in Hscan.
      apply Hscan. apply list_elem_of_In. apply list_elem_of_In in Hm.
      by apply in_rev in Hm.
Qed.

(** *** Normalizing twice *)

Lemma normalized_chars (name : string) :
  all_chars (fun c => keep_char c && Ascii.eqb (lower_char c) c)
    (filter_chars keep_char (replace " " "_" (lower name))) = true.
Proof.
  unfold replace, lower. induction name as [|c name IH]; [reflexivity|].
  simpl. destruct (keep_char _) eqn:Hk; [|exact IH].
  simpl. rewrite Hk, IH, andb_true_r. simpl.
  destruct (Ascii.eqb (lower_char c) " "); [reflexivity|].
  rewrite lower_char_idem. apply Ascii.eqb_refl.
Qed.

Lemma normalized_fixed (n : string) :
  all_chars (fun c => keep_char c && Ascii.eqb (lower_char c) c) n = true →
  filter_chars keep_char (replace " " "_" (lower n)) = n.
Proof.
  unfold replace, lower. induction n as [|c n IH]; [reflexivity|].
  simpl. intros [[Hk Hl]%andb_true_iff Hn]%andb_true_iff.
  apply Ascii.eqb_eq in Hl. rewrite Hl.
  destruct (Ascii.eqb_spec c " ") as [->|_]; [discriminate Hk|].
  by rewrite Hk, (IH Hn).
Qed.

Lemma crumb_part_name_only (c : crumb) (n : string) :
  crumb_part c = Some n → crumb_part (name_only n) = Some n.
Proof.
  intros Hc. destruct (crumb_part_segment c n Hc) as [Hne _].
  assert (Hn : all_chars (fun a => keep_char a && Ascii.eqb (lower_char a) a) n
               = true).
  { unfold crumb_part in Hc.
    destruct (get_default c "name" "") as [name|]; [|discriminate].
    cbv zeta in Hc. destruct (_ && _); [|discriminate].
    injection Hc as <-. apply normalized_chars. }
  unfold crumb_part, name_only, get_default. rewrite lookup_singleton_eq.
  cbv zeta. rewrite (normalized_fixed n Hn).
  apply nonempty_true in Hne. by rewrite Hne.
Qed.

(** X11: normalizing is idempotent: the segments of a normalized path,
    taken as names and normalized again, give the same path. *)
Theorem normalize_idempotent (breadcrumbs : list crumb) :
  _normalize_breadcrumb_path (map name_only (omap crumb_part breadcrumbs))
  = _normalize_breadcrumb_path breadcrumbs.
Proof.
  rewrite !normalize_join. f_equal.
  induction breadcrumbs as [|c cs IH]; [reflexivity|].
  change (omap crumb_part (c :: cs))
    with (match crumb_part c with
          | Some n => n :: omap crumb_part cs
          | None => omap crumb_part cs
          end).
  destruct (crumb_part c) as [n|] eqn:Hc; [|exact IH].
  change (omap crumb_part (map name_only (n :: omap crumb_part cs)))
    with (match crumb_part (name_only n) with
          | Some m => m :: omap crumb_part (map name_only (omap crumb_part cs))
          | None => omap crumb_part (map name_only (omap crumb_part cs))
          end).
  by rewrite (crumb_part_name_only c n Hc), IH.
Qed.

(** *** The folder path of the root page *)

Lemma well_formed_not_blank (p : string) :
  p ≠ "" → well_formed_path p → nonempty (strip p) = true.
Proof.
  intros Hp (_ & _ & _ & Hchars). apply strip_nospace_nonempty; [done|].
  eapply all_chars_weaken; [|exact Hchars]. intros c Hc.
  destruct (isspace c) eqn:Hs; [|reflexivity].
  destruct c as [[] [] [] [] [] [] [] []]; discriminate.
Qed.

(** X12: the folder path of the root page is, when there is one, a
    non-empty well-formed relative path: the normalized breadcrumbs when
    these are not empty, and otherwise the entry of the table of known
    countries for the lowercased name of the page. *)
Theorem root_breadcrumb_path_well_formed
    (breadcrumbs : list crumb) (country_name : string) :
  root_breadcrumb_path breadcrumbs country_name
  = (if nonempty (_normalize_breadcrumb_path breadcrumbs)
     then Some (_normalize_breadcrumb_path breadcrumbs)
     else known_hierarchies !! lower country_name)
  ∧ ∀ p, root_breadcrumb_path breadcrumbs country_name = Some p →
      p ≠ "" ∧ well_formed_path p.
Proof.
  assert (Hroot : root_breadcrumb_path breadcrumbs country_name
                  = if nonempty (_normalize_breadcrumb_path breadcrumbs)
                    then Some (_normalize_breadcrumb_path breadcrumbs)
                    else known_hierarchies !! lower country_name).
  { unfold root_breadcrumb_path. cbv zeta.
    destruct (nonempty (_normalize_breadcrumb_path breadcrumbs)) eqn:Hn;
      [|reflexivity].
    rewrite well_formed_not_blank; [reflexivity | by apply nonempty_true |].
    apply normalize_path_well_formed_aux. }
  split; [exact Hroot|]. intros p. rewrite Hroot.
  destruct (nonempty (_normalize_breadcrumb_path breadcrumbs)) eqn:Hn.
  - intros [= <-]. split; [by apply nonempty_true|].
    apply normalize_path_well_formed_aux.
  - unfold known_hierarchies. simpl list_to_map.
    intros Hp.
    repeat (apply lookup_insert_Some in Hp as [[_ <-]|[_ Hp]];
            [split; [discriminate | by repeat split] |]).
    by rewrite lookup_empty in Hp.
Qed.

End BreadcrumbProps.

(** ** Section extractor *)
Module HtmlProps.
Import Html Samples.

(** The boundary example of the specification: the content of "See" stops
    at the heading "Do". *)
Example extract_see_stops_at_do :
  _extract_section_content page_see_do "See" = Ok "A".
Proof. vm_compute. reflexivity. Qed.

(** What the specification says of the heading lookup holds of the lookup
    of [_extract_links_from_section]: when no heading carries the id of
    the section and every heading text goes on after the title with a
    character other than a space, a colon, a line feed or a tab, no
    heading is matched. *)
Lemma links_lookup_needs_boundary (main_content : element) (title : string) :
  Forall
    (fun h =>
       PyStr.lower (attr (heading h) "id")
       ≠ PyStr.replace " " "_" (PyStr.lower title)
       ∧ ∃ c rest,
           PyStr.lower (PyStr.strip (get_text (heading h)))
           = PyStr.lower title +:+ String c rest
           ∧ c ∉ [" "; ":"; "010"; "009"]%char)
    (find_all_headings main_content) →
  find_heading_for_links main_content title = None.
Proof.
  intros Hall. unfold find_heading_for_links. cbv zeta.
  rewrite PyStrFacts.find_none_forall.
  - apply PyStrFacts.find_none_forall.
    eapply Forall_impl; [exact Hall|]. cbv beta.
    intros h (_ & c & rest & -> & Hc).
    rewrite PyStrFacts.eqb_app_cons_false, PyStrFacts.length_app_cons_ne,
      PyStrFacts.get_app_cons.
    rewrite bool_decide_eq_false_2 by exact Hc.
    apply andb_false_r.
  - eapply Forall_impl; [exact Hall|]. cbv beta.
    intros h (Hid & _). by apply String.eqb_neq.
Qed.

(** C3: asked for "See" on a page whose only heading is "Seeing",
    [_extract_section_content] matches that heading, because the title
    occurs in its text, and returns its content; the lookup of
    [_extract_links_from_section], which requires a boundary after the
    title, matches nothing on the same page. *)
Theorem extract_section_content_matches_inside_word :
  _extract_section_content page_seeing "See" = Ok "A"
  ∧ find_heading_for_links page_seeing "See" = None.
Proof. vm_compute. split; reflexivity. Qed.

(** *** The headings found *)

Lemma headings_below_heading (e : element) :
  ∀ (enclosing : option element) (h : located),
    h ∈ headings_below enclosing e → is_heading (heading h) = true.
Proof.
  revert e. fix IH 1. intros [text|n attrs contents] enclosing h.
  - clear IH. simpl. intros Hh. apply elem_of_nil in Hh. destruct Hh.
  - simpl.
    generalize (if String.eqb n "section" then Some (Tag n attrs contents)
                else enclosing).
    intros enclosing'. revert contents.
    fix IHl 1. intros [|c rest].
    + clear IH IHl. intros Hh. apply elem_of_nil in Hh. destruct Hh.
    + intros Hh. apply elem_of_app in Hh as [Hh|Hh];
        [|apply elem_of_app in Hh as [Hh|Hh]].
      * clear IH IHl. destruct (is_heading c) eqn:Hc.
        -- apply list_elem_of_singleton in Hh. rewrite Hh. exact Hc.
        -- apply elem_of_nil in Hh. destruct Hh.
      * exact (IH c _ _ Hh).
      * exact (IHl rest Hh).
Qed.

Lemma is_heading_level (h : located) :
  is_heading (heading h) = true →
  ∃ lvl, heading_level h = Ok lvl ∧ (2 <= lvl <= 4)%Z.
Proof.
  unfold is_heading, heading_level. destruct (heading h) as [text|n attrs cs].
  - discriminate.
  - simpl. destruct (String.eqb_spec n "h2") as [->|_];
      [exists 2%Z; split; [reflexivity | lia]|].
    destruct (String.eqb_spec n "h3") as [->|_];
      [exists 3%Z; split; [reflexivity | lia]|].
    destruct (String.eqb_spec n "h4") as [->|_];
      [exists 4%Z; split; [reflexivity | lia] | discriminate].
Qed.

(** The heading a lookup returns is one of the headings of the page, so
    its level is read without failure and lies between 2 and 4. *)
Lemma found_heading_level main_content title h :
  find_heading_for_content main_content title = Some h
  ∨ find_heading_for_links main_content title = Some h →
  ∃ lvl, heading_level h = Ok lvl ∧ (2 <= lvl <= 4)%Z.
Proof.
  intros Hfind. apply is_heading_level.
  apply (headings_below_heading main_content None).
  apply list_elem_of_In.
  unfold find_heading_for_content, find_heading_for_links in Hfind.
  cbv zeta in Hfind. destruct Hfind as [Hfind|Hfind].
  - destruct (List.find _ _) as [h'|] eqn:E in Hfind.
    + injection Hfind as <-. by apply List.find_some in E as [? _].
    + by apply List.find_some in Hfind as [? _].
  - destruct (List.find _ _) as [h'|] eqn:E in Hfind.
    + injection Hfind as <-. by apply List.find_some in E as [? _].
    + by apply List.find_some in Hfind as [? _].
Qed.

(** *** The loop over the siblings *)

Lemma sibling_parts_step lvl (current : element) rest acc :
  sibling_parts lvl (current :: rest) acc
  = if negb (truthy current) then Ok acc
    else if reads_level current then
      match level_of (default "" (name current)) with
      | Raise e => Raise e
      | Ok k =>
          if (k <=? lvl)%Z then Ok acc
          else sibling_parts lvl rest (acc ++ sibling_collect current)
      end
    else sibling_parts lvl rest (acc ++ sibling_collect current).
Proof.
  simpl. destruct (truthy current); [|reflexivity]. simpl.
  unfold reads_level, sibling_collect.
  destruct current as [text|n attrs contents]; [reflexivity|]. simpl.
  destruct (PyStr.nonempty n && PyStr.startswith n "h"); reflexivity.
Qed.

Lemma sibling_parts_pass lvl pre rest acc :
  Forall (passed_over lvl) pre →
  sibling_parts lvl (pre ++ rest) acc
  = sibling_parts lvl rest (acc ++ flat_map sibling_collect pre).
Proof.
  intros Hpre. revert acc.
  induction Hpre as [|e pre (Ht & He) _ IH]; intros acc.
  - simpl. by rewrite app_nil_r.
  - change ((e :: pre) ++ rest) with (e :: (pre ++ rest)).
    rewrite sibling_parts_step, Ht. simpl negb. cbv iota.
    destruct He as [-> | (k & -> & Hk)].
    + rewrite IH. simpl. by rewrite app_assoc.
    + destruct (reads_level e).
      * destruct (Z.leb_spec k lvl); [lia|].
        rewrite IH. simpl. by rewrite app_assoc.
      * rewrite IH. simpl. by rewrite app_assoc.
Qed.

Lemma sibling_parts_stop lvl stop post acc :
  stops_at lvl stop → sibling_parts lvl (stop :: post) acc = Ok acc.
Proof.
  intros [Ht | (Hr & k & Hk & Hle)]; rewrite sibling_parts_step.
  - by rewrite Ht.
  - destruct (truthy stop); [|reflexivity]. simpl. rewrite Hr, Hk.
    by destruct (Z.leb_spec k lvl); [|lia].
Qed.

Lemma sibling_parts_fail lvl bad post acc err :
  fails_at bad err → sibling_parts lvl (bad :: post) acc = Raise err.
Proof.
  intros (Ht & Hr & Hl). rewrite sibling_parts_step, Ht. simpl.
  by rewrite Hr, Hl.
Qed.

Lemma extract_section_content_walk main_content title h lvl :
  find_heading_for_content main_content title = Some h →
  parent_section h = None → heading_level h = Ok lvl →
  _extract_section_content main_content title
  = match sibling_parts lvl (next_siblings h) [] with
    | Raise e => Raise e
    | Ok content_parts => Ok (PyStr.join (String "010" "") content_parts)
    end.
Proof.
  intros Hfind Hsec Hlvl. unfold _extract_section_content.
  rewrite Hfind, Hsec. unfold heading_level in Hlvl. cbv zeta in Hlvl.
  cbv zeta. by rewrite Hlvl.
Qed.

(** X4: outside a section wrapper, the content of a section is what the
    siblings after its heading hold up to the first sibling that is an
    empty string or a heading of the same or a higher level, or up to the
    last sibling; nothing behind that sibling is read. *)
Theorem section_content_boundary
    (main_content : element) (title : string) (h : located) (lvl : Z)
    (pre rest : list element) :
  find_heading_for_content main_content title = Some h →
  parent_section h = None →
  heading_level h = Ok lvl →
  next_siblings h = pre ++ rest →
  Forall (passed_over lvl) pre →
  match rest with [] => True | stop :: _ => stops_at lvl stop end →
  _extract_section_content main_content title
  = Ok (PyStr.join (String "010" "") (flat_map sibling_collect pre)).
Proof.
  intros Hfind Hsec Hlvl Hsib Hpre Hstop.
  rewrite (extract_section_content_walk _ _ _ _ Hfind Hsec Hlvl), Hsib.
  rewrite sibling_parts_pass by exact Hpre. simpl.
  destruct rest as [|stop post]; [reflexivity|].
  by rewrite sibling_parts_stop.
Qed.

Lemma section_content_boundary_witness :
  _extract_section_content page_see_do "See" = Ok "A".
Proof.
  apply (section_content_boundary page_see_do "See"
           (Located (Tag "h2" {[ "id" := "See" ]} [NavigableString "See"])
              [ Tag "p" ∅ [NavigableString "A"];
                Tag "h2" {[ "id" := "Do" ]} [NavigableString "Do"];
                Tag "p" ∅ [NavigableString "B"] ] None)
           2 [Tag "p" ∅ [NavigableString "A"]]
           [ Tag "h2" {[ "id" := "Do" ]} [NavigableString "Do"];
             Tag "p" ∅ [NavigableString "B"] ]).
  - vm_compute. reflexivity.
  - reflexivity.
  - vm_compute. reflexivity.
  - reflexivity.
  - constructor; [|constructor]. split; [reflexivity|]. left. reflexivity.
  - hnf. right. split; [reflexivity|]. exists 2%Z. split; [reflexivity | lia].
Defined.

(** X5: outside a section wrapper, a sibling whose tag name starts with
    [h] without a digit behind it, such as a horizontal rule [hr], makes
    [_extract_section_content] raise, when the loop reaches it. *)
Theorem section_content_raises
    (main_content : element) (title : string) (h : located) (lvl : Z)
    (pre post : list element) (bad : element) (err : exn) :
  find_heading_for_content main_content title = Some h →
  parent_section h = None →
  heading_level h = Ok lvl →
  next_siblings h = pre ++ bad :: post →
  Forall (passed_over lvl) pre →
  fails_at bad err →
  _extract_section_content main_content title = Raise err.
Proof.
  intros Hfind Hsec Hlvl Hsib Hpre Hbad.
  rewrite (extract_section_content_walk _ _ _ _ Hfind Hsec Hlvl), Hsib.
  rewrite sibling_parts_pass by exact Hpre.
  by rewrite (sibling_parts_fail _ _ _ _ _ Hbad).
Qed.

Lemma section_content_raises_witness :
  _extract_section_content page_rule "See" = Raise ValueError.
Proof.
  apply (section_content_raises page_rule "See"
           (Located (Tag "h2" ∅ [NavigableString "See"])
              [ Tag "p" ∅ [NavigableString "A"];
                Tag "h3" ∅ [NavigableString "Old town"];
                Tag "p" ∅ [NavigableString "B"];
                Tag "hr" ∅ [];
                Tag "p" ∅ [NavigableString "C"] ] None)
           2 [ Tag "p" ∅ [NavigableString "A"];
               Tag "h3" ∅ [NavigableString "Old town"];
               Tag "p" ∅ [NavigableString "B"] ]
           [Tag "p" ∅ [NavigableString "C"]] (Tag "hr" ∅ [])).
  - vm_compute. reflexivity.
  - reflexivity.
  - vm_compute. reflexivity.
  - reflexivity.
  - constructor; [split; [reflexivity | left; reflexivity]|].
    constructor;
      [split; [reflexivity | right; exists 3%Z; split; [reflexivity | lia]]|].
    constructor; [split; [reflexivity | left; reflexivity] | constructor].
  - repeat split; reflexivity.
Defined.

(** *** The catalogue of sections *)

Lemma section_keys_nodup : NoDup (map section_key section_names).
Proof.
  apply (bool_decide_unpack (NoDup (map section_key section_names))).
  vm_compute. exact I.
Qed.

Lemma extract_sections_ok main_content names acc sections :
  NoDup (map section_key names) →
  extract_sections main_content names acc = Ok sections →
  (∀ name, name ∈ names →
     ∃ content,
       _extract_section_content main_content name = Ok content
       ∧ sections !! section_key name
         = if PyStr.nonempty content then Some content
           else acc !! section_key name)
  ∧ (∀ k, k ∉ map section_key names → sections !! k = acc !! k).
Proof.
  revert acc. induction names as [|n names IH]; intros acc Hnd Hrun.
  - simpl in Hrun. injection Hrun as <-. split; [|done].
    intros name Hin. by apply elem_of_nil in Hin.
  - simpl in Hrun, Hnd. apply NoDup_cons in Hnd as [Hn Hnd].
    destruct (_extract_section_content main_content n) as [content|e] eqn:En;
      [|discriminate].
    destruct (IH _ Hnd Hrun) as [Hin Hout]. split.
    + intros name [->|Hname]%elem_of_cons.
      * exists content. split; [done|]. rewrite (Hout _ Hn).
        destruct (PyStr.nonempty content); [by rewrite lookup_insert_eq | done].
      * destruct (Hin name Hname) as (c & Hc & Hs). exists c. split; [done|].
        rewrite Hs. destruct (PyStr.nonempty c); [done|].
        destruct (PyStr.nonempty content); [|done].
        apply lookup_insert_ne. intros E. apply Hn. rewrite E.
        apply list_elem_of_fmap. by exists name.
    + intros k Hk. simpl in Hk. apply not_elem_of_cons in Hk as [Hne Hk].
      rewrite (Hout k Hk). destruct (PyStr.nonempty content); [|done].
      by apply lookup_insert_ne.
Qed.

(** X6: when [_extract_all_sections] returns, the mapping holds, under
    the key of each name of the catalogue, the content of that section
    when it is not empty, and nothing else: no empty content, no other
    key. *)
Theorem extract_all_sections_content
    (main_content : element) (sections : gmap string string) :
  _extract_all_sections main_content = Ok sections →
  (∀ name, name ∈ section_names →
     ∃ content,
       _extract_section_content main_content name = Ok content
       ∧ sections !! section_key name
         = if PyStr.nonempty content then Some content else None)
  ∧ (∀ k v, sections !! k = Some v →
       v ≠ "" ∧ k ∈ map section_key section_names).
Proof.
  intros Hrun.
  destruct (extract_sections_ok _ _ _ _ section_keys_nodup Hrun)
    as [Hin Hout].
  split.
  - intros name Hname. destruct (Hin name Hname) as (c & Hc & Hs).
    exists c. split; [done|]. by rewrite Hs, lookup_empty.
  - intros k v Hk.
    destruct (decide (k ∈ map section_key section_names)) as [Hmem|Hmem].
    + split; [|done].
      apply list_elem_of_fmap in Hmem as (name & -> & Hname).
      destruct (Hin name Hname) as (c & _ & Hs). rewrite Hs in Hk.
      destruct (PyStr.nonempty c) eqn:Hc; [|by rewrite lookup_empty in Hk].
      injection Hk as <-. by apply PyStrFacts.nonempty_true.
    + rewrite (Hout k Hmem), lookup_empty in Hk. discriminate.
Qed.

Lemma extract_all_sections_content_witness :
  (∀ name, name ∈ section_names →
     ∃ content,
       _extract_section_content page_see_do name = Ok content
       ∧ ({[ "see" := "A"; "do" := "B" ]} : gmap string string)
           !! section_key name
         = if PyStr.nonempty content then Some content else None)
  ∧ (∀ k v, ({[ "see" := "A"; "do" := "B" ]} : gmap string string) !! k
            = Some v →
       v ≠ "" ∧ k ∈ map section_key section_names).
Proof.
  apply (extract_all_sections_content page_see_do).
  vm_compute. reflexivity.
Defined.

Lemma extract_sections_all_or_nothing main_content names acc :
  (∃ sections, extract_sections main_content names acc = Ok sections)
  ↔ ∀ name, name ∈ names →
      ∃ content, _extract_section_content main_content name = Ok content.
Proof.
  revert acc. induction names as [|n names IH]; intros acc; simpl.
  - split; [|by eexists]. intros _ name Hin. by apply elem_of_nil in Hin.
  - destruct (_extract_section_content main_content n) as [content|e] eqn:En.
    + rewrite IH. split.
      * intros Hall name [->|Hin]%elem_of_cons; [by eexists | by apply Hall].
      * intros Hall name Hin. apply Hall, elem_of_cons. by right.
    + split; [by intros [? ?]|]. intros Hall.
      destruct (Hall n) as [c Hc]; [by apply elem_of_cons; left|].
      congruence.
Qed.

(** X7: [_extract_all_sections] returns a mapping exactly when the
    extraction of every section of the catalogue returns: one section
    that raises makes the whole extraction raise. *)
Theorem extract_all_sections_all_or_nothing (main_content : element) :
  (∃ sections, _extract_all_sections main_content = Ok sections)
  ↔ ∀ name, name ∈ section_names →
      ∃ content, _extract_section_content main_content name = Ok content.
Proof. apply extract_sections_all_or_nothing. Qed.

(** X8: on a page without any [h2], [h3] or [h4] heading, every section
    is empty, no link is found and the mapping of all sections is empty;
    nothing is raised. *)
Theorem no_heading_no_content (main_content : element) :
  find_all_headings main_content = [] →
  (∀ title, _extract_section_content main_content title = Ok "")
  ∧ (∀ title, _extract_links_from_section main_content title = Ok [])
  ∧ _extract_all_sections main_content = Ok ∅.
Proof.
  intros Hnone.
  assert (Hcontent : ∀ title,
            _extract_section_content main_content title = Ok "").
  { intros title. unfold _extract_section_content, find_heading_for_content.
    by rewrite Hnone. }
  split; [exact Hcontent|]. split.
  - intros title. unfold _extract_links_from_section, find_heading_for_links.
    by rewrite Hnone.
  - unfold _extract_all_sections. generalize section_names.
    intros names. induction names as [|n names IH]; [done|].
    simpl. by rewrite Hcontent.
Qed.

Lemma no_heading_no_content_witness :
  (∀ title,
     _extract_section_content (Tag "div" ∅ [Tag "p" ∅ [NavigableString "A"]])
       title = Ok "")
  ∧ (∀ title,
       _extract_links_from_section
         (Tag "div" ∅ [Tag "p" ∅ [NavigableString "A"]]) title = Ok [])
  ∧ _extract_all_sections (Tag "div" ∅ [Tag "p" ∅ [NavigableString "A"]])
    = Ok ∅.
Proof.
  apply (no_heading_no_content (Tag "div" ∅ [Tag "p" ∅ [NavigableString "A"]])).
  reflexivity.
Defined.

(** *** The links of a section *)

Lemma unique_links_spec (links : list string) :
  ∀ seen : gset string,
    NoDup (unique_links seen links)
    ∧ ∀ x, x ∈ unique_links seen links ↔ x ∈ links ∧ x ∉ seen.
Proof.
  induction links as [|l links IH]; intros seen; simpl.
  - split; [constructor|]. intros x. rewrite elem_of_nil. tauto.
  - case_bool_decide as Hseen.
    + destruct (IH seen) as [Hnd Hiff]. split; [done|].
      intros x. rewrite Hiff, elem_of_cons. split; [tauto|].
      intros [[->|?] ?]; [done | tauto].
    + destruct (IH ({[l]} ∪ seen)) as [Hnd Hiff]. split.
      * constructor; [|done]. rewrite Hiff. intros [_ Hnot].
        apply Hnot, elem_of_union. left. by apply elem_of_singleton.
      * intros x. rewrite !elem_of_cons, Hiff, elem_of_union, elem_of_singleton.
        destruct (decide (x = l)) as [->|Hne]; [tauto|]. tauto.
Qed.

Lemma link_page_clean (link : element) (n : string) :
  n ∈ link_page link → clean_page_name n.
Proof.
  unfold link_page. cbv zeta.
  set (pn := PyStr.split_first "?" (PyStr.split_first "#" _)).
  assert (Hhash : PyStr.contains "#" pn = false).
  { apply PyStrFacts.contains_single_free, PyStrFacts.split_first_keeps,
      PyStrFacts.split_first_free. }
  assert (Hquery : PyStr.contains "?" pn = false).
  { apply PyStrFacts.contains_single_free, PyStrFacts.split_first_free. }
  destruct (_ || _); [|by intros ?%elem_of_nil].
  destruct (PyStr.nonempty _); [|by intros ?%elem_of_nil].
  destruct (existsb _ excluded_prefixes) eqn:Hprefix;
    [by intros ?%elem_of_nil|]. simpl.
  assert (Hpn : n ∈ [pn] → clean_page_name n).
  { intros ->%list_elem_of_singleton. by repeat split. }
  destruct (_ && _); [|by intros ?%elem_of_nil].
  destruct (get link "rel") as [rel|]; [|exact Hpn].
  repeat case_bool_decide; try exact Hpn. by intros ?%elem_of_nil.
Qed.

Lemma links_found_clean (e : element) (n : string) :
  n ∈ flat_map link_page (find_all_links e) → clean_page_name n.
Proof.
  intros Hin. apply list_elem_of_In, in_flat_map in Hin as (link & _ & Hin).
  by apply (link_page_clean link), list_elem_of_In.
Qed.

Lemma sibling_links_clean lvl (siblings : list element) :
  ∀ acc links,
    (∀ n, n ∈ acc → clean_page_name n) →
    sibling_links lvl siblings acc = Ok links →
    ∀ n, n ∈ links → clean_page_name n.
Proof.
  induction siblings as [|current rest IH]; intros acc links Hacc; simpl.
  - by intros [= <-].
  - destruct (truthy current); simpl; [|by intros [= <-]].
    assert (Hnext : ∀ n,
              n ∈ acc ++ (if existsb (Html.named current)
                               ["ul"; "ol"; "table"; "div"; "p"]
                          then flat_map link_page (find_all_links current)
                          else []) → clean_page_name n).
    { intros n [?|Hin]%elem_of_app; [by apply Hacc|].
      destruct (existsb _ _); [by eapply links_found_clean|].
      by apply elem_of_nil in Hin. }
    destruct (reads_level current); [|by apply IH].
    destruct (level_of _) as [k|e]; [|discriminate].
    destruct (k <=? lvl)%Z; [by intros [= <-] | by apply IH].
Qed.

(** X9: the page names [_extract_links_from_section] returns are pairwise
    distinct, hold neither an anchor mark [#] nor a query mark [?], and
    start with none of the excluded namespaces. *)
Theorem extracted_links_clean
    (main_content : element) (section_title : string) (names : list string) :
  _extract_links_from_section main_content section_title = Ok names →
  NoDup names
  ∧ ∀ n, n ∈ names →
      PyStr.contains "#" n = false
      ∧ PyStr.contains "?" n = false
      ∧ existsb (PyStr.startswith n) excluded_prefixes = false.
Proof.
  unfold _extract_links_from_section.
  destruct (find_heading_for_links _ _) as [h|];
    [|intros [= <-]; split; [constructor | by intros n ?%elem_of_nil]].
  destruct (parent_section h) as [section_tag|].
  - intros [= <-].
    destruct (unique_links_spec
                (flat_map link_page (find_all_links section_tag)) ∅)
      as [Hnd Hiff].
    split; [done|]. intros n [Hin _]%Hiff. by eapply links_found_clean.
  - destruct (if PyStr.startswith _ "h" then _ else _) as [lvl|e];
      [|discriminate].
    destruct (sibling_links lvl (next_siblings h) []) as [links|e] eqn:Hwalk;
      [|discriminate].
    intros [= <-]. destruct (unique_links_spec links ∅) as [Hnd Hiff].
    split; [done|]. intros n [Hin _]%Hiff.
    eapply (sibling_links_clean lvl _ [] links); [|done|done].
    by intros ? ?%elem_of_nil.
Qed.

Lemma extracted_links_clean_witness :
  NoDup ["Warsaw"; "Krakow"]
  ∧ ∀ n, n ∈ ["Warsaw"; "Krakow"] →
      PyStr.contains "#" n = false
      ∧ PyStr.contains "?" n = false
      ∧ existsb (PyStr.startswith n) excluded_prefixes = false.
Proof.
  apply (extracted_links_clean page_cities "Cities").
  vm_compute. reflexivity.
Defined.

End HtmlProps.

(** ** Recursive fetch *)
Module CrawlerProps.
Import Crawler Samples.

Lemma replace_space_idem (s : string) :
  PyStr.replace " " "_" (PyStr.replace " " "_" s) = PyStr.replace " " "_" s.
Proof.
  unfold PyStr.replace. induction s as [|c s IH]; simpl; [done|].
  rewrite IH. f_equal. destruct (Ascii.eqb c " ") eqn:E; [done | by rewrite E].
Qed.

Lemma fetched_send_page r st :
  fetched (send r st)
  = fetched st ++ match r with PageHtml p => [p] | _ => [] end.
Proof.
  unfold fetched, send. simpl. rewrite omap_app. by destruct r.
Qed.

Lemma refetched_send_page r st :
  refetched (send r st)
  = refetched st ++ match r with WikiPage p => [p] | _ => [] end.
Proof.
  unfold refetched, send. simpl. rewrite omap_app. by destruct r.
Qed.

Lemma fetch_once_initial : fetch_once initial.
Proof.
  unfold fetch_once, initial, fetched, refetched. simpl.
  split; [constructor|]. split; [|split; [constructor|split]].
  - intros p. rewrite elem_of_nil, elem_of_empty. tauto.
  - by intros p ?%elem_of_nil.
  - by intros p ?%elem_of_nil.
Qed.

(** Marking a page visited and sending its content request. *)
Lemma fetch_once_page (page : string) (st : state) :
  let pn := PyStr.replace " " "_" page in
  let st' := send (PageHtml pn) (State ({[pn]} ∪ visited st) (requests st)) in
  fetch_once st → pn ∉ visited st →
  fetch_once st' ∧ pn ∈ fetched st' ∧ pn ∉ refetched st'.
Proof.
  intros pn st' (Hnd & Hvis & Hnd' & Hsub & Hnorm) Hnew.
  assert (Hf : fetched st' = fetched st ++ [pn])
    by exact (fetched_send_page (PageHtml pn) (State _ (requests st))).
  assert (Hr : refetched st' = refetched st).
  { unfold st'. rewrite (refetched_send_page (PageHtml pn)).
    exact (app_nil_r (refetched st)). }
  assert (Hnf : pn ∉ fetched st) by (by rewrite Hvis).
  split; [|split].
  - unfold fetch_once. rewrite Hf, Hr. split; [|split; [|split; [|split]]].
    + apply NoDup_app. split; [done|]. split; [|apply NoDup_singleton].
      intros p Hp ->%list_elem_of_singleton. done.
    + intros p. rewrite elem_of_app, list_elem_of_singleton, Hvis.
      unfold st'. simpl. rewrite elem_of_union, elem_of_singleton. tauto.
    + done.
    + intros p Hp. apply elem_of_app. left. by apply Hsub.
    + intros p [Hp | ->%list_elem_of_singleton]%elem_of_app;
        [by apply Hnorm | apply replace_space_idem].
  - rewrite Hf. apply elem_of_app. right. by apply list_elem_of_singleton.
  - rewrite Hr. intros Hin. by apply Hnf, Hsub.
Qed.

(** Sending the request for the full wiki page of a page just fetched. *)
Lemma fetch_once_wiki (pn : string) (st : state) :
  fetch_once st → pn ∈ fetched st → pn ∉ refetched st →
  fetch_once (send (WikiPage pn) st).
Proof.
  intros (Hnd & Hvis & Hnd' & Hsub & Hnorm) Hin Hnot.
  unfold fetch_once.
  rewrite (fetched_send_page (WikiPage pn)), (refetched_send_page (WikiPage pn)).
  rewrite app_nil_r. split; [done|]. split; [done|]. split; [|split; [|done]].
  - apply NoDup_app. split; [done|]. split; [|apply NoDup_singleton].
    intros p Hp ->%list_elem_of_singleton. done.
  - intros p [Hp | ->%list_elem_of_singleton]%elem_of_app; [by apply Hsub | done].
Qed.

Section crawl.
Context {response : Type}
  (language : string)
  (_make_request : string → option response)
  (has_breadcrumbs : response → bool)
  (outcome_of : string → response → outcome).

Local Abbreviation fetch_pages :=
  (fetch_pages language _make_request has_breadcrumbs outcome_of).
Local Abbreviation fetch :=
  (fetch language _make_request has_breadcrumbs outcome_of).

Lemma fetch_pages_ext recurse1 recurse2 max_depth current_depth
    page_names st nodes :
  (∀ links st, recurse1 links st = recurse2 links st) →
  fetch_pages recurse1 max_depth current_depth page_names st nodes
  = fetch_pages recurse2 max_depth current_depth page_names st nodes.
Proof.
  intros Hext. revert st nodes.
  induction page_names as [|page rest IH]; intros st nodes; simpl; [done|].
  case_bool_decide; [apply IH|].
  destruct (_make_request _) as [resp|]; [|apply IH].
  destruct (outcome_of _ resp) as [| |links]; try apply IH.
  destruct (_ && _); [|apply IH].
  rewrite Hext. destruct (recurse2 _ _). apply IH.
Qed.

(** The fuel is exact: more of it changes nothing. *)
Lemma fetch_fuel (fuel : nat) page_names max_depth current_depth st :
  (Z.to_nat (max_depth - current_depth) ≤ fuel)%nat →
  fetch fuel page_names max_depth current_depth st
  = _fetch_linked_pages_recursive language _make_request has_breadcrumbs
      outcome_of page_names max_depth current_depth st.
Proof.
  unfold _fetch_linked_pages_recursive.
  revert page_names current_depth st.
  induction fuel as [|fuel IH]; intros page_names current_depth st Hle.
  - replace (Z.to_nat (max_depth - current_depth)) with 0%nat by lia. done.
  - simpl. destruct (Z.geb_spec current_depth max_depth) as [Hge|Hlt].
    + replace (Z.to_nat (max_depth - current_depth)) with 0%nat by lia. done.
    + replace (Z.to_nat (max_depth - current_depth))
        with (S (Z.to_nat (max_depth - (current_depth + 1)))) by lia.
      simpl. destruct (Z.geb_spec current_depth max_depth); [lia|].
      apply fetch_pages_ext. intros links st'. apply IH. lia.
Qed.

Lemma fetch_pages_once recurse max_depth current_depth page_names st nodes :
  (∀ links st, fetch_once st → fetch_once (recurse links st).1) →
  fetch_once st →
  fetch_once
    (fetch_pages recurse max_depth current_depth page_names st nodes).1.
Proof.
  intros Hrec. revert st nodes.
  induction page_names as [|page rest IH]; intros st nodes Hst; simpl; [done|].
  case_bool_decide as Hvis; [by apply IH|].
  destruct (fetch_once_page page st Hst Hvis) as (Hst1 & Hin & Hnot).
  destruct (_make_request _) as [resp|]; [|by apply IH].
  set (st1 := send (PageHtml _) _) in *.
  assert (Hst2 : fetch_once
                   (if has_breadcrumbs resp then st1
                    else send (WikiPage (PyStr.replace " " "_" page)) st1)).
  { destruct (has_breadcrumbs resp); [done | by apply fetch_once_wiki]. }
  destruct (outcome_of _ resp) as [| |links]; try by apply IH.
  destruct (_ && _); [|by apply IH].
  specialize (Hrec links _ Hst2). destruct (recurse links _) as [st3 ns].
  by apply IH.
Qed.

Lemma fetch_once_preserved fuel page_names max_depth current_depth st :
  fetch_once st →
  fetch_once (fetch fuel page_names max_depth current_depth st).1.
Proof.
  revert page_names current_depth st.
  induction fuel as [|fuel IH]; intros page_names current_depth st Hst;
    simpl; [done|].
  destruct (_ >=? _)%Z; [done|].
  apply fetch_pages_once; [|done]. intros links st' Hst'. by apply IH.
Qed.

End crawl.

Example flat_spaces :
  fetched (run_flat ["New York"; "New_York"; "Boston"] 1).1
  = ["New_York"; "Boston"].
Proof. vm_compute. reflexivity. Qed.

Example cyclic_depth_3 :
  requests (run_cyclic ["Poland"] 3).1
  = [PageHtml "Poland"; WikiPage "Poland";
     PageHtml "Warsaw"; WikiPage "Warsaw";
     PageHtml "Krakow"; WikiPage "Krakow"]
  ∧ (run_cyclic ["Poland"] 3).2 = ["Poland"; "Warsaw"; "Krakow"].
Proof. vm_compute. split; reflexivity. Qed.

Example flat_case :
  fetched (run_flat ["Warsaw"; "warsaw"] 1).1 = ["Warsaw"; "warsaw"].
Proof. vm_compute. reflexivity. Qed.

(** One page without breadcrumbs: its content and its full wiki page are
    both requested, for one name marked visited. *)
Example wiki_page_second_request :
  requests (run_cyclic ["Warsaw"] 1).1 = [PageHtml "Warsaw"; WikiPage "Warsaw"]
  ∧ visited (run_cyclic ["Warsaw"] 1).1 = {[ "Warsaw" ]}.
Proof. vm_compute. split; reflexivity. Qed.

(** The run for Poland, whose page links to Warsaw, whose page links back
    to Poland. *)
Example link_back_depth_2 :
  requests (run_country ["Warsaw"] (fun _ => ["Poland"]) 2).1
  = [PageSummary "Poland"; PageHtml "Poland"; WikiPage "Poland";
     PageHtml "Warsaw"; WikiPage "Warsaw";
     PageHtml "Poland"; WikiPage "Poland"].
Proof. vm_compute. reflexivity. Qed.

(** C2, as stated, fails, in three ways. The names Warsaw and warsaw, which
    differ by case only, are both fetched in one run: [visited] is keyed
    by the page name with its spaces replaced, case kept. A page without
    breadcrumbs is the target of two fetch operations, its content and its
    full wiki page, so that there are more fetch calls than names visited.
    And in the run for Poland, whose page links to Warsaw, whose page
    links back to Poland, the content of Poland is fetched twice: the
    recursive fetch is given an empty [visited] set after the root was
    fetched. *)
Lemma fetch_not_once_per_name :
  (fetched (run_flat ["Warsaw"; "warsaw"] 1).1 = ["Warsaw"; "warsaw"]
   ∧ ¬ NoDup (map normalized_name_spec
                (fetched (run_flat ["Warsaw"; "warsaw"] 1).1)))
  ∧ (requests (run_cyclic ["Warsaw"] 1).1
     = [PageHtml "Warsaw"; WikiPage "Warsaw"]
     ∧ size (visited (run_cyclic ["Warsaw"] 1).1) = 1
     ∧ size (visited (run_cyclic ["Warsaw"] 1).1)
       ≠ List.length (requests (run_cyclic ["Warsaw"] 1).1))
  ∧ (fetched (run_country ["Warsaw"] (fun _ => ["Poland"]) 2).1
     = ["Poland"; "Warsaw"; "Poland"]
     ∧ ¬ NoDup (fetched (run_country ["Warsaw"] (fun _ => ["Poland"]) 2).1)).
Proof.
  split; [|split].
  - assert (E : fetched (run_flat ["Warsaw"; "warsaw"] 1).1
                = ["Warsaw"; "warsaw"]) by (vm_compute; reflexivity).
    rewrite E. split; [reflexivity|].
    change (map normalized_name_spec ["Warsaw"; "warsaw"])
      with ["warsaw"; "warsaw"].
    intros [Hnot _]%NoDup_cons. apply Hnot. by apply list_elem_of_singleton.
  - assert (E : requests (run_cyclic ["Warsaw"] 1).1
                = [PageHtml "Warsaw"; WikiPage "Warsaw"])
      by (vm_compute; reflexivity).
    assert (V : visited (run_cyclic ["Warsaw"] 1).1 = {[ "Warsaw" ]})
      by (vm_compute; reflexivity).
    rewrite E, V, size_singleton. split; [reflexivity|]. split; [done|].
    simpl. lia.
  - assert (E : fetched (run_country ["Warsaw"] (fun _ => ["Poland"]) 2).1
                = ["Poland"; "Warsaw"; "Poland"]) by (vm_compute; reflexivity).
    rewrite E. split; [reflexivity|].
    intros [Hnot _]%NoDup_cons. apply Hnot.
    apply elem_of_cons. right. by apply list_elem_of_singleton.
Qed.

(** From the state with nothing visited and nothing requested: no name
    is fetched twice, the names fetched are the names visited, and the
    full wiki page is fetched at most once per name, for a name fetched. *)
Lemma fetch_once_from_initial {response : Type} (language : string)
    (_make_request : string → option response)
    (has_breadcrumbs : response → bool)
    (outcome_of : string → response → outcome)
    (page_names : list string) (max_depth current_depth : Z) :
  let st :=
    (_fetch_linked_pages_recursive language _make_request has_breadcrumbs
       outcome_of page_names max_depth current_depth initial).1 in
  NoDup (fetched st)
  ∧ (∀ p, p ∈ fetched st → PyStr.replace " " "_" p = p)
  ∧ (∀ p, p ∈ fetched st ↔ p ∈ visited st)
  ∧ size (visited st) = List.length (fetched st)
  ∧ NoDup (refetched st)
  ∧ (∀ p, p ∈ refetched st → p ∈ fetched st).
Proof.
  intros st. unfold _fetch_linked_pages_recursive in st.
  destruct (fetch_once_preserved language _make_request has_breadcrumbs
              outcome_of (Z.to_nat (max_depth - current_depth))
              page_names max_depth current_depth initial fetch_once_initial)
    as (Hnd & Hvis & Hnd' & Hsub & Hnorm).
  fold st in Hnd, Hvis, Hnd', Hsub, Hnorm.
  split; [done|]. split; [done|]. split; [done|]. split; [|done].
  assert (Hset : visited st = list_to_set (fetched st)).
  { apply set_eq. intros p. by rewrite elem_of_list_to_set, Hvis. }
  rewrite Hset. by apply size_list_to_set.
Qed.

(** *** The requests sent before a call

    The log of requests is written and never read: a call from a state
    reached after other requests does what it does without them, behind
    them. *)

Lemma send_after_log log r st :
  send r (after_log log st) = after_log log (send r st).
Proof. unfold send, after_log. simpl. by rewrite app_assoc. Qed.

Lemma summaries_send r st :
  summaries (send r st)
  = summaries st ++ match r with PageSummary p => [p] | _ => [] end.
Proof.
  unfold summaries, send. simpl. rewrite omap_app. by destruct r.
Qed.

Section log.
Context {response : Type}
  (language : string)
  (_make_request : string → option response)
  (has_breadcrumbs : response → bool)
  (outcome_of : string → response → outcome).

Local Abbreviation fetch_pages :=
  (fetch_pages language _make_request has_breadcrumbs outcome_of).
Local Abbreviation fetch :=
  (fetch language _make_request has_breadcrumbs outcome_of).

Lemma fetch_pages_after_log log recurse max_depth current_depth page_names :
  (∀ links st,
     recurse links (after_log log st)
     = (after_log log (recurse links st).1, (recurse links st).2)) →
  ∀ st nodes,
    fetch_pages recurse max_depth current_depth page_names
      (after_log log st) nodes
    = (after_log log
         (fetch_pages recurse max_depth current_depth page_names st nodes).1,
       (fetch_pages recurse max_depth current_depth page_names st nodes).2).
Proof.
  intros Hrec. induction page_names as [|page rest IH]; intros st nodes;
    cbn [Crawler.fetch_pages]; cbv zeta; [done|].
  change (visited (after_log log st)) with (visited st).
  case_bool_decide; [apply IH|].
  change (State ({[PyStr.replace " " "_" page]} ∪ visited st)
            (requests (after_log log st)))
    with (after_log log
            (State ({[PyStr.replace " " "_" page]} ∪ visited st)
               (requests st))).
  rewrite send_after_log.
  destruct (_make_request _) as [resp|]; [|apply IH].
  assert (Hw : ∀ st1,
            (if has_breadcrumbs resp then after_log log st1
             else send (WikiPage (PyStr.replace " " "_" page))
                    (after_log log st1))
            = after_log log
                (if has_breadcrumbs resp then st1
                 else send (WikiPage (PyStr.replace " " "_" page)) st1)).
  { intros st1. destruct (has_breadcrumbs resp); [done|].
    apply send_after_log. }
  rewrite Hw.
  destruct (outcome_of _ resp) as [| |links]; try apply IH.
  destruct (_ && _); [|apply IH].
  rewrite Hrec. destruct (recurse links _) as [st3 g]. apply IH.
Qed.

Lemma fetch_after_log log fuel page_names max_depth current_depth st :
  fetch fuel page_names max_depth current_depth (after_log log st)
  = (after_log log (fetch fuel page_names max_depth current_depth st).1,
     (fetch fuel page_names max_depth current_depth st).2).
Proof.
  revert page_names current_depth st.
  induction fuel as [|fuel IH]; intros page_names current_depth st; simpl;
    [done|].
  destruct (_ >=? _)%Z; [done|].
  apply fetch_pages_after_log. intros links st'. apply IH.
Qed.

Lemma fetch_pages_summaries recurse max_depth current_depth page_names :
  (∀ links st, summaries (recurse links st).1 = summaries st) →
  ∀ st nodes,
    summaries
      (fetch_pages recurse max_depth current_depth page_names st nodes).1
    = summaries st.
Proof.
  intros Hrec. induction page_names as [|page rest IH]; intros st nodes;
    cbn [Crawler.fetch_pages]; cbv zeta; [done|].
  case_bool_decide; [apply IH|].
  set (st1 := send (PageHtml _) _).
  assert (H1 : summaries st1 = summaries st).
  { unfold st1. rewrite (summaries_send (PageHtml _)). apply app_nil_r. }
  destruct (_make_request _) as [resp|]; [|by rewrite IH].
  assert (H2 : summaries
                 (if has_breadcrumbs resp then st1
                  else send (WikiPage (PyStr.replace " " "_" page)) st1)
               = summaries st).
  { destruct (has_breadcrumbs resp); [done|].
    rewrite (summaries_send (WikiPage _)), app_nil_r. done. }
  destruct (outcome_of _ resp) as [| |links]; try by rewrite IH.
  destruct (_ && _); [|by rewrite IH].
  specialize (Hrec links
                (if has_breadcrumbs resp then st1
                 else send (WikiPage (PyStr.replace " " "_" page)) st1)).
  destruct (recurse links _) as [st3 g]. rewrite IH. simpl in Hrec.
  by rewrite Hrec.
Qed.

Lemma fetch_summaries fuel page_names max_depth current_depth st :
  summaries (fetch fuel page_names max_depth current_depth st).1
  = summaries st.
Proof.
  revert page_names current_depth st.
  induction fuel as [|fuel IH]; intros page_names current_depth st; simpl;
    [done|].
  destruct (_ >=? _)%Z; [done|].
  apply fetch_pages_summaries. intros links st'. apply IH.
Qed.

End log.

(** C2 (amended): in every run for a root page, whatever the site, the
    language and the depth, the requests are those of the run for the
    root page itself (its summary, then its content, then its full wiki
    page, as far as the run gets), followed by the requests of the
    recursive fetch. Among the requests of the recursive fetch, no two
    content fetches target the same page name, names being compared after
    replacing spaces by underscores and with their case kept; the names
    fetched are exactly the names marked visited, as many content fetches
    as the set has names; besides its content a page gets one more
    request at most, for its full wiki page, and only a page whose content
    was fetched gets it; and no summary is requested. In the whole run, no
    page other than the root page has its content fetched twice. *)
Theorem fetch_once_per_run {response : Type} (language : string)
    (_make_request : string → option response)
    (has_breadcrumbs : response → bool)
    (outcome_of : string → response → outcome)
    (country_mapping : gmap string string)
    (summary_raises : response → bool)
    (root_outcome_of : string → response → root_outcome)
    (output_dir : bool) (country_name : string) (max_depth : Z) :
  let st :=
    (fetch_country_info language _make_request has_breadcrumbs outcome_of
       country_mapping summary_raises root_outcome_of output_dir
       country_name max_depth).1 in
  let page_name := root_page_name language country_mapping country_name in
  ∃ root_requests rec_requests,
    let recursion := State (visited st) rec_requests in
    requests st = root_requests ++ rec_requests
    ∧ root_requests ≠ []
    ∧ root_requests
        `prefix_of` [PageSummary page_name; PageHtml page_name;
                     WikiPage (PyStr.replace " " "_" country_name)]
    ∧ NoDup (fetched recursion)
    ∧ (∀ p, p ∈ fetched recursion → PyStr.replace " " "_" p = p)
    ∧ (∀ p, p ∈ fetched recursion ↔ p ∈ visited st)
    ∧ size (visited st) = List.length (fetched recursion)
    ∧ NoDup (refetched recursion)
    ∧ (∀ p, p ∈ refetched recursion → p ∈ fetched recursion)
    ∧ summaries recursion = []
    ∧ NoDup (filter (fun p => p ≠ page_name) (fetched st)).
Proof.
  intros st page_name. subst st.
  assert (Hroot : ∀ (st : state) root_requests,
            requests st = root_requests → visited st = ∅ →
            root_requests ≠ [] →
            root_requests
              `prefix_of` [PageSummary page_name; PageHtml page_name;
                           WikiPage (PyStr.replace " " "_" country_name)] →
            ∃ root_requests rec_requests,
              let recursion := State (visited st) rec_requests in
              requests st = root_requests ++ rec_requests
              ∧ root_requests ≠ []
              ∧ root_requests
                  `prefix_of` [PageSummary page_name; PageHtml page_name;
                               WikiPage (PyStr.replace " " "_" country_name)]
              ∧ NoDup (fetched recursion)
              ∧ (∀ p, p ∈ fetched recursion → PyStr.replace " " "_" p = p)
              ∧ (∀ p, p ∈ fetched recursion ↔ p ∈ visited st)
              ∧ size (visited st) = List.length (fetched recursion)
              ∧ NoDup (refetched recursion)
              ∧ (∀ p, p ∈ refetched recursion → p ∈ fetched recursion)
              ∧ summaries recursion = []
              ∧ NoDup (filter (fun p => p ≠ page_name) (fetched st))).
  { intros st root_requests Hreq Hvis Hne Hpre.
    exists root_requests, []. cbv zeta. rewrite Hvis.
    change (fetched (State ∅ [])) with (@nil string).
    change (refetched (State ∅ [])) with (@nil string).
    split; [by rewrite app_nil_r|]. split; [done|]. split; [done|].
    split; [constructor|]. split; [by intros p ?%elem_of_nil|].
    split; [intros p; rewrite elem_of_nil, elem_of_empty; tauto|].
    split; [by rewrite size_empty|]. split; [constructor|].
    split; [by intros p ?%elem_of_nil|]. split; [done|].
    apply NoDup_filter.
    assert (Hsub : fetched st `sublist_of` [page_name]).
    { unfold fetched. rewrite Hreq. destruct Hpre as [k Hk].
      destruct root_requests as [|r1 [|r2 [|r3 [|r4 l]]]];
        simplify_eq/=; first [apply sublist_nil_l | reflexivity]. }
    eapply sublist_NoDup; [apply NoDup_singleton | exact Hsub]. }
  unfold fetch_country_info. cbv zeta. fold page_name.
  destruct (match _make_request (url language (PageSummary page_name)) with
            | Some r => summary_raises r
            | None => false
            end).
  { apply (Hroot _ [PageSummary page_name]); try done.
    by exists [PageHtml page_name;
               WikiPage (PyStr.replace " " "_" country_name)]. }
  destruct (_make_request (url language (PageHtml page_name))) as [resp|].
  2:{ apply (Hroot _ [PageSummary page_name; PageHtml page_name]); try done.
      by exists [WikiPage (PyStr.replace " " "_" country_name)]. }
  destruct (root_outcome_of country_name resp) as [| |all_links].
  - apply (Hroot _ [PageSummary page_name; PageHtml page_name]); try done.
    by exists [WikiPage (PyStr.replace " " "_" country_name)].
  - apply (Hroot _ [PageSummary page_name; PageHtml page_name;
                    WikiPage (PyStr.replace " " "_" country_name)]); done.
  - destruct (_ && _).
    2:{ apply (Hroot _ [PageSummary page_name; PageHtml page_name;
                        WikiPage (PyStr.replace " " "_" country_name)]); done. }
    clear Hroot.
    set (log := [PageSummary page_name; PageHtml page_name;
                 WikiPage (PyStr.replace " " "_" country_name)]).
    change (State ∅ (requests _)) with (after_log log initial).
    unfold _fetch_linked_pages_recursive. rewrite fetch_after_log.
    pose proof (fetch_once_from_initial language _make_request
                  has_breadcrumbs outcome_of all_links max_depth 0) as Hrec.
    pose proof (fetch_summaries language _make_request has_breadcrumbs
                  outcome_of (Z.to_nat (max_depth - 0)) all_links max_depth 0
                  initial) as Hsum.
    unfold _fetch_linked_pages_recursive in Hrec. cbv zeta in Hrec.
    destruct (fetch language _make_request has_breadcrumbs outcome_of
                (Z.to_nat (max_depth - 0)) all_links max_depth 0 initial)
      as [[vis reqs] nodes].
    cbn [fst snd after_log visited requests] in *.
    destruct Hrec as (Hnd & Hnorm & Hvis & Hsize & Hnd' & Hsub).
    exists log, reqs. cbv zeta.
    split; [done|]. split; [done|]. split; [done|].
    split; [done|]. split; [done|]. split; [done|]. split; [done|].
    split; [done|]. split; [done|]. split; [done|].
    assert (Hf : fetched (after_log log (State vis reqs))
                 = page_name :: fetched (State vis reqs)) by done.
    rewrite Hf, filter_cons_False by (intros Hp; by apply Hp).
    by apply NoDup_filter.
Qed.

(** *** Runs from any state *)

Lemma extends_refl st nodes : extends st nodes (st, nodes).
Proof.
  exists [], []. cbn [fst snd]. rewrite !app_nil_r.
  split; [done|]. split; [done|]. split; [done|]. split; [constructor|].
  split; [by intros p ?%elem_of_nil|].
  by rewrite list_to_set_nil, (right_id_L ∅ (∪)).
Qed.

Lemma extends_trans st nodes st1 nodes1 r :
  extends st nodes (st1, nodes1) → extends st1 nodes1 r → extends st nodes r.
Proof.
  intros (new1 & add1 & Hf1 & Hn1 & Hs1 & Hd1 & Hv1 & Hvis1)
         (new2 & add2 & Hf2 & Hn2 & Hs2 & Hd2 & Hv2 & Hvis2).
  simpl in *. exists (new1 ++ new2), (add1 ++ add2).
  split; [by rewrite Hf2, Hf1, app_assoc|].
  split; [by rewrite Hn2, Hn1, app_assoc|].
  split; [by apply sublist_app|].
  split.
  { apply NoDup_app. split; [done|]. split; [|done].
    intros p Hp1 Hp2. apply (Hv2 p Hp2). rewrite Hvis1.
    apply elem_of_union. right. by apply elem_of_list_to_set. }
  split.
  { intros p [Hp|Hp]%elem_of_app; [by apply Hv1|].
    intros Hin. apply (Hv2 p Hp). rewrite Hvis1. apply elem_of_union. by left. }
  rewrite Hvis2, Hvis1, list_to_set_app_L. by rewrite (assoc_L (∪)).
Qed.

(** A page not visited yet: it is marked, its content requested, perhaps
    its wiki page too, and perhaps a node added for it. *)
Lemma extends_page st nodes (pn : string) (wiki node : bool) :
  pn ∉ visited st →
  let st1 := send (PageHtml pn) (State ({[pn]} ∪ visited st) (requests st)) in
  extends st nodes
    (if wiki then send (WikiPage pn) st1 else st1,
     if node then nodes ++ [pn] else nodes).
Proof.
  intros Hnew st1. exists [pn], (if node then [pn] else []). cbn [fst snd].
  assert (Hf : fetched (if wiki then send (WikiPage pn) st1 else st1)
               = fetched st ++ [pn]).
  { destruct wiki.
    - rewrite (fetched_send_page (WikiPage pn)), app_nil_r.
      exact (fetched_send_page (PageHtml pn) (State _ (requests st))).
    - exact (fetched_send_page (PageHtml pn) (State _ (requests st))). }
  split; [exact Hf|]. split; [by destruct node; rewrite ?app_nil_r|].
  split; [destruct node; [done | apply sublist_nil_l]|].
  split; [apply NoDup_singleton|].
  split; [by intros p ->%list_elem_of_singleton|].
  assert (Hv : visited (if wiki then send (WikiPage pn) st1 else st1)
               = {[pn]} ∪ visited st) by by destruct wiki.
  rewrite Hv. apply set_eq. intros x.
  rewrite !elem_of_union, elem_of_list_to_set, list_elem_of_singleton,
    elem_of_singleton. tauto.
Qed.

Lemma extends_lift st nodes r :
  extends st [] r → extends st nodes (r.1, nodes ++ r.2).
Proof.
  intros (new & added & Hf & Hn & Hrest). exists new, added.
  split; [done|]. split; [by rewrite Hn|]. done.
Qed.

Section runs.
Context {response : Type}
  (language : string)
  (_make_request : string → option response)
  (has_breadcrumbs : response → bool)
  (outcome_of : string → response → outcome).

Local Abbreviation fetch_pages :=
  (fetch_pages language _make_request has_breadcrumbs outcome_of).
Local Abbreviation fetch :=
  (fetch language _make_request has_breadcrumbs outcome_of).

(** One turn of the loop: the rest of the list is run from a state that
    extends the state before, with the name of the page visited. *)
Lemma fetch_pages_cons recurse max_depth current_depth page rest st nodes :
  (∀ links st, extends st [] (recurse links st)) →
  ∃ st' nodes',
    fetch_pages recurse max_depth current_depth (page :: rest) st nodes
    = fetch_pages recurse max_depth current_depth rest st' nodes'
    ∧ PyStr.replace " " "_" page ∈ visited st'
    ∧ extends st nodes (st', nodes')
    ∧ ((current_depth <? max_depth - 1)%Z = false →
       ∀ p, p ∈ fetched st' →
         p ∈ fetched st ∨ p = PyStr.replace " " "_" page).
Proof.
  intros Hrec. cbn [Crawler.fetch_pages]. cbv zeta.
  set (pn := PyStr.replace " " "_" page).
  case_bool_decide as Hvis.
  { exists st, nodes. split; [done|]. split; [done|].
    split; [apply extends_refl | by left]. }
  set (st1 := send (PageHtml pn) (State ({[pn]} ∪ visited st) (requests st))).
  pose (st2 := fun w : bool => if w then send (WikiPage pn) st1 else st1).
  assert (Hin : ∀ w n : bool,
            pn ∈ visited (st2 w)
            ∧ extends st nodes (st2 w, if n then nodes ++ [pn] else nodes)
            ∧ ∀ p, p ∈ fetched (st2 w) → p ∈ fetched st ∨ p = pn).
  { intros w n. split; [|split].
    - destruct w; simpl; apply elem_of_union; left; by apply elem_of_singleton.
    - by apply extends_page.
    - assert (Hf : fetched (st2 w) = fetched st ++ [pn]).
      { unfold st2. destruct w.
        + rewrite (fetched_send_page (WikiPage pn)), app_nil_r.
          exact (fetched_send_page (PageHtml pn) (State _ (requests st))).
        + exact (fetched_send_page (PageHtml pn) (State _ (requests st))). }
      intros p. rewrite Hf, elem_of_app, list_elem_of_singleton. tauto. }
  destruct (_make_request _) as [resp|].
  2:{ destruct (Hin false false) as (H1 & H2 & H3).
      exists st1, nodes. split; [reflexivity|]. split; [exact H1|].
      split; [exact H2 | intros _; exact H3]. }
  replace (if has_breadcrumbs resp then st1 else send (WikiPage pn) st1)
    with (st2 (negb (has_breadcrumbs resp)))
    by (by destruct (has_breadcrumbs resp)).
  set (w := negb (has_breadcrumbs resp)).
  destruct (outcome_of pn resp) as [| |links].
  - destruct (Hin w false) as (H1 & H2 & H3).
    exists (st2 w), nodes. split; [reflexivity|]. split; [exact H1|].
    split; [exact H2 | intros _; exact H3].
  - destruct (Hin w true) as (H1 & H2 & H3).
    exists (st2 w), (nodes ++ [pn]). split; [reflexivity|]. split; [exact H1|].
    split; [exact H2 | intros _; exact H3].
  - destruct (Hin w true) as (H1 & H2 & H3).
    destruct (current_depth <? max_depth - 1)%Z eqn:Hdepth; cbn [andb].
    2:{ exists (st2 w), (nodes ++ [pn]). split; [reflexivity|].
        split; [exact H1|]. split; [exact H2 | intros _; exact H3]. }
    destruct (Classifier.list_truthy links).
    2:{ exists (st2 w), (nodes ++ [pn]). split; [reflexivity|].
        split; [exact H1|]. split; [exact H2 | intros [=]]. }
    pose proof (Hrec links (st2 w)) as Hr.
    destruct (recurse links (st2 w)) as [st3 g].
    exists st3, ((nodes ++ [pn]) ++ g). split; [reflexivity|]. split.
    + destruct Hr as (new & added & _ & _ & _ & _ & _ & Hv).
      cbn [fst] in Hv. rewrite Hv. apply elem_of_union. by left.
    + split; [|intros [=]].
      eapply extends_trans; [exact H2|].
      exact (extends_lift _ (nodes ++ [pn]) (st3, g) Hr).
Qed.

Lemma fetch_pages_extends recurse max_depth current_depth page_names :
  (∀ links st, extends st [] (recurse links st)) →
  ∀ st nodes,
    extends st nodes
      (fetch_pages recurse max_depth current_depth page_names st nodes).
Proof.
  intros Hrec. induction page_names as [|page rest IH]; intros st nodes.
  - apply extends_refl.
  - destruct (fetch_pages_cons recurse max_depth current_depth page rest
                st nodes Hrec) as (st' & nodes' & -> & _ & Hext & _).
    eapply extends_trans; [exact Hext | apply IH].
Qed.

Lemma fetch_extends fuel page_names max_depth current_depth st :
  extends st [] (fetch fuel page_names max_depth current_depth st).
Proof.
  revert page_names current_depth st.
  induction fuel as [|fuel IH]; intros page_names current_depth st; simpl.
  - apply extends_refl.
  - destruct (_ >=? _)%Z; [apply extends_refl|].
    apply fetch_pages_extends. intros links st'. apply IH.
Qed.

Lemma fetch_pages_visits recurse max_depth current_depth page_names :
  (∀ links st, extends st [] (recurse links st)) →
  ∀ st nodes page,
    page ∈ page_names →
    PyStr.replace " " "_" page
      ∈ visited
          (fetch_pages recurse max_depth current_depth page_names st nodes).1.
Proof.
  intros Hrec. induction page_names as [|page0 rest IH];
    intros st nodes page Hin; [by apply elem_of_nil in Hin|].
  destruct (fetch_pages_cons recurse max_depth current_depth page0 rest
              st nodes Hrec) as (st' & nodes' & -> & Hvis & _ & _).
  apply elem_of_cons in Hin as [->|Hin]; [|by apply IH].
  destruct (fetch_pages_extends recurse max_depth current_depth rest Hrec
              st' nodes') as (new & added & _ & _ & _ & _ & _ & ->).
  apply elem_of_union. by left.
Qed.

Lemma fetch_pages_flat recurse max_depth current_depth page_names :
  (∀ links st, extends st [] (recurse links st)) →
  (current_depth <? max_depth - 1)%Z = false →
  ∀ st nodes p,
    p ∈ fetched
          (fetch_pages recurse max_depth current_depth page_names st nodes).1 →
    p ∈ fetched st ∨ p ∈ map (PyStr.replace " " "_") page_names.
Proof.
  intros Hrec Hdepth. induction page_names as [|page rest IH];
    intros st nodes p Hp; [by left|].
  destruct (fetch_pages_cons recurse max_depth current_depth page rest
              st nodes Hrec) as (st' & nodes' & E & _ & _ & Hflat).
  rewrite E in Hp. destruct (IH _ _ _ Hp) as [Hp'|Hp'].
  - destruct (Hflat Hdepth p Hp') as [?| ->]; [by left|].
    right. simpl. by left.
  - right. simpl. by right.
Qed.

End runs.

(** X21: from any state, one call of the recursive fetch requests only
    names that were not visited before, none of them twice, marks exactly
    these names visited, and returns nodes for some of them only, one
    each at most, in the order of the requests. *)
Theorem fetch_from_any_state {response : Type} (language : string)
    (_make_request : string → option response)
    (has_breadcrumbs : response → bool)
    (outcome_of : string → response → outcome)
    (page_names : list string) (max_depth current_depth : Z) (st : state) :
  let r :=
    _fetch_linked_pages_recursive language _make_request has_breadcrumbs
      outcome_of page_names max_depth current_depth st in
  ∃ new,
    fetched r.1 = fetched st ++ new
    ∧ NoDup new
    ∧ (∀ p, p ∈ new → p ∉ visited st)
    ∧ visited r.1 = visited st ∪ list_to_set new
    ∧ r.2 `sublist_of` new
    ∧ NoDup r.2.
Proof.
  intros r.
  destruct (fetch_extends language _make_request has_breadcrumbs outcome_of
              (Z.to_nat (max_depth - current_depth)) page_names max_depth
              current_depth st)
    as (new & added & Hf & Hn & Hsub & Hnd & Hv & Hvis).
  exists new. subst r. unfold _fetch_linked_pages_recursive.
  rewrite Hn, app_nil_l.
  split; [done|]. split; [done|]. split; [done|]. split; [done|].
  split; [done|]. by eapply sublist_NoDup.
Qed.

Lemma candidates_fetched {response : Type} (language : string)
    (_make_request : string → option response)
    (has_breadcrumbs : response → bool)
    (outcome_of : string → response → outcome)
    (page_names : list string) (max_depth current_depth : Z) (page : string) :
  (current_depth < max_depth)%Z →
  page ∈ page_names →
  PyStr.replace " " "_" page
    ∈ fetched
        (_fetch_linked_pages_recursive language _make_request
           has_breadcrumbs outcome_of page_names max_depth current_depth
           initial).1.
Proof.
  intros Hdepth Hin.
  destruct (fetch_extends language _make_request has_breadcrumbs outcome_of
              (Z.to_nat (max_depth - current_depth)) page_names max_depth
              current_depth initial)
    as (new & added & Hf & _ & _ & _ & _ & Hvis).
  unfold _fetch_linked_pages_recursive. rewrite Hf. simpl.
  apply (elem_of_list_to_set (C := gset string)).
  assert (Hv : visited initial ∪ list_to_set new = list_to_set new)
    by apply (left_id_L ∅ (∪)).
  rewrite <- Hv, <- Hvis.
  replace (Z.to_nat (max_depth - current_depth))
    with (S (Z.to_nat (max_depth - (current_depth + 1)))) by lia.
  simpl. destruct (Z.geb_spec current_depth max_depth); [lia|].
  apply fetch_pages_visits; [|done].
  intros links st'. apply fetch_extends.
Qed.

(** X22: with levels left, every page of the list is requested, whatever
    happens to the pages before it: a request that fails, a page that
    raises, or the pages fetched below it. *)
Theorem every_candidate_fetched {response : Type} (language : string)
    (_make_request : string → option response)
    (has_breadcrumbs : response → bool)
    (outcome_of : string → response → outcome)
    (page_names : list string) (max_depth current_depth : Z) (page : string) :
  (current_depth < max_depth)%Z →
  page ∈ page_names →
  PyStr.replace " " "_" page
    ∈ fetched
        (_fetch_linked_pages_recursive language _make_request
           has_breadcrumbs outcome_of page_names max_depth current_depth
           initial).1.
Proof.
  apply candidates_fetched.
Qed.

Lemma every_candidate_fetched_witness :
  "New_York" ∈ fetched (run_cyclic ["Boston"; "New York"] 2).1.
Proof.
  apply (every_candidate_fetched (response := unit) "en"
           (fun _ => Some tt) (fun _ => false)
           (fun _ _ => Links ["Warsaw"; "Krakow"])
           ["Boston"; "New York"] 2 0 "New York").
  - lia.
  - apply elem_of_cons. right. apply elem_of_cons. by left.
Defined.

(** X23: the depth bounds the run: without a level left nothing is
    requested and no node is returned; with one level left, the names
    requested are exactly the names of the list, and no link of a fetched
    page is followed. *)
Theorem depth_bounds_fetch {response : Type} (language : string)
    (_make_request : string → option response)
    (has_breadcrumbs : response → bool)
    (outcome_of : string → response → outcome)
    (page_names : list string) (max_depth current_depth : Z) :
  ((max_depth <= current_depth)%Z →
   ∀ st,
     _fetch_linked_pages_recursive language _make_request has_breadcrumbs
       outcome_of page_names max_depth current_depth st = (st, []))
  ∧ (max_depth = (current_depth + 1)%Z →
     ∀ p,
       p ∈ fetched
             (_fetch_linked_pages_recursive language _make_request
                has_breadcrumbs outcome_of page_names max_depth
                current_depth initial).1
       ↔ p ∈ map (PyStr.replace " " "_") page_names).
Proof.
  split.
  - intros Hdepth st. unfold _fetch_linked_pages_recursive.
    by replace (Z.to_nat (max_depth - current_depth)) with 0%nat by lia.
  - intros -> p. split.
    + unfold _fetch_linked_pages_recursive.
      replace (Z.to_nat (current_depth + 1 - current_depth)) with 1%nat by lia.
      simpl. destruct (Z.geb_spec current_depth (current_depth + 1)); [lia|].
      intros Hp.
      apply (fetch_pages_flat language _make_request has_breadcrumbs
               outcome_of) in Hp as [Hp|Hp]; [| |..].
      * by apply elem_of_nil in Hp.
      * done.
      * intros links st'. apply extends_refl.
      * apply Z.ltb_ge. lia.
    + intros (page & -> & Hin)%list_elem_of_fmap.
      apply candidates_fetched; [lia | done].
Qed.

(** *** The root page *)

Lemma candidates_visited {response : Type} (language : string)
    (_make_request : string → option response)
    (has_breadcrumbs : response → bool)
    (outcome_of : string → response → outcome)
    (page_names : list string) (max_depth current_depth : Z) (st : state)
    (page : string) :
  (current_depth < max_depth)%Z →
  page ∈ page_names →
  PyStr.replace " " "_" page
    ∈ visited
        (_fetch_linked_pages_recursive language _make_request
           has_breadcrumbs outcome_of page_names max_depth current_depth
           st).1.
Proof.
  intros Hdepth Hin. unfold _fetch_linked_pages_recursive.
  replace (Z.to_nat (max_depth - current_depth))
    with (S (Z.to_nat (max_depth - (current_depth + 1)))) by lia.
  simpl. destruct (Z.geb_spec current_depth max_depth); [lia|].
  apply fetch_pages_visits; [|done].
  intros links st'. apply fetch_extends.
Qed.

(** X24: the root page is not marked visited. In a run for a root page
    whose content is fetched and processed, with an output directory and
    a depth of one at least, a link of the root page that names the root
    page itself is followed: the content of the root page is requested a
    second time, by the recursive fetch. *)
Theorem root_fetched_again {response : Type} (language : string)
    (_make_request : string → option response)
    (has_breadcrumbs : response → bool)
    (outcome_of : string → response → outcome)
    (country_mapping : gmap string string)
    (summary_raises : response → bool)
    (root_outcome_of : string → response → root_outcome)
    (country_name : string) (max_depth : Z)
    (resp : response) (all_links : list string) (link : string) :
  let page_name := root_page_name language country_mapping country_name in
  match _make_request (url language (PageSummary page_name)) with
  | Some r => summary_raises r = false
  | None => True
  end →
  _make_request (url language (PageHtml page_name)) = Some resp →
  root_outcome_of country_name resp = RootLinks all_links →
  (0 < max_depth)%Z →
  link ∈ all_links →
  PyStr.replace " " "_" link = page_name →
  ∃ between behind,
    fetched
      (fetch_country_info language _make_request has_breadcrumbs outcome_of
         country_mapping summary_raises root_outcome_of true
         country_name max_depth).1
    = page_name :: between ++ page_name :: behind.
Proof.
  intros page_name Hsummary Hcontent Hroot Hdepth Hin Hlink.
  unfold fetch_country_info. cbv zeta. fold page_name.
  assert (Hr : match _make_request (url language (PageSummary page_name)) with
               | Some r => summary_raises r
               | None => false
               end = false).
  { destruct (_make_request (url language (PageSummary page_name)));
      [exact Hsummary | done]. }
  rewrite Hr, Hcontent, Hroot.
  assert (Htruthy : Classifier.list_truthy all_links = true).
  { destruct all_links; [by apply elem_of_nil in Hin | done]. }
  rewrite Htruthy. cbn [andb].
  set (st0 := State ∅ _).
  pose proof (candidates_visited language _make_request has_breadcrumbs
                outcome_of all_links max_depth 0 st0 link Hdepth Hin) as Hvis.
  destruct (fetch_extends language _make_request has_breadcrumbs outcome_of
              (Z.to_nat (max_depth - 0)) all_links max_depth 0 st0)
    as (new & added & Hf & _ & _ & _ & _ & Hv).
  unfold _fetch_linked_pages_recursive in Hvis |- *.
  rewrite Hv, Hlink in Hvis. rewrite Hf.
  apply elem_of_union in Hvis as [Hvis|Hvis]; [by apply elem_of_empty in Hvis|].
  apply elem_of_list_to_set, list_elem_of_split in Hvis
    as (between & behind & ->).
  by exists between, behind.
Qed.

Lemma root_fetched_again_witness :
  ∃ between behind,
    fetched (run_country ["Warsaw"; "Poland"] (fun _ => []) 1).1
    = "Poland" :: between ++ "Poland" :: behind.
Proof.
  apply (root_fetched_again (response := unit) "en"
           (fun _ => Some tt) (fun _ => false)
           (fun page _ => Links ((fun _ => []) page))
           ∅ (fun _ => false) (fun _ _ => RootLinks ["Warsaw"; "Poland"])
           "Poland" 1 tt ["Warsaw"; "Poland"] "Poland").
  - reflexivity.
  - reflexivity.
  - reflexivity.
  - lia.
  - apply elem_of_cons. right. apply elem_of_cons. by left.
  - reflexivity.
Defined.

End CrawlerProps.

(** ** The append-if-absent loop *)
Module MergeLoop.
Import FileManager.

Section index.
Context {K A : Type} `{Countable K} (key : A → K).

Lemma fold_insert_lookup (l : list A) (m : gmap K A) (k : K) :
  is_Some (fold_left (fun m x => <[key x := x]> m) l m !! k)
  ↔ is_Some (m !! k) ∨ k ∈ map key l.
Proof.
  revert m. induction l as [|x l IH]; intros m; simpl.
  - rewrite elem_of_nil. tauto.
  - rewrite IH, elem_of_cons, lookup_insert_is_Some.
    destruct (decide (key x = k)) as [->|Hne]; intuition congruence.
Qed.

Lemma index_by_indexes (l : list A) : indexes key (index_by key l) l.
Proof.
  intros k. unfold index_by. rewrite fold_insert_lookup, lookup_empty.
  split; [intros [[? ?]|?]; [discriminate | done] | by right].
Qed.

Lemma indexes_empty : indexes key ∅ [].
Proof. exact (index_by_indexes []). Qed.

End index.

Section loop.
Context {K A : Type} `{Countable K} (key : A → K) (accept : A → bool).

Local Abbreviation step := (append_new key accept).

Lemma step_cases (st : list A * gmap K A) (x : A) :
  (step st x = st ∧ (accept x = true → is_Some (st.2 !! key x)))
  ∨ (step st x = (st.1 ++ [x], <[key x := x]> st.2)
     ∧ accept x = true ∧ st.2 !! key x = None).
Proof.
  unfold append_new. destruct (accept x); simpl.
  - case_bool_decide as Hk.
    + right. done.
    + left. split; [done|]. intros _. by apply not_eq_None_Some.
  - left. split; [done|]. discriminate.
Qed.

Lemma step_indexes (st : list A * gmap K A) (x : A) :
  indexes key st.2 st.1 → indexes key (step st x).2 (step st x).1.
Proof.
  intros Hi. destruct (step_cases st x) as [[-> _]|(-> & _ & _)]; [done|].
  intros k. simpl.
  rewrite map_app, elem_of_app, lookup_insert_is_Some, <- (Hi k).
  simpl. rewrite list_elem_of_singleton.
  destruct (decide (key x = k)) as [->|Hne]; intuition congruence.
Qed.

Lemma fold_indexes (xs : list A) (st : list A * gmap K A) :
  indexes key st.2 st.1 →
  indexes key (fold_left step xs st).2 (fold_left step xs st).1.
Proof.
  revert st. induction xs as [|x xs IH]; intros st Hi; simpl; [done|].
  apply IH, step_indexes, Hi.
Qed.

(** The loop only appends: the items it adds come from the batch, are
    accepted, and carry keys that are new to the list and pairwise
    distinct. *)
Lemma fold_appends (xs : list A) (st : list A * gmap K A) :
  indexes key st.2 st.1 →
  ∃ new,
    (fold_left step xs st).1 = st.1 ++ new
    ∧ NoDup (map key new)
    ∧ ∀ x, x ∈ new →
        x ∈ xs ∧ accept x = true ∧ key x ∉ map key st.1.
Proof.
  revert st. induction xs as [|x xs IH]; intros st Hi; simpl.
  - exists []. rewrite app_nil_r. split; [done|]. split; [constructor|].
    intros x Hx. by apply elem_of_nil in Hx.
  - destruct (step_cases st x) as [[E _]|(E & Hacc & Hnone)].
    + rewrite E. destruct (IH st Hi) as (new & Hnew & Hnd & Hall).
      exists new. split; [done|]. split; [done|].
      intros y Hy. destruct (Hall y Hy) as (? & ? & ?).
      split; [by apply elem_of_cons; right | done].
    + pose proof (step_indexes st x Hi) as Hi'. rewrite E in *.
      destruct (IH _ Hi') as (new & Hnew & Hnd & Hall). simpl in *.
      exists (x :: new). rewrite Hnew, <- app_assoc. split; [done|].
      assert (Hx : key x ∉ map key st.1).
      { intros Hin. apply Hi in Hin. rewrite Hnone in Hin.
        by destruct Hin. }
      split.
      * simpl. constructor; [|done].
        intros Hin. apply list_elem_of_fmap in Hin as (y & Hy & Hin).
        destruct (Hall y Hin) as (_ & _ & Hnot). apply Hnot.
        rewrite map_app, elem_of_app. right. rewrite <- Hy. simpl.
        apply list_elem_of_singleton. done.
      * intros y [->|Hy]%elem_of_cons.
        { split; [by apply elem_of_cons; left | done]. }
        destruct (Hall y Hy) as (? & ? & Hnot).
        split; [by apply elem_of_cons; right|]. split; [done|].
        intros Hin. apply Hnot. rewrite map_app, elem_of_app. by left.
Qed.

Lemma fold_nodup (xs : list A) (st : list A * gmap K A) :
  indexes key st.2 st.1 →
  NoDup (map key st.1) → NoDup (map key (fold_left step xs st).1).
Proof.
  intros Hi Hnd. destruct (fold_appends xs st Hi) as (new & -> & Hnew & Hall).
  rewrite map_app. apply NoDup_app. split; [done|]. split; [|done].
  intros k Hk Hk'. apply list_elem_of_fmap in Hk' as (y & -> & Hy).
  by destruct (Hall y Hy) as (_ & _ & Hnot).
Qed.

(** After the loop every accepted item of the batch has its key in the
    list. *)
Lemma fold_covers (xs : list A) (st : list A * gmap K A) (x : A) :
  indexes key st.2 st.1 →
  x ∈ xs → accept x = true → key x ∈ map key (fold_left step xs st).1.
Proof.
  revert st. induction xs as [|y xs IH]; intros st Hi Hx Hacc.
  - by apply elem_of_nil in Hx.
  - simpl. apply elem_of_cons in Hx as [->|Hx].
    + pose proof (step_indexes st y Hi) as Hi'.
      destruct (fold_appends xs _ Hi') as (new & -> & _).
      rewrite map_app, elem_of_app. left. apply Hi'.
      destruct (step_cases st y) as [[-> Hin]|(-> & _ & _)]; [by apply Hin|].
      simpl. rewrite lookup_insert_eq. done.
    + apply IH; [by apply step_indexes | done | done].
Qed.

(** A batch whose accepted items are all indexed leaves the state as it
    is. *)
Lemma fold_fixed (xs : list A) (st : list A * gmap K A) :
  (∀ x, x ∈ xs → accept x = true → is_Some (st.2 !! key x)) →
  fold_left step xs st = st.
Proof.
  induction xs as [|x xs IH]; intros Hall; simpl; [done|].
  destruct (step_cases st x) as [[-> _]|(_ & Hacc & Hnone)].
  - apply IH. intros y Hy. apply Hall, elem_of_cons. by right.
  - destruct (Hall x) as [? Hsome]; [by apply elem_of_cons; left | done |].
    congruence.
Qed.

(** Rejected items play no part in the loop. *)
Lemma fold_filter (xs : list A) (st : list A * gmap K A) :
  fold_left step xs st = fold_left step (List.filter accept xs) st.
Proof.
  revert st. induction xs as [|x xs IH]; intros st; simpl; [done|].
  destruct (accept x) eqn:Hacc; simpl; [apply IH|].
  rewrite <- IH. f_equal. unfold append_new. by rewrite Hacc.
Qed.

(** Running the loop again on its own result, freshly indexed, changes
    nothing. *)
Lemma fold_idempotent (xs : list A) (st : list A * gmap K A) :
  indexes key st.2 st.1 →
  let l := (fold_left step xs st).1 in
  (fold_left step xs (l, index_by key l)).1 = l.
Proof.
  intros Hi l. rewrite fold_fixed; [done|].
  intros x Hx Hacc. simpl. apply index_by_indexes.
  by apply fold_covers.
Qed.

End loop.
Section more.
Context {K A : Type} `{Countable K} (key : A → K) (accept : A → bool).

Local Abbreviation step := (append_new key accept).

Lemma fold_length (xs : list A) (st : list A * gmap K A) :
  (List.length st.1 <= List.length (fold_left step xs st).1
   <= List.length st.1 + List.length xs)%nat.
Proof.
  revert st. induction xs as [|x xs IH]; intros st; simpl; [lia|].
  specialize (IH (step st x)).
  destruct (step_cases key accept st x) as [[E _]|(E & _ & _)];
    rewrite E in *; [lia|].
  simpl in IH. rewrite length_app in IH. simpl in IH. lia.
Qed.

(** The keys of the list after the loop: those it had, and those of the
    accepted items of the batch. *)
Lemma fold_keys (xs : list A) (st : list A * gmap K A) :
  indexes key st.2 st.1 →
  (list_to_set (map key (fold_left step xs st).1) : gset K)
  = list_to_set (map key st.1)
    ∪ list_to_set (map key (List.filter accept xs)).
Proof.
  intros Hi. apply set_eq. intros k.
  rewrite elem_of_union, !elem_of_list_to_set. split.
  - destruct (fold_appends key accept xs st Hi) as (new & -> & _ & Hall).
    rewrite map_app, elem_of_app. intros [?|Hk]; [by left|]. right.
    apply list_elem_of_fmap in Hk as (x & -> & Hx).
    destruct (Hall x Hx) as (Hin & Hacc & _).
    apply list_elem_of_fmap. exists x. split; [done|].
    apply list_elem_of_In, filter_In. split; [by apply list_elem_of_In | done].
  - intros [Hk|Hk].
    + destruct (fold_appends key accept xs st Hi) as (new & -> & _).
      rewrite map_app, elem_of_app. by left.
    + apply list_elem_of_fmap in Hk as (x & -> & Hx).
      apply list_elem_of_In, filter_In in Hx as [Hx Hacc].
      apply fold_covers; [done | by apply list_elem_of_In | done].
Qed.

End more.
End MergeLoop.

(** ** The global graph *)
Module FileManagerProps.
Import FileManager MergeLoop.

Lemma fold_add_node (xs : list node) (st : list node * gmap value node) :
  fold_left add_node xs st = fold_left (append_new node_id has_id) xs st.
Proof.
  revert st. induction xs as [|x xs IH]; intros st; simpl; [done|].
  rewrite IH. by destruct st.
Qed.

Lemma fold_add_edge (xs : list edge)
    (st : list edge * gmap (value * value * value) edge) :
  fold_left add_edge xs st
  = fold_left (append_new edge_key (fun _ => true)) xs st.
Proof.
  revert st. induction xs as [|x xs IH]; intros st; simpl; [done|].
  rewrite IH. by destruct st.
Qed.

(** The three components of the merged graph. *)
Lemma update_nodes file source new_nodes new_edges :
  nodes (update_global_graph file source new_nodes new_edges)
  = (fold_left (append_new node_id has_id) new_nodes
       (file_nodes file, index_by node_id (file_nodes file))).1.
Proof. destruct file; simpl; by rewrite fold_add_node. Qed.

Lemma update_edges file source new_nodes new_edges :
  edges (update_global_graph file source new_nodes new_edges)
  = (fold_left (append_new edge_key (fun _ => true)) new_edges
       (file_edges file, index_by edge_key (file_edges file))).1.
Proof. destruct file; simpl; by rewrite fold_add_edge. Qed.

Lemma update_metadata file source new_nodes new_edges :
  let g := update_global_graph file source new_nodes new_edges in
  metadata g
  = GraphMetadata
      (match file with
       | Some graph => md_source (metadata graph)
       | None => source
       end)
      (length (nodes g)) (length (edges g)).
Proof. by destruct file. Qed.

Lemma graph_data_eq (g1 g2 : graph_data) :
  nodes g1 = nodes g2 → edges g1 = edges g2 → metadata g1 = metadata g2 →
  g1 = g2.
Proof. destruct g1, g2; simpl; congruence. Qed.

Lemma has_id_id_less (n : node) : id_less n ↔ has_id n = false.
Proof.
  unfold id_less, has_id, node_id, get.
  destruct (n !! "id") as [[|s]|]; simpl.
  - split; [done | by right; left].
  - unfold PyStr.nonempty. destruct (String.eqb_spec s ""); simpl.
    + subst. split; [done | by right; right].
    + split; [|done]. intros [?|[?|?]]; congruence.
  - split; [done | by left].
Qed.

Lemma update_unique file source new_nodes new_edges :
  unique_graph file →
  unique_graph (Some (update_global_graph file source new_nodes new_edges)).
Proof.
  intros (Hn & Hid & He). unfold unique_graph, file_nodes, file_edges.
  rewrite update_nodes, update_edges. fold (file_nodes file) (file_edges file).
  split; [|split].
  - apply fold_nodup; [apply index_by_indexes | exact Hn].
  - destruct (fold_appends node_id has_id new_nodes
                (file_nodes file, index_by node_id (file_nodes file)))
      as (new & -> & _ & Hall); [apply index_by_indexes|].
    apply Forall_app. split; [exact Hid|].
    apply Forall_forall. intros n Hin. by destruct (Hall n Hin) as (_ & ? & _).
  - apply fold_nodup; [apply index_by_indexes | exact He].
Qed.

Lemma run_merges_unique batches file :
  unique_graph file → unique_graph (run_merges file batches).
Proof.
  revert file. induction batches as [|b bs IH]; intros file Hu; [done|].
  simpl. apply IH. by apply update_unique.
Qed.

Lemma unique_graph_none : unique_graph None.
Proof. repeat split; constructor. Qed.

Example two_runs :
  run_merges None [Samples.batch_poland; Samples.batch_warsaw]
  = Some (GraphData
            [Samples.mk_node "wikivoyage_en_p" "poland";
             Samples.mk_node "wikivoyage_en_w" "warsaw";
             Samples.mk_node "wikivoyage_en_l" "lazienki"]
            [Samples.mk_edge "wikivoyage_en_p" "wikivoyage_en_w" "contains";
             Samples.mk_edge "wikivoyage_en_w" "wikivoyage_en_l" "contains"]
            (GraphMetadata "wikivoyage_en" 3 2)).
Proof. vm_compute. reflexivity. Qed.

(** C1: merging a batch a second time into the graph file written by its
    first merge writes the same file again, whether the first merge found
    a file or not. *)
Theorem update_global_graph_idempotent
    (file : option graph_data) (source : string)
    (new_nodes : list node) (new_edges : list edge) :
  update_global_graph
    (Some (update_global_graph file source new_nodes new_edges))
    source new_nodes new_edges
  = update_global_graph file source new_nodes new_edges.
Proof.
  set (g := update_global_graph file source new_nodes new_edges).
  assert (Hn : nodes (update_global_graph (Some g) source new_nodes new_edges)
               = nodes g).
  { rewrite update_nodes. unfold file_nodes, g. rewrite update_nodes.
    apply fold_idempotent, index_by_indexes. }
  assert (He : edges (update_global_graph (Some g) source new_nodes new_edges)
               = edges g).
  { rewrite update_edges. unfold file_edges, g. rewrite update_edges.
    apply fold_idempotent, index_by_indexes. }
  apply graph_data_eq; [exact Hn | exact He |].
  pose proof (update_metadata file source new_nodes new_edges) as Hm.
  cbv zeta in Hm. fold g in Hm.
  rewrite update_metadata. cbv zeta. rewrite Hn, He, Hm. reflexivity.
Qed.

(** C6: in a graph file built by successive merges from no file, no two
    nodes share an id and no two edges share a (source, target, type)
    triple; and a merge keeps the nodes and edges of the file as they are,
    in place, appending after them only nodes of the batch whose id is
    absent from the file and edges of the batch whose triple is absent
    from the file. *)
Theorem global_graph_unique_append_only :
  (∀ batches : list batch,
     NoDup (map node_id (file_nodes (run_merges None batches)))
     ∧ NoDup (map edge_key (file_edges (run_merges None batches))))
  ∧ (∀ (file : option graph_data) (source : string)
       (new_nodes : list node) (new_edges : list edge),
       ∃ added_nodes added_edges,
         nodes (update_global_graph file source new_nodes new_edges)
         = file_nodes file ++ added_nodes
         ∧ edges (update_global_graph file source new_nodes new_edges)
           = file_edges file ++ added_edges
         ∧ (∀ n, n ∈ added_nodes →
              n ∈ new_nodes ∧ node_id n ∉ map node_id (file_nodes file))
         ∧ (∀ e, e ∈ added_edges →
              e ∈ new_edges ∧ edge_key e ∉ map edge_key (file_edges file))).
Proof.
  split.
  - intros batches.
    destruct (run_merges_unique batches None unique_graph_none)
      as (Hn & _ & He).
    by split.
  - intros file source new_nodes new_edges.
    destruct (fold_appends node_id has_id new_nodes
                (file_nodes file, index_by node_id (file_nodes file)))
      as (added_nodes & Hn & _ & Hnall); [apply index_by_indexes|].
    destruct (fold_appends edge_key (fun _ => true) new_edges
                (file_edges file, index_by edge_key (file_edges file)))
      as (added_edges & He & _ & Heall); [apply index_by_indexes|].
    exists added_nodes, added_edges.
    rewrite update_nodes, update_edges.
    split; [exact Hn|]. split; [exact He|]. split.
    + intros n Hin. by destruct (Hnall n Hin) as (? & _ & ?).
    + intros e Hin. by destruct (Heall e Hin) as (? & _ & ?).
Qed.

(** C9: a node is without usable id exactly when its id reads as falsy;
    such nodes of a batch can be removed from it without changing the
    merged graph; a node without usable id found in the merged graph was
    already in the file; and a graph file built by successive merges from
    no file holds none. *)
Theorem update_global_graph_drops_id_less :
  (∀ n : node, id_less n ↔ has_id n = false)
  ∧ (∀ (file : option graph_data) (source : string)
       (new_nodes : list node) (new_edges : list edge),
       update_global_graph file source new_nodes new_edges
       = update_global_graph file source (List.filter has_id new_nodes)
           new_edges)
  ∧ (∀ (file : option graph_data) (source : string)
       (new_nodes : list node) (new_edges : list edge) (n : node),
       n ∈ nodes (update_global_graph file source new_nodes new_edges) →
       id_less n → n ∈ file_nodes file)
  ∧ (∀ (batches : list batch) (n : node),
       n ∈ file_nodes (run_merges None batches) → ¬ id_less n).
Proof.
  split; [exact has_id_id_less|]. split; [|split].
  - intros file source new_nodes new_edges.
    assert (Hn : nodes (update_global_graph file source new_nodes new_edges)
                 = nodes (update_global_graph file source
                            (List.filter has_id new_nodes) new_edges)).
    { rewrite !update_nodes. by rewrite fold_filter. }
    apply graph_data_eq; [exact Hn | by rewrite !update_edges |].
    rewrite !update_metadata. cbv zeta. by rewrite Hn, !update_edges.
  - intros file source new_nodes new_edges n Hin Hless.
    rewrite update_nodes in Hin.
    destruct (fold_appends node_id has_id new_nodes
                (file_nodes file, index_by node_id (file_nodes file)))
      as (added & Hadd & _ & Hall); [apply index_by_indexes|].
    rewrite Hadd in Hin. simpl in Hin.
    apply elem_of_app in Hin as [Hin|Hin]; [exact Hin|].
    destruct (Hall n Hin) as (_ & Hid & _).
    apply has_id_id_less in Hless. congruence.
  - intros batches n Hin Hless.
    destruct (run_merges_unique batches None unique_graph_none)
      as (_ & Hid & _).
    rewrite Forall_forall in Hid. specialize (Hid n Hin).
    apply has_id_id_less in Hless. congruence.
Qed.

End FileManagerProps.

(** ** Folders, graph files and data files *)
Module FileManagerMore.
Import FileManager MergeLoop FileManagerProps.

(** *** The folder of a source *)

Lemma source_mapping_fixed (k v : string) :
  source_mapping !! k = Some v → source_mapping !! v = Some v ∧ PyStr.lower v = v.
Proof.
  unfold source_mapping. simpl list_to_map. intros Hk.
  repeat (apply lookup_insert_Some in Hk as [[_ <-]|[_ Hk]];
          [split; reflexivity |]).
  by rewrite lookup_empty in Hk.
Qed.

(** X13: the folder of a source does not depend on the case of the
    source name, and is itself a source name with the same folder: the
    language variants of a source share one folder. *)
Theorem folder_name_stable (source : string) :
  folder_name (PyStr.lower source) = folder_name source
  ∧ folder_name (folder_name source) = folder_name source.
Proof.
  unfold folder_name. cbv zeta. rewrite PyStrFacts.lower_idem.
  split; [reflexivity|].
  destruct (source_mapping !! PyStr.lower source) as [v|] eqn:Hv; simpl.
  - destruct (source_mapping_fixed _ _ Hv) as [Hfix Hlow].
    by rewrite Hlow, Hfix.
  - by rewrite PyStrFacts.lower_idem, Hv.
Qed.

(** X14: two sources with the same folder write the same global graph
    file: the merge for the second one finds the graph the first one
    wrote, merges into it and keeps the source name stored with it; the
    graph files at other paths are left as they were. *)
Theorem sources_share_graph_file (output_dir : path)
    (files : gmap path graph_data) (source1 source2 : string)
    (nodes1 nodes2 : list node) (edges1 edges2 : list edge) :
  folder_name source1 = folder_name source2 →
  let first := update_global_graph_at output_dir files source1 nodes1 edges1 in
  let second :=
    update_global_graph_at output_dir first.1 source2 nodes2 edges2 in
  let graph1 :=
    update_global_graph (files !! first.2) source1 nodes1 edges1 in
  second.2 = first.2
  ∧ second.1 !! first.2
    = Some (update_global_graph (Some graph1) source2 nodes2 edges2)
  ∧ (∀ graph2, second.1 !! first.2 = Some graph2 →
       md_source (metadata graph2) = md_source (metadata graph1))
  ∧ (∀ file, file ≠ first.2 → second.1 !! file = files !! file).
Proof.
  intros Hfolder first second graph1.
  assert (Hfile : second.2 = first.2).
  { unfold second, first, update_global_graph_at, global_graph_file,
      get_source_folder. simpl. by rewrite Hfolder. }
  assert (Hgraph : second.1 !! first.2
                   = Some (update_global_graph (Some graph1) source2
                             nodes2 edges2)).
  { rewrite <- Hfile. unfold second, update_global_graph_at. simpl.
    rewrite lookup_insert_eq. f_equal. f_equal.
    fold (global_graph_file output_dir source2).
    change (global_graph_file output_dir source2) with second.2.
    rewrite Hfile. unfold first at 1, update_global_graph_at. simpl.
    by rewrite lookup_insert_eq. }
  split; [exact Hfile|]. split; [exact Hgraph|]. split.
  - intros graph2. rewrite Hgraph. intros [= <-].
    by rewrite update_metadata.
  - intros file Hne. unfold second, update_global_graph_at. simpl.
    rewrite lookup_insert_ne
      by (fold (global_graph_file output_dir source2);
          change (global_graph_file output_dir source2) with second.2;
          by rewrite Hfile).
    unfold first, update_global_graph_at. simpl.
    by rewrite lookup_insert_ne.
Qed.

Lemma sources_share_graph_file_witness :
  (update_global_graph_at (Path "" ["out"])
     (update_global_graph_at (Path "" ["out"]) ∅ "wikivoyage_en"
        (b_nodes Samples.batch_poland) (b_edges Samples.batch_poland)).1
     "Wikivoyage_PL"
     (b_nodes Samples.batch_warsaw) (b_edges Samples.batch_warsaw)).2
  = Path "" ["out"; "wikivoyage"; "graph.json"].
Proof.
  refine (eq_trans
            (proj1 (sources_share_graph_file (Path "" ["out"]) ∅
                      "wikivoyage_en" "Wikivoyage_PL"
                      (b_nodes Samples.batch_poland)
                      (b_nodes Samples.batch_warsaw)
                      (b_edges Samples.batch_poland)
                      (b_edges Samples.batch_warsaw) _)) _);
    vm_compute; reflexivity.
Defined.

(** *** What a merge adds *)

(** X15: after a merge, the id of every node of the batch that has one
    and the triple of every edge of the batch are in the graph; the graph
    has at least the nodes and edges of the file and at most those of the
    batch more; and the stored counts are the lengths of the lists. *)
Theorem update_global_graph_complete
    (file : option graph_data) (source : string)
    (new_nodes : list node) (new_edges : list edge) :
  let graph := update_global_graph file source new_nodes new_edges in
  (∀ n, n ∈ new_nodes → has_id n = true →
     node_id n ∈ map node_id (nodes graph))
  ∧ (∀ e, e ∈ new_edges → edge_key e ∈ map edge_key (edges graph))
  ∧ (List.length (file_nodes file) <= List.length (nodes graph)
     <= List.length (file_nodes file) + List.length new_nodes)%nat
  ∧ (List.length (file_edges file) <= List.length (edges graph)
     <= List.length (file_edges file) + List.length new_edges)%nat
  ∧ node_count (metadata graph) = List.length (nodes graph)
  ∧ edge_count (metadata graph) = List.length (edges graph).
Proof.
  intros graph. unfold graph.
  rewrite update_metadata. cbv zeta. rewrite update_nodes, update_edges.
  split; [|split; [|split; [|split; [|split; reflexivity]]]].
  - intros n Hin Hid. by apply fold_covers; [apply index_by_indexes|..].
  - intros e Hin. by apply fold_covers; [apply index_by_indexes|..].
  - apply (fold_length node_id has_id new_nodes (file_nodes file, _)).
  - apply (fold_length edge_key (fun _ => true) new_edges (file_edges file, _)).
Qed.

Lemma update_node_ids file source new_nodes new_edges :
  (list_to_set
     (map node_id
        (nodes (update_global_graph file source new_nodes new_edges)))
   : gset value)
  = list_to_set (map node_id (file_nodes file))
    ∪ list_to_set (map node_id (List.filter has_id new_nodes)).
Proof. rewrite update_nodes. apply fold_keys, index_by_indexes. Qed.

Lemma update_edge_keys file source new_nodes new_edges :
  (list_to_set
     (map edge_key
        (edges (update_global_graph file source new_nodes new_edges)))
   : gset (value * value * value))
  = list_to_set (map edge_key (file_edges file))
    ∪ list_to_set (map edge_key new_edges).
Proof.
  rewrite update_edges.
  rewrite (fold_keys edge_key (fun _ => true) new_edges
             (file_edges file, index_by edge_key (file_edges file)))
    by apply index_by_indexes.
  simpl. f_equal. f_equal. f_equal.
  induction new_edges as [|e es IH]; [reflexivity|]. simpl. by rewrite IH.
Qed.

(** X16: the order of two merges does not matter for what the graph
    holds: merging a batch and then another gives the same set of node
    ids and the same set of edge triples as merging them the other way
    round. *)
Theorem merge_order_same_keys (file : option graph_data) (a b : batch) :
  (list_to_set (map node_id (file_nodes (run_merges file [a; b])))
   : gset value)
  = list_to_set (map node_id (file_nodes (run_merges file [b; a])))
  ∧ (list_to_set (map edge_key (file_edges (run_merges file [a; b])))
     : gset (value * value * value))
    = list_to_set (map edge_key (file_edges (run_merges file [b; a]))).
Proof.
  unfold run_merges. cbn [fold_left file_nodes file_edges].
  rewrite !update_node_ids, !update_edge_keys.
  cbn [file_nodes file_edges].
  rewrite !update_node_ids, !update_edge_keys.
  split; [rewrite <- !(assoc_L (∪)) | rewrite <- !(assoc_L (∪))];
    f_equal; apply (comm_L (∪)).
Qed.

(** *** Appending to a data file *)

Lemma append_fold (ids : gset value) (data acc : list (gmap string value)) :
  fold_left
    (fun existing_data item =>
       if bool_decide (source_url item ∉ ids)
       then existing_data ++ [item] else existing_data)
    data acc
  = acc ++ List.filter (fun item => bool_decide (source_url item ∉ ids)) data.
Proof.
  revert acc. induction data as [|item data IH]; intros acc; simpl.
  - by rewrite app_nil_r.
  - rewrite IH. case_bool_decide; [by rewrite <- app_assoc | done].
Qed.

Lemma save_append_existing existing data :
  save_data_to_source_file (Some existing) data true
  = existing
    ++ List.filter
         (fun item => bool_decide (source_url item ∉ url_ids existing)) data.
Proof. apply append_fold. Qed.

Lemma elem_of_url_ids (items : list (gmap string value)) (u : value) :
  u ∈ url_ids items ↔ truthy u = true ∧ u ∈ map source_url items.
Proof.
  unfold url_ids. rewrite elem_of_list_to_set, list_elem_of_In, filter_In,
    <- list_elem_of_In. tauto.
Qed.

(** X17: appending to an existing data file keeps what the file holds, in
    place, and adds behind it items of the new data only; an item whose
    url is already in the file is never added. *)
Theorem save_append_keeps_existing
    (existing data : list (gmap string value)) :
  ∃ added,
    save_data_to_source_file (Some existing) data true = existing ++ added
    ∧ ∀ item, item ∈ added →
        item ∈ data
        ∧ (truthy (source_url item) = true →
           source_url item ∉ map source_url existing).
Proof.
  eexists. split; [apply save_append_existing|].
  intros item Hin. apply list_elem_of_In, filter_In in Hin as [Hin Hnew].
  split; [by apply list_elem_of_In|]. intros Hurl Hold.
  apply bool_decide_eq_true_1 in Hnew. apply Hnew, elem_of_url_ids. done.
Qed.

Lemma filter_without_url (data : list (gmap string value)) :
  Forall (fun item => truthy (source_url item) = true) data →
  List.filter (fun item => negb (truthy (source_url item))) data = [].
Proof.
  induction 1 as [|item data Hitem _ IH]; [reflexivity|].
  simpl. by rewrite Hitem.
Qed.

(** X18: saving the same data a second time with [append] adds again
    exactly the items without url (missing, [None] or empty), in order;
    with a url on every item, the second save changes nothing. *)
Theorem save_append_twice
    (file : option (list (gmap string value)))
    (data : list (gmap string value)) :
  let first := save_data_to_source_file file data true in
  save_data_to_source_file (Some first) data true
  = first ++ List.filter (fun item => negb (truthy (source_url item))) data
  ∧ (Forall (fun item => truthy (source_url item) = true) data →
     save_data_to_source_file (Some first) data true = first).
Proof.
  intros first.
  assert (Hcover : ∀ item, item ∈ data → truthy (source_url item) = true →
            source_url item ∈ url_ids first).
  { intros item Hin Hurl. apply elem_of_url_ids. split; [done|].
    unfold first. destruct file as [existing|];
      [|apply list_elem_of_fmap; by exists item].
    rewrite save_append_existing, map_app, elem_of_app.
    destruct (decide (source_url item ∈ url_ids existing)) as [Hold|Hnew].
    - left. by apply elem_of_url_ids in Hold as [_ ?].
    - right. apply list_elem_of_fmap. exists item. split; [done|].
      apply list_elem_of_In, filter_In.
      split; [by apply list_elem_of_In | by apply bool_decide_eq_true_2]. }
  assert (Hsecond : save_data_to_source_file (Some first) data true
                    = first ++ List.filter
                                 (fun item => negb (truthy (source_url item)))
                                 data).
  { rewrite save_append_existing. f_equal. apply filter_ext_in.
    intros item Hin%list_elem_of_In.
    destruct (truthy (source_url item)) eqn:Hurl; simpl.
    - apply bool_decide_eq_false_2. intros Hnot. by apply Hnot, Hcover.
    - apply bool_decide_eq_true_2. intros [Hu _]%elem_of_url_ids. congruence. }
  split; [exact Hsecond|]. intros Hall. rewrite Hsecond.
  rewrite (filter_without_url data Hall). apply app_nil_r.
Qed.

(** *** Grouping by source *)

Lemma grouped_get_add grouped (source : value) (item : gmap string value)
    (k : value) :
  grouped_get (add_to_group grouped source item) k
  = if bool_decide (k = source)
    then Some (default [] (grouped_get grouped source) ++ [item])
    else grouped_get grouped k.
Proof.
  induction grouped as [|[k0 group] rest IH]; simpl.
  - destruct (decide (k = source)) as [->|Hk].
    + by rewrite !bool_decide_eq_true_2.
    + rewrite !bool_decide_eq_false_2; [done | done | congruence].
  - destruct (decide (k0 = source)) as [->|H0].
    + rewrite (bool_decide_eq_true_2 (source = source)) by done. simpl.
      destruct (decide (k = source)) as [->|Hk].
      * by rewrite !bool_decide_eq_true_2.
      * rewrite !bool_decide_eq_false_2; [done | done | congruence].
    + rewrite (bool_decide_eq_false_2 (k0 = source)) by done. simpl.
      rewrite IH. destruct (decide (k = source)) as [->|Hk].
      * rewrite (bool_decide_eq_true_2 (source = source)) by done.
        by rewrite (bool_decide_eq_false_2 (k0 = source)).
      * rewrite (bool_decide_eq_false_2 (k = source)) by done. done.
Qed.

Lemma add_to_group_keys grouped (source : value) (item : gmap string value) :
  map fst (add_to_group grouped source item)
  = if bool_decide (source ∈ map fst grouped) then map fst grouped
    else map fst grouped ++ [source].
Proof.
  induction grouped as [|[k0 group] rest IH]; simpl.
  - done.
  - destruct (decide (k0 = source)) as [->|H0].
    + rewrite (bool_decide_eq_true_2 (source = source)) by done. simpl.
      rewrite bool_decide_eq_true_2; [done | by left].
    + rewrite (bool_decide_eq_false_2 (k0 = source)) by done. simpl.
      rewrite IH. destruct (decide (source ∈ map fst rest)) as [Hin|Hin].
      * rewrite (bool_decide_eq_true_2 _ Hin).
        rewrite bool_decide_eq_true_2; [done | by right].
      * rewrite (bool_decide_eq_false_2 _ Hin).
        rewrite bool_decide_eq_false_2; [done|].
        intros [?|?]%elem_of_cons; congruence.
Qed.

Lemma group_fold (items : list (gmap string value)) :
  ∀ grouped (k : value),
    NoDup (map fst grouped) →
    let result :=
      fold_left
        (fun grouped item => add_to_group grouped (source_of item) item)
        items grouped in
    NoDup (map fst result)
    ∧ grouped_get result k
      = match
          grouped_get grouped k,
          List.filter (fun item => bool_decide (source_of item = k)) items
        with
        | None, [] => None
        | group, more => Some (default [] group ++ more)
        end.
Proof.
  induction items as [|item items IH]; intros grouped k Hnd; simpl.
  - split; [done|]. destruct (grouped_get grouped k); [|done].
    simpl. by rewrite app_nil_r.
  - assert (Hnd' : NoDup (map fst (add_to_group grouped (source_of item) item))).
    { rewrite add_to_group_keys. case_bool_decide as Hin; [done|].
      apply NoDup_app. split; [done|]. split; [|apply NoDup_singleton].
      intros x Hx ->%list_elem_of_singleton. done. }
    destruct (IH _ k Hnd') as [Hres ->]. split; [exact Hres|].
    rewrite grouped_get_add.
    destruct (decide (k = source_of item)) as [->|Hk].
    + rewrite !bool_decide_eq_true_2 by done.
      destruct (grouped_get grouped (source_of item)); simpl.
      * by rewrite <- app_assoc.
      * done.
    + rewrite (bool_decide_eq_false_2 (k = source_of item)) by done.
      by rewrite (bool_decide_eq_false_2 (source_of item = k)).
Qed.

(** X19: [group_by_source] puts under each source the items of that
    source, all of them and in their order, and has no entry for a source
    without item; the sources are the keys, each once. An item without
    ["source"] counts under ["unknown"]. *)
Theorem group_by_source_groups (items : list (gmap string value)) (k : value) :
  NoDup (map fst (group_by_source items))
  ∧ grouped_get (group_by_source items) k
    = match
        List.filter (fun item => bool_decide (source_of item = k)) items
      with
      | [] => None
      | group => Some group
      end.
Proof.
  destruct (group_fold items [] k) as [Hnd Hget]; [constructor|].
  split; [exact Hnd|]. unfold group_by_source. rewrite Hget. simpl.
  by destruct (List.filter _ items).
Qed.

End FileManagerMore.

(** ** The folder of a page *)
Module PathProps.
Import PyStr PyStrFacts Breadcrumbs BreadcrumbProps FileManager.

Lemma keep_not_slash (c : ascii) :
  keep_char c = true → negb (Ascii.eqb c "/") = true.
Proof.
  intros Hk. destruct (Ascii.eqb_spec c "/") as [->|_]; [|reflexivity].
  vm_compute in Hk. discriminate.
Qed.

Lemma split_without_sep (x : string) :
  all_chars (fun c => negb (Ascii.eqb c "/")) x = true →
  split "/" x = [x].
Proof.
  unfold split. induction x as [|c x IH]; [reflexivity|].
  simpl all_chars. intros [Hc Hx]%andb_true_iff.
  cbn [split_from]. rewrite prefix_cons_ne, (IH Hx); [reflexivity|].
  apply negb_true_iff, Ascii.eqb_neq in Hc. congruence.
Qed.

Lemma split_app_sep (x t : string) :
  all_chars (fun c => negb (Ascii.eqb c "/")) x = true →
  split "/" (x +:+ "/" +:+ t) = x :: split "/" t.
Proof.
  unfold split. induction x as [|c x IH].
  - intros _. change ("" +:+ "/" +:+ t) with (String "/" t).
    cbn [split_from]. simpl String.prefix. rewrite prefix_empty.
    by destruct (ascii_dec "/" "/").
  - simpl all_chars. intros [Hc Hx]%andb_true_iff.
    change (String c x +:+ "/" +:+ t) with (String c (x +:+ "/" +:+ t)).
    cbn [split_from]. rewrite prefix_cons_ne, (IH Hx); [reflexivity|].
    apply negb_true_iff, Ascii.eqb_neq in Hc. congruence.
Qed.

Lemma segment_no_slash (x : string) :
  segment x → all_chars (fun c => negb (Ascii.eqb c "/")) x = true.
Proof.
  intros [_ Hx]. eapply all_chars_weaken; [|exact Hx]. apply keep_not_slash.
Qed.

Lemma split_join (segments : list string) :
  Forall segment segments → segments ≠ [] →
  split "/" (join "/" segments) = segments.
Proof.
  induction 1 as [|x xs Hx Hxs IH]; [done|]. intros _.
  destruct xs as [|y ys].
  - apply split_without_sep, segment_no_slash, Hx.
  - rewrite join_cons, split_app_sep by apply segment_no_slash, Hx.
    by rewrite IH.
Qed.

Lemma segment_is_part (x : string) :
  segment x → nonempty x && negb (String.eqb x ".") = true ∧ x ≠ "..".
Proof.
  intros [Hne Hx]. split.
  - apply andb_true_iff. split; [by apply nonempty_true|].
    apply negb_true_iff, String.eqb_neq. intros ->. discriminate Hx.
  - intros ->. discriminate Hx.
Qed.

Lemma parts_of_join (segments : list string) :
  Forall segment segments → parts_of (join "/" segments) = segments.
Proof.
  intros Hseg. destruct segments as [|x xs]; [reflexivity|].
  unfold parts_of. rewrite split_join by done.
  induction Hseg as [|y ys Hy _ IH]; [reflexivity|].
  simpl. destruct (segment_is_part y Hy) as [-> _]. by rewrite IH.
Qed.

Lemma root_of_join (segments : list string) :
  Forall segment segments → root_of (join "/" segments) = "".
Proof.
  intros Hseg. destruct Hseg as [|x xs Hx _]; [reflexivity|].
  destruct (segment_head _ Hx) as (c & x' & -> & Hc).
  assert (E : ∃ r, join "/" (String c x' :: xs) = String c r).
  { destruct xs; [by eexists | rewrite join_cons; by eexists]. }
  destruct E as [r ->]. unfold root_of.
  destruct c as [[] [] [] [] [] [] [] []]; try reflexivity. congruence.
Qed.

(** X20: with the normalized breadcrumbs of a page as its breadcrumb
    path, the folder of the page lies below the folder of the source, one
    directory down per breadcrumb segment; no segment is empty, holds a
    slash, or is [.] or [..], so the folder cannot leave the source
    folder. *)
Theorem query_folder_below_source (output_dir : path) (source query : string)
    (breadcrumbs : list crumb) :
  _normalize_breadcrumb_path breadcrumbs ≠ "" →
  get_query_folder (Some output_dir) source query
    (Some (_normalize_breadcrumb_path breadcrumbs))
  = Html.Ok
      (Path (root (get_source_folder output_dir source))
         (parts (get_source_folder output_dir source)
          ++ omap crumb_part breadcrumbs))
  ∧ Forall (fun x => segment x ∧ x ≠ ".." ∧ x ≠ "." ∧ contains "/" x = false)
      (omap crumb_part breadcrumbs).
Proof.
  intros Hne. pose proof (parts_segments breadcrumbs) as Hseg. split.
  - unfold get_query_folder.
    rewrite (proj2 (nonempty_true _) Hne).
    rewrite well_formed_not_blank
      by (done || apply normalize_path_well_formed_aux).
    simpl andb. cbv iota. f_equal. unfold joinpath.
    rewrite normalize_join, root_of_join, parts_of_join by done.
    reflexivity.
  - eapply Forall_impl; [exact Hseg|]. intros x Hx.
    destruct (segment_is_part x Hx) as [Hpart Hdots].
    split; [done|]. split; [done|]. split.
    + apply andb_true_iff in Hpart as [_ Hdot].
      by apply negb_true_iff, String.eqb_neq in Hdot.
    + by apply contains_single_free, segment_no_slash.
Qed.

Lemma query_folder_below_source_witness :
  get_query_folder (Some (Path "" ["out"])) "wikivoyage_en" "Poland"
    (Some (_normalize_breadcrumb_path Samples.chain_poland))
  = Html.Ok (Path "" ["out"; "wikivoyage"; "europe"; "central_europe"; "poland"]).
Proof.
  refine (eq_trans
            (proj1 (query_folder_below_source (Path "" ["out"])
                      "wikivoyage_en" "Poland" Samples.chain_poland _)) _).
  - vm_compute. discriminate.
  - vm_compute. reflexivity.
Defined.

End PathProps.
